(** * Reporte de Turnos: the shift-report consolidation script

    A shallow embedding of [ReportesTurnoopenpyxl.py]: [process_file]
    (one workbook to one table) and [process_year_folder] (a folder of
    workbooks to one output sheet), together with the parts of openpyxl and
    pandas (1.x / 2.x, object-dtype labels) that the script calls.

    Conventions.
    - A Python [str] is the [string] of its UTF-8 encoding: a code point is
      one to four bytes.  Prefixes, suffixes and equality are those of the
      bytes; [strip] works code point by code point and removes every code
      point that is white space for Python, in and beyond the ASCII range.
    - A cell value read by openpyxl is a [cell].  Floats and the date and
      time classes carry their [str()] rendering, which is all the script
      ever asks of them.
    - Logging is a list of records, exceptions are values of [exn]; a
      computation is a pair of the records it logged and its outcome.
      Only [Exception] and its subclasses are modelled. *)

From stdpp Require Import base strings list gmap pretty.

Open Scope string_scope.
Open Scope list_scope.
Open Scope nat_scope.

(** ** Python strings *)

Definition utf8 (bytes : list N) : string :=
  String.string_of_list_ascii (Ascii.ascii_of_N <$> bytes).

(** [chr(n)]: the code point [n], encoded. *)
Definition chr (n : N) : string :=
  (if n <? 0x80 then utf8 [n]
   else if n <? 0x800 then utf8 [0xC0 + n / 64; 0x80 + n mod 64]
   else if n <? 0x10000 then
     utf8 [0xE0 + n / 4096; 0x80 + (n / 64) mod 64; 0x80 + n mod 64]
   else
     utf8 [0xF0 + n / 262144; 0x80 + (n / 4096) mod 64;
           0x80 + (n / 64) mod 64; 0x80 + n mod 64])%N.

(** A byte [10xxxxxx] continues the code point begun before it. *)
Definition is_continuation (c : Ascii.ascii) : bool :=
  let n := Ascii.N_of_ascii c in ((0x80 <=? n) && (n <? 0xC0))%N.

(** The code points of a string in order, each as the bytes that encode
    it. *)
Fixpoint code_points (s : string) : list string :=
  match s with
  | EmptyString => []
  | String c s' =>
      match code_points s' with
      | String c' p :: ps =>
          if is_continuation c' then String c (String c' p) :: ps
          else String c EmptyString :: String c' p :: ps
      | ps => String c EmptyString :: ps
      end
  end.

(** The code points for which [str.isspace] holds (CPython's
    [_PyUnicode_IsWhitespace]): the ASCII controls and the space, NEL,
    the no-break space, and the spaces and separators of U+1680, U+2000 to
    U+200A, U+2028, U+2029, U+202F, U+205F and U+3000. *)
Definition whitespace : list N :=
  [0x9; 0xA; 0xB; 0xC; 0xD; 0x1C; 0x1D; 0x1E; 0x1F; 0x20; 0x85; 0xA0; 0x1680;
   0x2000; 0x2001; 0x2002; 0x2003; 0x2004; 0x2005; 0x2006; 0x2007; 0x2008;
   0x2009; 0x200A; 0x2028; 0x2029; 0x202F; 0x205F; 0x3000]%N.

Definition py_isspace (p : string) : bool := bool_decide (p ∈ chr <$> whitespace).

(** The code points left when the leading white space is taken off. *)
Fixpoint lstrip (ps : list string) : list string :=
  match ps with
  | [] => []
  | p :: ps' => if py_isspace p then lstrip ps' else ps
  end.

(** [s.strip()]: leading and trailing white space removed. *)
Definition strip (s : string) : string :=
  String.concat EmptyString (reverse (lstrip (reverse (lstrip (code_points s))))).

(** [s.startswith(p)] *)
Definition startswith (s p : string) : bool := String.prefix p s.

(** [s.endswith(p)] *)
Definition endswith (s p : string) : bool :=
  String.prefix (String.rev p) (String.rev s).

(** ** Cell values *)

Inductive cell : Type :=
| CNone
| CStr (s : string)
| CInt (n : Z)
| CFloat (repr : string)
| CBool (b : bool)
| CDateTime (repr : string)
| CDate (repr : string)
| CTime (repr : string)
| CTimeDelta (repr : string).

#[global] Instance cell_eq_dec : EqDecision cell.
Proof. solve_decision. Defined.

(** [str(cell)] *)
Definition py_str (c : cell) : string :=
  match c with
  | CNone => "None"
  | CStr s => s
  | CInt n => pretty n
  | CBool true => "True"
  | CBool false => "False"
  | CFloat r | CDateTime r | CDate r | CTime r | CTimeDelta r => r
  end.

(** [str(cell) if cell is not None else ''] (line 54) *)
Definition coerce (c : cell) : string :=
  match c with
  | CNone => EmptyString
  | _ => py_str c
  end.

(** ** Exceptions and logging *)

Inductive exn : Type :=
| AttributeError (msg : string)
| ValueError (msg : string)
| KeyError (msg : string)
| InvalidIndexError (msg : string)
| OtherException (msg : string).

Inductive level : Type := INFO | WARNING | ERROR.

Inductive message : Type :=
| MsgProcessingFile (file_path : string)
| MsgSkippingSheet (sheet_name : string)
| MsgProcessingSheet (sheet_name : string)
| MsgLessThan5Rows (sheet_name file_path : string)
| MsgNoValidRows (sheet_name file_path : string)
| MsgErrorFiltering (e : exn)
| MsgColumns (sheet_name : string) (cols : list cell)
| MsgNoValidData (file_path : string)
| MsgErrorProcessingFile (file_path : string) (e : exn)
| MsgProcessingFileOf (i n : nat) (file_name : string)
| MsgNoValidDataFolder (input_folder : string)
| MsgFinalColumns (cols : list cell)
| MsgSaved (output_file_path : string).

Definition log_record : Type := level * message.

(** A computation: what it logged, then an exception or a value. *)
Definition M (A : Type) : Type := list log_record * (exn + A).

Definition ret {A} (a : A) : M A := ([], inr a).

Definition bind {A B} (m : M A) (k : A → M B) : M B :=
  match m with
  | (l, inl e) => (l, inl e)
  | (l, inr a) => let '(l', r) := k a in (l ++ l', r)
  end.

Definition logging (lv : level) (msg : message) : M unit := ([(lv, msg)], inr tt).

Definition lift {A} (r : exn + A) : M A := ([], r).

(** [try: m  except Exception as e: h e] *)
Definition try_except {A} (m : M A) (h : exn → M A) : M A :=
  match m with
  | (l, inl e) => let '(l', r) := h e in (l ++ l', r)
  | (l, inr a) => (l, inr a)
  end.

Notation "x <- m ;; k" := (bind m (λ x, k))
  (at level 100, m at next level, right associativity, only parsing).
Notation "m ;; k" := (bind m (λ _, k))
  (at level 100, right associativity, only parsing).

Definition logs {A} (m : M A) : list log_record := m.1.
Definition outcome {A} (m : M A) : exn + A := m.2.

(** ** pandas: labels and the [.str] accessor

    [infer_dtype] follows [pandas._libs.lib.infer_dtype(values, skipna=True)]
    on the objects of an [Index]: the first value that is not null picks the
    branch, and a branch whose test fails falls through to the last loop.
    (An [Index] of numbers only, booleans only or dates only may be stored
    with its own dtype; the kind inferred then is another one outside
    [allowed_types], so the accessor is refused for the same tuples.) *)

Inductive inferred : Type :=
| IEmpty | IString | IInteger | IMixedIntegerFloat | IMixedInteger
| IFloating | IBoolean | IDatetime | IDate | ITime | ITimedelta | IMixed.

Definition is_null (c : cell) : bool := if c is CNone then true else false.
Definition is_str (c : cell) : bool := if c is CStr _ then true else false.
Definition is_integer (c : cell) : bool := if c is CInt _ then true else false.
Definition is_float (c : cell) : bool := if c is CFloat _ then true else false.
Definition is_bool (c : cell) : bool := if c is CBool _ then true else false.
Definition is_datetime (c : cell) : bool := if c is CDateTime _ then true else false.
(** [PyDate_Check]: [datetime] is a subclass of [date]. *)
Definition is_date (c : cell) : bool :=
  match c with CDate _ | CDateTime _ => true | _ => false end.
Definition is_time (c : cell) : bool := if c is CTime _ then true else false.
Definition is_timedelta (c : cell) : bool := if c is CTimeDelta _ then true else false.

(** A validator of [lib.pyx] with [skipna]: every value is null or typed. *)
Definition is_array (typed : cell → bool) (values : list cell) : bool :=
  forallb (λ c, is_null c || typed c) values.

Definition mixed (values : list cell) : inferred :=
  if existsb is_integer values then IMixedInteger else IMixed.

Definition infer_dtype (values : list cell) : inferred :=
  match List.find (λ c, negb (is_null c)) values with
  | None => IEmpty
  | Some val =>
    match val with
    | CNone => IEmpty
    | CTimeDelta _ =>
        if is_array is_timedelta values then ITimedelta else mixed values
    | CInt _ =>
        if is_array is_integer values then IInteger
        else if is_array (λ c, is_integer c || is_float c) values
        then IMixedIntegerFloat
        else IMixedInteger
    | CDateTime _ =>
        if is_array is_datetime values then IDatetime
        else if is_array is_date values then IDate
        else mixed values
    | CDate _ => if is_array is_date values then IDate else mixed values
    | CTime _ => if is_array is_time values then ITime else mixed values
    | CFloat _ =>
        if is_array is_float values then IFloating
        else if is_array (λ c, is_integer c || is_float c) values
        then IMixedIntegerFloat
        else mixed values
    | CBool _ => if is_array is_bool values then IBoolean else mixed values
    | CStr _ => if is_array is_str values then IString else mixed values
    end
  end.

(** [StringMethods._validate]: [allowed_types] is
    ["string", "empty", "bytes", "mixed", "mixed-integer"]. *)
Definition allowed_types (t : inferred) : bool :=
  match t with
  | IString | IEmpty | IMixed | IMixedInteger => true
  | _ => false
  end.

Definition str_accessor (index : list cell) : exn + unit :=
  if allowed_types (infer_dtype index) then inr ()
  else inl (AttributeError "Can only use .str accessor with string values!").

(** [index.str.contains('^' + prefix)]: [re.search] anchored at the start
    for a string, NaN ([None] here) for every other object. *)
Definition str_contains_start (index : list cell) (prefix : string)
  : exn + list (option bool) :=
  match str_accessor index with
  | inl e => inl e
  | inr _ =>
      inr (map (λ c, if c is CStr s then Some (startswith s prefix) else None)
               index)
  end.

(** [mask == False], element by element: NaN is not equal to [False]. *)
Definition eq_False (mask : list (option bool)) : list bool :=
  map (λ o, if o is Some false then true else false) mask.

(** NaN as a label. *)
Definition label_nan : cell := CFloat "nan".

(** [index.str.strip()] *)
Definition str_strip (index : list cell) : exn + list cell :=
  match str_accessor index with
  | inl e => inl e
  | inr _ => inr (map (λ c, if c is CStr s then CStr (strip s) else label_nan) index)
  end.

(** ** pandas: tables

    A [DataFrame] holds its column labels and its rows; a value is a string
    or missing ([None]: Python's [None] or NaN).  The row labels are the
    default range everywhere in the script. *)

Record DataFrame : Type := mkDataFrame {
  columns : list cell;
  records : list (list (option string));
}.

#[global] Instance DataFrame_eq_dec : EqDecision DataFrame.
Proof. solve_decision. Defined.

(** [pd.DataFrame(rows, columns=headers)] for a list of lists: the width is
    that of the longest row, shorter rows are filled with [None], and a
    number of labels different from the width is a [ValueError]. *)
Definition DataFrame_new (data : list (list string)) (headers : list cell)
  : exn + DataFrame :=
  match data with
  | [] => inr (mkDataFrame headers [])
  | _ =>
      let width := max_list (map length data) in
      if decide (length headers = width) then
        inr (mkDataFrame headers
               (map (λ r, map Some r ++ replicate (width - length r) None) data))
      else inl (ValueError "columns passed, passed data had a different number of columns")
  end.

(** Selection by a boolean mask. *)
Fixpoint compress {A} (mask : list bool) (l : list A) : list A :=
  match mask, l with
  | b :: mask', x :: l' => if b then x :: compress mask' l' else compress mask' l'
  | _, _ => []
  end.

(** [df.loc[:, mask]] *)
Definition loc_columns (df : DataFrame) (mask : list bool) : DataFrame :=
  mkDataFrame (compress mask (columns df)) (map (compress mask) (records df)).

(** [df.loc[:, df.columns.str.contains('^Unnamed') == False]] (line 61) *)
Definition filter_unnamed (df : DataFrame) : exn + DataFrame :=
  match str_contains_start (columns df) "Unnamed" with
  | inl e => inl e
  | inr mask => inr (loc_columns df (eq_False mask))
  end.

(** A string key names a label when the label is that string. *)
Definition label_is (key : string) (label : cell) : bool :=
  if label is CStr s then String.eqb s key else false.

(** [df[key] = value] for a scalar: every column already labelled [key] is
    overwritten where it stands; without one, a column is added last. *)
Definition setitem (key value : string) (df : DataFrame) : DataFrame :=
  if existsb (label_is key) (columns df) then
    mkDataFrame (columns df)
      (map (λ r, zip_with (λ label x, if label_is key label then Some value else x)
                          (columns df) r)
           (records df))
  else
    mkDataFrame (columns df ++ [CStr key]) (map (λ r, r ++ [Some value]) (records df)).

(** *** [pd.concat(objs, ignore_index=True)]

    The new labels are those of the first table when all tables have the
    same labels, and otherwise the labels of all tables without repetition,
    in the order of first appearance.  A table whose labels are not the new
    labels is reindexed, which pandas refuses ([InvalidIndexError]) when its
    own labels repeat; a label a table lacks gives a missing value.  Labels
    are compared as the strings they are wherever the script concatenates. *)

Fixpoint unique_from (seen l : list cell) : list cell :=
  match l with
  | [] => []
  | x :: l' =>
      if bool_decide (x ∈ seen) then unique_from seen l'
      else x :: unique_from (x :: seen) l'
  end.

Definition unique (l : list cell) : list cell := unique_from [] l.

Definition union_indexes (indexes : list (list cell)) : list cell :=
  match indexes with
  | [] => []
  | index :: others =>
      if forallb (λ other, bool_decide (index = other)) others then index
      else unique (mjoin indexes)
  end.

Definition get_loc (labels : list cell) (label : cell) : option nat :=
  fst <$> list_find (λ x, x = label) labels.

Definition reindex_row (labels new_labels : list cell) (r : list (option string))
  : list (option string) :=
  map (λ label, match get_loc labels label with
                | Some i => default None (r !! i)
                | None => None
                end) new_labels.

Definition reindex (new_labels : list cell) (df : DataFrame)
  : exn + list (list (option string)) :=
  if bool_decide (columns df = new_labels) then inr (records df)
  else if bool_decide (NoDup (columns df)) then
    inr (map (reindex_row (columns df) new_labels) (records df))
  else inl (InvalidIndexError "Reindexing only valid with uniquely valued Index objects").

Fixpoint concat_rows (new_labels : list cell) (objs : list DataFrame)
  : exn + list (list (option string)) :=
  match objs with
  | [] => inr []
  | df :: objs' =>
      match reindex new_labels df with
      | inl e => inl e
      | inr rs =>
          match concat_rows new_labels objs' with
          | inl e => inl e
          | inr rs' => inr (rs ++ rs')
          end
      end
  end.

Definition pd_concat (objs : list DataFrame) : exn + DataFrame :=
  match objs with
  | [] => inl (ValueError "No objects to concatenate")
  | _ =>
      let new_labels := union_indexes (columns <$> objs) in
      match concat_rows new_labels objs with
      | inl e => inl e
      | inr rs => inr (mkDataFrame new_labels rs)
      end
  end.

(** *** [df.to_excel(writer, index=False, startrow=...)]

    The sheet written is a finite map from (row, column), both counted from
    0, to the value of the cell.  The formatter yields the labels as the
    first row and then the rows of the table, a missing value as the empty
    string; the writer puts row [r] of these at row [startrow + r]. *)

Abbreviation Worksheet := (gmap (nat * nat) cell).

Fixpoint write_row (r c : nat) (vals : list cell) (ws : Worksheet) : Worksheet :=
  match vals with
  | [] => ws
  | v :: vals' => write_row r (S c) vals' (<[(r, c) := v]> ws)
  end.

Fixpoint write_rows (r : nat) (cells : list (list cell)) (ws : Worksheet) : Worksheet :=
  match cells with
  | [] => ws
  | vals :: cells' => write_rows (S r) cells' (write_row r 0 vals ws)
  end.

Definition formatted_cells (df : DataFrame) : list (list cell) :=
  columns df :: map (map (λ v, CStr (default EmptyString v))) (records df).

Definition to_excel (df : DataFrame) (startrow : nat) : Worksheet :=
  write_rows startrow (formatted_cells df) ∅.

(** ** openpyxl: workbooks

    A sheet of a workbook has a title and one of three states; a worksheet
    has [values], its rows as tuples, which a chart sheet lacks
    ([values = None]: asking for it is an [AttributeError]). *)

Inductive SheetState : Type := visible | hidden | veryHidden.

#[global] Instance SheetState_eq_dec : EqDecision SheetState.
Proof. solve_decision. Defined.

Record Sheet : Type := mkSheet {
  title : string;
  sheet_state : SheetState;
  values : option (list (list cell));
}.

Definition Workbook : Type := list Sheet.

(** [workbook.sheetnames] *)
Definition sheetnames (workbook : Workbook) : list string := title <$> workbook.

(** [workbook[sheet_name]]: the first sheet of that title. *)
Definition getitem (workbook : Workbook) (sheet_name : string) : exn + Sheet :=
  match List.find (λ s, String.eqb (title s) sheet_name) workbook with
  | Some s => inr s
  | None => inl (KeyError sheet_name)
  end.

(** [sheet.values] *)
Definition sheet_values (sheet : Sheet) : exn + list (list cell) :=
  match values sheet with
  | Some data => inr data
  | None => inl (AttributeError "'Chartsheet' object has no attribute 'values'")
  end.

(** ** The script

    What the script asks of the operating system and of openpyxl's reader is
    left open: [os.path.basename], [os.path.join], [os.listdir] and
    [openpyxl.load_workbook(file_path, data_only=True)], the last two with
    the exception they may raise. *)

Section Script.

Variable os_path_basename : string → string.
Variable os_path_join : string → string → string.
Variable os_listdir : string → exn + list string.
Variable load_workbook : string → exn + Workbook.

(** [data[4][:11]] (line 46) *)
Definition sheet_headers (data : list (list cell)) : list cell :=
  take 11 (default [] (data !! 4)).

(** [[row[:11] for row in data[5:]]] (line 47) *)
Definition sheet_rows (data : list (list cell)) : list (list cell) :=
  take 11 <$> drop 5 data.

(** Lines 41-75 of the loop body, on the rows of the sheet; [None] is a
    turn that ended in [continue]. *)
Definition extract_table (file_path sheet_name : string)
    (data : list (list cell)) : M (option DataFrame) :=
  if length data <? 5 then
    logging WARNING (MsgLessThan5Rows sheet_name file_path) ;;
    ret None
  else
    let headers := sheet_headers data in
    let rows := sheet_rows data in
    if bool_decide (rows = []) then
      logging WARNING (MsgNoValidRows sheet_name file_path) ;;
      ret None
    else
      let rows := map (map coerce) rows in
      df <- lift (DataFrame_new rows headers) ;;
      match filter_unnamed df with
      | inl e =>
          logging ERROR (MsgErrorFiltering e) ;;
          ret None
      | inr df =>
          stripped <- lift (str_strip (columns df)) ;;
          let df := mkDataFrame stripped (records df) in
          logging INFO (MsgColumns sheet_name (columns df)) ;;
          let df := setitem "File Name" (os_path_basename file_path) df in
          let df := setitem "Sheet Name" sheet_name df in
          ret (Some df)
      end.

(** One turn of the loop over [workbook.sheetnames] (lines 28-75). *)
Definition process_sheet (file_path : string) (workbook : Workbook)
    (sheet_name : string) : M (option DataFrame) :=
  skip <- (if String.eqb sheet_name "Hoja1" then ret true
           else sheet <- lift (getitem workbook sheet_name) ;;
                ret (bool_decide (sheet_state sheet = hidden))) ;;
  if (skip : bool) then
    logging INFO (MsgSkippingSheet sheet_name) ;;
    ret None
  else
    logging INFO (MsgProcessingSheet sheet_name) ;;
    sheet <- lift (getitem workbook sheet_name) ;;
    data <- lift (sheet_values sheet) ;;
    extract_table file_path sheet_name data.

(** The loop over the sheets, [all_data] being the list built so far. *)
Fixpoint process_sheets (file_path : string) (workbook : Workbook)
    (names : list string) (all_data : list DataFrame) : M (list DataFrame) :=
  match names with
  | [] => ret all_data
  | sheet_name :: names' =>
      r <- process_sheet file_path workbook sheet_name ;;
      process_sheets file_path workbook names'
        (match r with Some df => all_data ++ [df] | None => all_data end)
  end.

(** The body of the [try] of [process_file] (lines 23-82). *)
Definition process_file_try (file_path : string) : M (option DataFrame) :=
  workbook <- lift (load_workbook file_path) ;;
  all_data <- process_sheets file_path workbook (sheetnames workbook) [] ;;
  match all_data with
  | [] =>
      logging WARNING (MsgNoValidData file_path) ;;
      ret None
  | _ =>
      df <- lift (pd_concat all_data) ;;
      ret (Some df)
  end.

Definition process_file (file_path : string) : M (option DataFrame) :=
  logging INFO (MsgProcessingFile file_path) ;;
  try_except (process_file_try file_path)
    (λ e, logging ERROR (MsgErrorProcessingFile file_path e) ;;
          ret None).

(** The loop of [process_year_folder] over [enumerate(files)], from index
    [i], with [n = len(files)]. *)
Fixpoint process_files (input_folder : string) (n i : nat)
    (files : list string) (merged_data : list DataFrame) : M (list DataFrame) :=
  match files with
  | [] => ret merged_data
  | file_name :: files' =>
      let file_path := os_path_join input_folder file_name in
      logging INFO (MsgProcessingFileOf (i + 1) n file_name) ;;
      df <- process_file file_path ;;
      process_files input_folder n (S i) files'
        (match df with Some df => merged_data ++ [df] | None => merged_data end)
  end.

(** The four columns of lines 116-119, in the order they are set. *)
Definition annotation_columns : list string :=
  ["Ingeniero de Calidad"; "Status"; "Método 7M"; "Fecha"].

(** Lines 116-119. *)
Definition annotate (merged_df : DataFrame) : DataFrame :=
  let merged_df := setitem "Ingeniero de Calidad" EmptyString merged_df in
  let merged_df := setitem "Status" EmptyString merged_df in
  let merged_df := setitem "Método 7M" EmptyString merged_df in
  let merged_df := setitem "Fecha" EmptyString merged_df in
  merged_df.

(** [process_year_folder]: the value is what was written, the output path
    with the sheet saved there, or [None] when nothing was written. *)
Definition process_year_folder (input_folder output_file_path : string)
  : M (option (string * Worksheet)) :=
  listing <- lift (os_listdir input_folder) ;;
  let files := List.filter (λ f, endswith f ".xlsx") listing in
  merged_data <- process_files input_folder (length files) 0 files [] ;;
  match merged_data with
  | [] =>
      logging ERROR (MsgNoValidDataFolder input_folder) ;;
      ret None
  | _ =>
      merged_df <- lift (pd_concat merged_data) ;;
      logging INFO (MsgFinalColumns (columns merged_df)) ;;
      let merged_df := annotate merged_df in
      let sheet := to_excel merged_df 5 in
      logging INFO (MsgSaved output_file_path) ;;
      ret (Some (output_file_path, sheet))
  end.

(** Lines 72-73. *)
Definition tracked (file_path sheet_name : string) (df : DataFrame) : DataFrame :=
  setitem "Sheet Name" sheet_name
    (setitem "File Name" (os_path_basename file_path) df).

(** The table of one file, [None] when it gave none. *)
Definition file_table (file_path : string) : option DataFrame :=
  match outcome (process_file file_path) with
  | inl _ => None
  | inr r => r
  end.

(** [merged_data] after the loop: the tables of the files, in order. *)
Definition tables_of (input_folder : string) (files : list string) : list DataFrame :=
  omap (λ file_name, file_table (os_path_join input_folder file_name)) files.

End Script.

(** ** Notions of the statements *)

(** A table is rectangular: every row has one value per label. *)
Definition wf (df : DataFrame) : Prop :=
  Forall (λ r, length r = length (columns df)) (records df).

(** The mask of line 61, label by label. *)
Definition kept (label : cell) : bool :=
  if label is CStr s then negb (startswith s "Unnamed") else false.

Definition strip_label (label : cell) : cell :=
  if label is CStr s then CStr (strip s) else label_nan.

(** The table of line 61 with the labels of line 67. *)
Definition selected (headers : list cell) (df0 : DataFrame) : DataFrame :=
  mkDataFrame (strip_label <$> List.filter kept headers)
              (compress (kept <$> headers) <$> records df0).

(** The labels after [df[key] = value]. *)
Definition add_label (key : string) (labels : list cell) : list cell :=
  if existsb (label_is key) labels then labels else labels ++ [CStr key].

(** Every column labelled [key] holds [value] in every row. *)
Definition holds (key value : string) (df : DataFrame) : Prop :=
  ∀ r j, r ∈ records df → columns df !! j = Some (CStr key) →
         r !! j = Some (Some value).

(** The positions at which a mask is true, counted from [n]. *)
Fixpoint true_positions (n : nat) (mask : list bool) : list nat :=
  match mask with
  | [] => []
  | b :: mask' =>
      if b then n :: true_positions (S n) mask' else true_positions (S n) mask'
  end.

(** Column [k] of the table [df] is column [j] of the worksheet [data]: its
    label is the stripped text of the header cell of row 4, and in row [i]
    it holds the text of the cell of worksheet row [5 + i], or, under a
    tracking name, the tracking value of lines 72-73. *)
Definition column_from (base_name sheet_name : string) (data : list (list cell))
    (df : DataFrame) (k j : nat) : Prop :=
  ∃ s, sheet_headers data !! j = Some (CStr s) ∧
       columns df !! k = Some (CStr (strip s)) ∧
       ∀ i row, data !! (5 + i) = Some row →
         ∃ c r, row !! j = Some c ∧ records df !! i = Some r ∧
                r !! k = Some (Some (if String.eqb (strip s) "File Name" then base_name
                                     else if String.eqb (strip s) "Sheet Name"
                                          then sheet_name
                                          else coerce c)).

(** The table [df] is made from the worksheet columns [js], in their order:
    column [k] of the table is worksheet column [js !! k], whatever comes
    after these columns bears a tracking name, there are at most two such,
    every row has one value per label, and there is one row per worksheet
    row from row 5 on.  A worksheet column that is not in [js] has no column
    and no cell in the table. *)
Definition made_from (base_name sheet_name : string) (data : list (list cell))
    (df : DataFrame) (js : list nat) : Prop :=
  (∀ k k' j j', js !! k = Some j → js !! k' = Some j' → k < k' → j < j') ∧
  (∀ k j, js !! k = Some j → column_from base_name sheet_name data df k j) ∧
  (∀ k label, columns df !! k = Some label → length js ≤ k →
     label = CStr "File Name" ∨ label = CStr "Sheet Name") ∧
  length (columns df) ≤ length js + 2 ∧
  Forall (λ r, length r = length (columns df)) (records df) ∧
  length (records df) = length data - 5.

(** C3 as the spec states its second part: every header that is not empty
    after trimming is a column of the Extracted Table, under its own value
    or under its trimmed text. *)
Definition nonempty_headers_present (os_path_basename : string → string) : Prop :=
  ∀ file_path sheet_name data df h,
    outcome (extract_table os_path_basename file_path sheet_name data) = inr (Some df) →
    h ∈ sheet_headers data →
    strip (coerce h) ≠ EmptyString →
    h ∈ columns df ∨ CStr (strip (coerce h)) ∈ columns df.

(** C4 as the spec states it: the four columns come after all the columns
    of the concatenation. *)
Definition annotations_appended (merged_df final : DataFrame) : Prop :=
  columns final = columns merged_df ++ (CStr <$> annotation_columns).

(** ** Example inputs *)

(** [posixpath.basename] and [posixpath.join], the POSIX flavour of
    [os.path]. *)
Fixpoint posixpath_basename_from (tail p : string) : string :=
  match p with
  | EmptyString => tail
  | String c p' =>
      if String.eqb (String c EmptyString) "/" then posixpath_basename_from EmptyString p'
      else posixpath_basename_from (tail +:+ String c EmptyString) p'
  end.

Definition posixpath_basename (p : string) : string := posixpath_basename_from EmptyString p.

Definition posixpath_join (a p : string) : string :=
  if startswith p "/" then p
  else if String.eqb a EmptyString || endswith a "/" then a +:+ p
  else a +:+ "/" +:+ p.

(** A worksheet of 12 columns: four banner rows, the header row, two rows
    of data.  Column B has a number as header, column D none, column E a
    text that starts with 'Unnamed', and column L lies beyond column K. *)
Definition turno_grid : list (list cell) :=
  [ replicate 12 CNone; replicate 12 CNone; replicate 12 CNone; replicate 12 CNone;
    [CStr "ID"; CInt 2023; CStr " Name "; CNone; CStr "Unnamed: 4"; CNone; CNone;
     CNone; CNone; CNone; CNone; CStr "Extra"];
    [CInt 1; CStr "x"; CStr "Ana"; CStr "d1"; CStr "e1"; CNone; CNone;
     CNone; CNone; CNone; CNone; CStr "l1"];
    [CInt 2; CNone; CStr "Luis"; CStr "d2"; CStr "e2"; CNone; CNone;
     CNone; CNone; CNone; CNone; CStr "l2"] ].

(** Its Extracted Table in the file [File1.xlsx], as sheet [Turno1]. *)
Definition turno_table : DataFrame :=
  mkDataFrame
    [CStr "ID"; CStr "Name"; CStr "File Name"; CStr "Sheet Name"]
    [ [Some "1"; Some "Ana"; Some "File1.xlsx"; Some "Turno1"];
      [Some "2"; Some "Luis"; Some "File1.xlsx"; Some "Turno1"] ].

(** A worksheet with a column 'Status' of its own. *)
Definition estado_grid : list (list cell) :=
  [ [CNone]; [CNone]; [CNone]; [CNone]; [CStr "Status"]; [CStr "abierto"] ].

Definition example_load_workbook (file_path : string) : exn + Workbook :=
  if String.eqb file_path "2023/File1.xlsx" then
    inr [mkSheet "Turno1" visible (Some turno_grid)]
  else if String.eqb file_path "2023/File2.xlsx" then
    inr [mkSheet "Hoja1" visible (Some turno_grid);
         mkSheet "Resumen" hidden (Some turno_grid);
         mkSheet "Corto" visible (Some (take 4 turno_grid))]
  else if String.eqb file_path "oculto/Oculto.xlsx" then
    inr [mkSheet "Oculta" veryHidden (Some turno_grid)]
  else if String.eqb file_path "estado/Estado.xlsx" then
    inr [mkSheet "Turno1" visible (Some estado_grid)]
  else if String.eqb file_path "vacio/File2.xlsx" then
    inr [mkSheet "Hoja1" visible (Some turno_grid)]
  else inl (OtherException "File is not a zip file").

Definition example_listdir (input_folder : string) : exn + list string :=
  if String.eqb input_folder "2023" then
    inr ["Roto.xlsx"; "File1.xlsx"; "notas.txt"; "File2.xlsx"]
  else if String.eqb input_folder "estado" then inr ["Estado.xlsx"]
  else if String.eqb input_folder "vacio" then inr ["File2.xlsx"; "Roto.xlsx"]
  else inl (OtherException "No such file or directory").

(** The Consolidated Table of the folder [2023]. *)
Definition example_consolidated : DataFrame :=
  mkDataFrame
    [CStr "ID"; CStr "Name"; CStr "File Name"; CStr "Sheet Name";
     CStr "Ingeniero de Calidad"; CStr "Status"; CStr "Método 7M"; CStr "Fecha"]
    [ [Some "1"; Some "Ana"; Some "File1.xlsx"; Some "Turno1";
       Some EmptyString; Some EmptyString; Some EmptyString; Some EmptyString];
      [Some "2"; Some "Luis"; Some "File1.xlsx"; Some "Turno1";
       Some EmptyString; Some EmptyString; Some EmptyString; Some EmptyString] ].

(** The table of the file with one sheet in state [veryHidden]. *)
Definition oculto_table : DataFrame :=
  mkDataFrame
    [CStr "ID"; CStr "Name"; CStr "File Name"; CStr "Sheet Name"]
    [ [Some "1"; Some "Ana"; Some "Oculto.xlsx"; Some "Oculta"];
      [Some "2"; Some "Luis"; Some "Oculto.xlsx"; Some "Oculta"] ].

Definition estado_merged : DataFrame :=
  mkDataFrame
    [CStr "Status"; CStr "File Name"; CStr "Sheet Name"]
    [ [Some "abierto"; Some "Estado.xlsx"; Some "Turno1"] ].

Definition estado_consolidated : DataFrame :=
  mkDataFrame
    [CStr "Status"; CStr "File Name"; CStr "Sheet Name";
     CStr "Ingeniero de Calidad"; CStr "Método 7M"; CStr "Fecha"]
    [ [Some EmptyString; Some "Estado.xlsx"; Some "Turno1";
       Some EmptyString; Some EmptyString; Some EmptyString] ].

(** A worksheet whose header cells are numbers. *)
Definition numeros_grid : list (list cell) :=
  replicate 4 [CNone; CNone] ++ [[CInt 1; CInt 2]; [CStr "a"; CStr "b"]].

(** A worksheet with a column 'File Name' of its own, the header followed
    by a no-break space (U+00A0). *)
Definition nbsp_grid : list (list cell) :=
  replicate 4 [CNone; CNone] ++
  [[CStr ("File Name" +:+ chr 0xA0); CStr "ID"]; [CStr "viejo.xlsx"; CStr "7"]].

Definition nbsp_table : DataFrame :=
  mkDataFrame
    [CStr "File Name"; CStr "ID"; CStr "Sheet Name"]
    [ [Some "N.xlsx"; Some "7"; Some "S"] ].

(** ** Notions of the further properties *)

(** The table of one turn of the sheet loop, [None] when the turn gave none
    or raised. *)
Definition sheet_table (os_path_basename : string → string) (file_path : string)
    (workbook : Workbook) (sheet_name : string) : option DataFrame :=
  match outcome (process_sheet os_path_basename file_path workbook sheet_name) with
  | inl _ => None
  | inr r => r
  end.

(** [all_data] after the loop over the sheets, when no turn raised. *)
Definition sheet_tables (os_path_basename : string → string) (file_path : string)
    (workbook : Workbook) (names : list string) : list DataFrame :=
  omap (sheet_table os_path_basename file_path workbook) names.

(** One row holds [value] in every column labelled [key]. *)
Definition row_holds (key value : string) (labels : list cell)
    (r : list (option string)) : Prop :=
  ∀ j, labels !! j = Some (CStr key) → r !! j = Some (Some value).

(** The rows of a table, as they stand after a concatenation under
    [new_labels]. *)
Definition rows_under (new_labels : list cell) (df : DataFrame)
  : list (list (option string)) :=
  if bool_decide (columns df = new_labels) then records df
  else map (reindex_row (columns df) new_labels) (records df).

(** ** Example inputs of the further properties *)

(** A reader that finds the same workbook at every path. *)
Definition constant_load_workbook (workbook : Workbook) (file_path : string)
  : exn + Workbook := inr workbook.

(** A worksheet whose header row is blank. *)
Definition blank_header_grid : list (list cell) :=
  replicate 5 [CNone; CNone] ++ [[CStr "a"; CInt 1]; [CNone; CStr "b"]].

(** A worksheet with the header 'Obs' twice, once with a trailing space. *)
Definition obs_grid : list (list cell) :=
  replicate 4 [CNone; CNone] ++ [[CStr "Obs"; CStr "Obs "]; [CStr "x"; CStr "y"]].

Definition obs_table : DataFrame :=
  mkDataFrame
    [CStr "Obs"; CStr "Obs"; CStr "File Name"; CStr "Sheet Name"]
    [ [Some "x"; Some "y"; Some "A.xlsx"; Some "Turno1"] ].

Definition estado_table : DataFrame :=
  mkDataFrame
    [CStr "Status"; CStr "File Name"; CStr "Sheet Name"]
    [ [Some "abierto"; Some "B.xlsx"; Some "Turno1"] ].

(** A workbook with a worksheet and a chart sheet. *)
Definition chart_workbook : Workbook :=
  [mkSheet "Turno1" visible (Some turno_grid); mkSheet "Grafica" visible None].

(** A workbook with a hidden sheet between two worksheets, and the same
    without it. *)
Definition three_sheets : Workbook :=
  [mkSheet "Turno1" visible (Some turno_grid)] ++
  mkSheet "Resumen" hidden (Some estado_grid) ::
  [mkSheet "Turno2" visible (Some turno_grid)].

Definition two_sheets : Workbook :=
  [mkSheet "Turno1" visible (Some turno_grid)] ++
  [mkSheet "Turno2" visible (Some turno_grid)].

(** A workbook of which one sheet repeats a label and the other has other
    labels. *)
Definition obs_workbook : Workbook :=
  [mkSheet "Obs" visible (Some obs_grid); mkSheet "Estado" visible (Some estado_grid)].

Definition extra_load_workbook (file_path : string) : exn + Workbook :=
  if String.eqb file_path "dup/A.xlsx" then
    inr [mkSheet "Turno1" visible (Some obs_grid)]
  else if String.eqb file_path "dup/B.xlsx" then
    inr [mkSheet "Turno1" visible (Some estado_grid)]
  else if String.eqb file_path "par/A.xlsx" || String.eqb file_path "par/B.xlsx" then
    inr [mkSheet "Turno1" visible (Some turno_grid)]
  else example_load_workbook file_path.

Definition extra_listdir (input_folder : string) : exn + list string :=
  if String.eqb input_folder "dup" then inr ["A.xlsx"; "B.xlsx"]
  else if String.eqb input_folder "par" then inr ["A.xlsx"; "leeme.md"; "B.xlsx"]
  else if String.eqb input_folder "2023" then
    inr ["Roto.xlsx"; "File1.xlsx"; "File2.xlsx"]
  else example_listdir input_folder.

(** A worksheet whose two header cells are texts that pass the filter. *)
Definition clean_grid : list (list cell) :=
  replicate 4 [CNone; CNone] ++
  [[CStr "ID"; CStr " Nombre "]; [CInt 1; CStr "Ana"]; [CNone; CFloat "2.5"]].

Definition clean_table : DataFrame :=
  mkDataFrame
    [CStr "ID"; CStr "Nombre"; CStr "File Name"; CStr "Sheet Name"]
    [ [Some "1"; Some "Ana"; Some "C.xlsx"; Some "S"];
      [Some EmptyString; Some "2.5"; Some "C.xlsx"; Some "S"] ].

(** * Properties *)

(** ** Computations *)

Lemma outcome_bind {A B} (m : M A) (k : A → M B) :
  outcome (bind m k) =
  match outcome m with inl e => inl e | inr a => outcome (k a) end.
Proof.
  destruct m as [l [e|a]]; simpl; [done|]. by destruct (k a).
Qed.

Lemma logs_bind {A B} (m : M A) (k : A → M B) :
  logs (bind m k) =
  logs m ++ match outcome m with inl e => [] | inr a => logs (k a) end.
Proof.
  destruct m as [l [e|a]]; simpl; [by rewrite app_nil_r|]. by destruct (k a).
Qed.

#[global] Arguments bind : simpl never.

Lemma outcome_lift {A} (r : exn + A) : outcome (lift r) = r.
Proof. done. Qed.

Lemma outcome_try_except {A} (m : M A) (h : exn → M A) :
  outcome (try_except m h) =
  match outcome m with inl e => outcome (h e) | inr a => inr a end.
Proof.
  destruct m as [l [e|a]]; simpl; [|done]. by destruct (h e).
Qed.

Lemma logs_try_except {A} (m : M A) (h : exn → M A) :
  logs (try_except m h) =
  logs m ++ match outcome m with inl e => logs (h e) | inr a => [] end.
Proof.
  destruct m as [l [e|a]]; simpl; [|by rewrite app_nil_r]. by destruct (h e).
Qed.

(** ** Masks *)

Lemma compress_fmap_filter {A} (f : A → bool) (l : list A) :
  compress (f <$> l) l = List.filter f l.
Proof.
  induction l as [|x l IH]; [done|]. rewrite fmap_cons. simpl.
  destruct (f x); by rewrite IH.
Qed.

Lemma length_compress {A B} (mask : list bool) (l : list A) (k : list B) :
  length l = length mask → length k = length mask →
  length (compress mask l) = length (compress mask k).
Proof.
  revert l k. induction mask as [|b mask IH]; intros [|x l] [|y k]; simpl;
    try done.
  intros Hl Hk. destruct b; simpl; rewrite (IH l k); lia.
Qed.

Lemma elem_of_true_positions (n : nat) (mask : list bool) (j : nat) :
  j ∈ true_positions n mask ↔ n ≤ j ∧ mask !! (j - n) = Some true.
Proof.
  revert n. induction mask as [|b mask IH]; intros n; simpl.
  - split; [by intros ?%elem_of_nil|by intros [_ ?]].
  - assert (n ≤ j ∧ (b :: mask) !! (j - n) = Some true ↔
            (j = n ∧ b = true) ∨ (S n ≤ j ∧ mask !! (j - S n) = Some true)) as ->.
    { destruct (decide (j = n)) as [->|Hne].
      - rewrite Nat.sub_diag. simpl. split; [intros [_ [= ->]]; by left|].
        intros [[_ ->]|[? _]]; [done|lia].
      - split.
        + intros [Hle Hl]. right. split; [lia|].
          replace (j - n) with (S (j - S n)) in Hl by lia. done.
        + intros [[? _]|[Hle Hl]]; [done|]. split; [lia|].
          replace (j - n) with (S (j - S n)) by lia. done. }
    destruct b.
    + rewrite elem_of_cons, IH. split; [intros [->|?]; [by left|by right]|].
      intros [[-> _]|?]; [by left|by right].
    + rewrite IH. split; [by right|]. by intros [[_ [=]]|?].
Qed.

Lemma true_positions_increasing (n : nat) (mask : list bool) (k k' j j' : nat) :
  true_positions n mask !! k = Some j → true_positions n mask !! k' = Some j' →
  k < k' → j < j'.
Proof.
  revert n k k'. induction mask as [|b mask IH]; intros n k k'; simpl; [done|].
  destruct b; [|by apply IH].
  destruct k as [|k], k' as [|k']; simpl; try lia.
  - intros [= <-] Hj' _.
    apply list_elem_of_lookup_2, elem_of_true_positions in Hj'. lia.
  - intros Hj Hj' Hlt. apply (IH (S n) k k'); [done|done|lia].
Qed.

Lemma lookup_compress {A} (n : nat) (mask : list bool) (l : list A) (k j : nat) :
  true_positions n mask !! k = Some j → compress mask l !! k = l !! (j - n).
Proof.
  revert n l k. induction mask as [|b mask IH]; intros n l k; simpl; [done|].
  destruct l as [|x l].
  { intros _. by destruct b. }
  destruct b.
  - destruct k as [|k]; simpl.
    + intros [= <-]. by rewrite Nat.sub_diag.
    + intros Hj. rewrite (IH _ _ _ Hj).
      apply list_elem_of_lookup_2, elem_of_true_positions in Hj as [Hle _].
      by replace (j - n) with (S (j - S n)) by lia.
  - intros Hj. rewrite (IH _ _ _ Hj).
    apply list_elem_of_lookup_2, elem_of_true_positions in Hj as [Hle _].
    by replace (j - n) with (S (j - S n)) by lia.
Qed.

Lemma length_true_positions {A} (f : A → bool) (n : nat) (l : list A) :
  length (true_positions n (f <$> l)) = length (List.filter f l).
Proof.
  revert n. induction l as [|x l IH]; intros n; [done|]. rewrite fmap_cons. simpl.
  destruct (f x); simpl; by rewrite IH.
Qed.

(** ** The [.str] accessor *)

Lemma is_array_false (typed : cell → bool) (values : list cell) (c : cell) :
  c ∈ values → is_null c = false → typed c = false →
  is_array typed values = false.
Proof.
  intros Hin Hn Ht. unfold is_array.
  destruct (forallb _ values) eqn:Hall; [|done].
  rewrite forallb_forall in Hall.
  specialize (Hall c (proj1 (list_elem_of_In _ _) Hin)).
  by rewrite Hn, Ht in Hall.
Qed.

Lemma allowed_mixed (values : list cell) : allowed_types (mixed values) = true.
Proof. unfold mixed. by destruct (existsb _ _). Qed.

(** A header row with a text cell always admits the accessor. *)
Lemma str_accessor_text (index : list cell) (s : string) :
  CStr s ∈ index → str_accessor index = inr ().
Proof.
  intros Hin. unfold str_accessor.
  assert (allowed_types (infer_dtype index) = true) as ->; [|done].
  unfold infer_dtype. destruct (List.find _ index) as [val|]; [|done].
  assert (∀ typed, typed (CStr s) = false → is_array typed index = false)
    as Hf by (intros; by eapply is_array_false).
  destruct val; try done;
    rewrite ?Hf by done; try apply allowed_mixed; try done.
  destruct (is_array is_str index); [done|apply allowed_mixed].
Qed.

Lemma str_accessor_all_text (index : list cell) :
  Forall (λ c, is_str c = true) index → str_accessor index = inr ().
Proof.
  destruct index as [|c index]; [done|].
  intros Hall. inversion Hall as [|? ? Hc _]; subst.
  destruct c; try done. eapply str_accessor_text. left.
Qed.

(** When the accessor is refused, no label is a text. *)
Lemma str_accessor_refused (index : list cell) (e : exn) :
  str_accessor index = inl e → Forall (λ c, is_str c = false) index.
Proof.
  intros He. apply Forall_forall. intros c Hc.
  destruct c; try done.
  by rewrite (str_accessor_text _ _ Hc) in He.
Qed.

(** ** Tables are rectangular *)

Lemma DataFrame_new_wf (data : list (list string)) (headers : list cell)
    (df : DataFrame) :
  DataFrame_new data headers = inr df →
  wf df ∧ columns df = headers ∧ length (records df) = length data.
Proof.
  unfold DataFrame_new. destruct data as [|r0 data'] eqn:Hd.
  { intros [= <-]. split; [constructor|done]. }
  rewrite <- Hd. clear Hd.
  case_decide as Hw; [|done]. intros [= <-]. unfold wf. simpl.
  split; [|by rewrite length_map].
  apply Forall_forall. intros r [r' [-> Hr']]%list_elem_of_fmap.
  rewrite length_app, length_map, length_replicate, Hw.
  assert (length r' ≤ max_list (map length data)); [|lia].
  apply max_list_elem_of_le. apply list_elem_of_fmap. eauto.
Qed.

Lemma max_list_const (w x : nat) (l : list nat) :
  Forall (λ y, y = w) (x :: l) → max_list (x :: l) = w.
Proof.
  revert x. induction l as [|y l IH]; intros x Hall.
  - inversion Hall; subst. simpl. lia.
  - inversion Hall as [|? ? -> Hall']; subst. simpl in *.
    rewrite (IH _ Hall'). lia.
Qed.

(** On rows of the width of the header nothing is filled and nothing is
    refused. *)
Lemma DataFrame_new_rectangular (data : list (list string)) (headers : list cell) :
  Forall (λ r, length r = length headers) data →
  DataFrame_new data headers = inr (mkDataFrame headers (map (map Some) data)).
Proof.
  intros Hall. unfold DataFrame_new. destruct data as [|r0 data'] eqn:Hd; [done|].
  rewrite <- Hd in *.
  assert (max_list (map length data) = length headers) as Hm.
  { rewrite Hd. simpl map. apply max_list_const. rewrite Hd in Hall.
    change (Forall (λ y, y = length headers) (map length (r0 :: data'))).
    apply Forall_fmap. eapply Forall_impl; [exact Hall|done]. }
  rewrite Hm. rewrite decide_True by done. do 2 f_equal.
  apply map_ext_in. intros r Hr%list_elem_of_In.
  rewrite Forall_forall in Hall. rewrite (Hall r Hr), Nat.sub_diag.
  simpl. by rewrite app_nil_r.
Qed.

Lemma setitem_wf (key value : string) (df : DataFrame) :
  wf df → wf (setitem key value df).
Proof.
  unfold wf, setitem. intros Hwf. destruct (existsb _ _); simpl.
  - apply Forall_fmap. eapply Forall_impl; [exact Hwf|]. simpl. intros r Hr.
    rewrite length_zip_with. lia.
  - apply Forall_fmap. eapply Forall_impl; [exact Hwf|]. simpl. intros r Hr.
    rewrite !length_app. simpl. lia.
Qed.

(** ** The column filter *)

Lemma filter_unnamed_eq (df : DataFrame) :
  filter_unnamed df =
  match str_accessor (columns df) with
  | inl e => inl e
  | inr _ => inr (loc_columns df (kept <$> columns df))
  end.
Proof.
  unfold filter_unnamed, str_contains_start.
  destruct (str_accessor _); [done|]. do 2 f_equal.
  unfold eq_False. rewrite map_map. apply map_ext. by intros [].
Qed.

Lemma kept_is_str (label : cell) : kept label = true → is_str label = true.
Proof. by destruct label. Qed.

Lemma str_strip_kept (index : list cell) :
  str_strip (List.filter kept index) = inr (strip_label <$> List.filter kept index).
Proof.
  unfold str_strip. rewrite str_accessor_all_text; [done|].
  apply Forall_forall. intros c Hc%list_elem_of_In%filter_In.
  apply kept_is_str, Hc.
Qed.

(** ** Setting a column *)

Lemma columns_setitem (key value : string) (df : DataFrame) :
  columns (setitem key value df) = add_label key (columns df).
Proof. unfold setitem, add_label. by destruct (existsb _ _). Qed.

Lemma length_records_setitem (key value : string) (df : DataFrame) :
  length (records (setitem key value df)) = length (records df).
Proof. unfold setitem. destruct (existsb _ _); simpl; by rewrite length_map. Qed.

Lemma label_is_true (key : string) (label : cell) :
  label_is key label = true ↔ label = CStr key.
Proof.
  destruct label; simpl; try (split; [done|intros [=]]).
  rewrite String.eqb_eq. split; [by intros ->|by intros [= ->]].
Qed.

Lemma existsb_label_is (key : string) (labels : list cell) :
  existsb (label_is key) labels = true ↔ CStr key ∈ labels.
Proof.
  rewrite existsb_exists. split.
  - intros (x & Hx%list_elem_of_In & ->%label_is_true). done.
  - intros Hin. exists (CStr key). split; [by apply list_elem_of_In|].
    by apply label_is_true.
Qed.

Lemma add_label_elem_of (key : string) (labels : list cell) :
  CStr key ∈ add_label key labels.
Proof.
  unfold add_label. destruct (existsb _ _) eqn:He.
  - by apply existsb_label_is.
  - apply elem_of_app. right. left.
Qed.

Lemma add_label_incl (key : string) (labels : list cell) (label : cell) :
  label ∈ labels → label ∈ add_label key labels.
Proof.
  unfold add_label. destruct (existsb _ _); [done|].
  intros ?. apply elem_of_app. by left.
Qed.

Lemma add_label_inv (key : string) (labels : list cell) (label : cell) :
  label ∈ add_label key labels → label ∈ labels ∨ label = CStr key.
Proof.
  unfold add_label. destruct (existsb _ _); [by left|].
  rewrite elem_of_app, list_elem_of_singleton. tauto.
Qed.

Lemma add_label_app (key : string) (labels : list cell) :
  add_label key labels =
  labels ++ (if bool_decide (CStr key ∈ labels) then [] else [CStr key]).
Proof.
  unfold add_label. destruct (existsb _ _) eqn:He.
  - apply existsb_label_is in He. by rewrite bool_decide_true, app_nil_r.
  - rewrite bool_decide_false; [done|]. intros Hin%existsb_label_is. congruence.
Qed.

Lemma setitem_holds (key value : string) (df : DataFrame) :
  wf df → holds key value (setitem key value df).
Proof.
  intros Hwf r j. unfold setitem. destruct (existsb _ _) eqn:He; simpl.
  - intros (r0 & -> & Hr0)%list_elem_of_fmap Hj.
    rewrite lookup_zip_with, Hj. simpl.
    unfold wf in Hwf. rewrite Forall_forall in Hwf. specialize (Hwf _ Hr0).
    destruct (r0 !! j) as [x|] eqn:Hx.
    + simpl. by rewrite String.eqb_refl.
    + apply lookup_ge_None in Hx. apply lookup_lt_Some in Hj. lia.
  - intros (r0 & -> & Hr0)%list_elem_of_fmap Hj.
    unfold wf in Hwf. rewrite Forall_forall in Hwf. specialize (Hwf _ Hr0).
    destruct (decide (j < length (columns df))) as [Hlt|Hge].
    + rewrite lookup_app_l in Hj by done.
      assert (existsb (label_is key) (columns df) = true); [|congruence].
      apply existsb_label_is. eapply list_elem_of_lookup_2. exact Hj.
    + assert (j = length (columns df)) as ->.
      { apply lookup_lt_Some in Hj. rewrite length_app in Hj. simpl in Hj. lia. }
      rewrite <- Hwf. by rewrite list_lookup_middle.
Qed.

Lemma setitem_holds_other (key value key' value' : string) (df : DataFrame) :
  key ≠ key' → wf df → holds key value df →
  holds key value (setitem key' value' df).
Proof.
  intros Hne Hwf Hh r j. unfold setitem. destruct (existsb _ _) eqn:He; simpl.
  - intros (r0 & -> & Hr0)%list_elem_of_fmap Hj.
    rewrite lookup_zip_with, Hj. simpl. rewrite (Hh r0 j Hr0 Hj). simpl.
    destruct (String.eqb key key') eqn:Heq; [|done].
    by apply String.eqb_eq in Heq.
  - intros (r0 & -> & Hr0)%list_elem_of_fmap Hj.
    unfold wf in Hwf. rewrite Forall_forall in Hwf. specialize (Hwf _ Hr0).
    destruct (decide (j < length (columns df))) as [Hlt|Hge].
    + rewrite lookup_app_l in Hj by done.
      rewrite lookup_app_l by lia. by apply Hh.
    + assert (j = length (columns df)) as ->.
      { apply lookup_lt_Some in Hj. rewrite length_app in Hj. simpl in Hj. lia. }
      rewrite list_lookup_middle in Hj by done. congruence.
Qed.

(** A cell of a table after [df[key] = value]. *)
Lemma setitem_lookup (key value : string) (df : DataFrame) (i k : nat)
    (r : list (option string)) (label : cell) (x : option string) :
  records df !! i = Some r → columns df !! k = Some label → r !! k = Some x →
  columns (setitem key value df) !! k = Some label ∧
  ∃ r', records (setitem key value df) !! i = Some r' ∧
        r' !! k = Some (if label_is key label then Some value else x).
Proof.
  intros Hr Hk Hx. unfold setitem. destruct (existsb _ _) eqn:He; simpl.
  - split; [done|]. eexists. split.
    + change (map ?f ?l) with (f <$> l). by rewrite list_lookup_fmap, Hr.
    + by rewrite lookup_zip_with, Hk, Hx.
  - split; [by apply lookup_app_l_Some|]. eexists. split.
    + change (map ?f ?l) with (f <$> l). by rewrite list_lookup_fmap, Hr.
    + rewrite (lookup_app_l_Some _ _ _ _ Hx).
      destruct (label_is key label) eqn:Hl; [|done].
      assert (existsb (label_is key) (columns df) = true); [|congruence].
      apply existsb_exists. exists label. split; [|done].
      apply list_elem_of_In. by eapply list_elem_of_lookup_2.
Qed.

Lemma columns_setitem_lookup (key value : string) (df : DataFrame) (k : nat)
    (label : cell) :
  columns df !! k = Some label → columns (setitem key value df) !! k = Some label.
Proof.
  intros Hk. rewrite columns_setitem, add_label_app. by apply lookup_app_l_Some.
Qed.

(** ** The slices of lines 46-47 *)

Lemma sheet_headers_truncate (data : list (list cell)) :
  sheet_headers (map (take 11) data) = sheet_headers data.
Proof.
  unfold sheet_headers.
  change (map (take 11) data) with (take 11 <$> data).
  rewrite list_lookup_fmap. destruct (data !! 4) as [row|]; simpl; [|done].
  by rewrite take_take.
Qed.

Lemma sheet_rows_truncate (data : list (list cell)) :
  sheet_rows (map (take 11) data) = sheet_rows data.
Proof.
  unfold sheet_rows.
  change (map (take 11) data) with (take 11 <$> data).
  rewrite <- fmap_drop, <- list_fmap_compose. apply list_fmap_ext.
  intros _ row _. simpl. by rewrite take_take.
Qed.

Lemma length_sheet_rows (data : list (list cell)) :
  length (sheet_rows data) = length data - 5.
Proof. unfold sheet_rows. by rewrite length_fmap, length_drop. Qed.

(** openpyxl yields the rows of a worksheet with one width; the table of
    line 57 is then the header slice over the coerced row slices. *)
Lemma sheet_table_rectangular (data : list (list cell)) (w : nat) :
  5 ≤ length data →
  Forall (λ row, length row = w) data →
  DataFrame_new (map (map coerce) (sheet_rows data)) (sheet_headers data) =
  inr (mkDataFrame (sheet_headers data)
         (map (λ row, map Some (map coerce (take 11 row))) (drop 5 data))).
Proof.
  intros Hlen Hrect.
  rewrite DataFrame_new_rectangular.
  - unfold sheet_rows. do 2 f_equal.
    change (take 11 <$> drop 5 data) with (map (take 11) (drop 5 data)).
    by rewrite !map_map.
  - rewrite Forall_forall in Hrect.
    assert (length (sheet_headers data) = 11 `min` w) as ->.
    { unfold sheet_headers. destruct (data !! 4) as [row|] eqn:Hrow.
      - rewrite length_take. f_equal. simpl. apply Hrect.
        by eapply list_elem_of_lookup_2.
      - apply lookup_ge_None in Hrow. lia. }
    apply Forall_forall. intros r Hr.
    apply list_elem_of_fmap in Hr as (r1 & -> & Hr1).
    unfold sheet_rows in Hr1. apply list_elem_of_fmap in Hr1 as (r2 & -> & Hr2).
    rewrite length_map, length_take. f_equal. apply Hrect.
    apply list_elem_of_lookup in Hr2 as [i Hi]. rewrite lookup_drop in Hi.
    by eapply list_elem_of_lookup_2.
Qed.

Lemma selected_wf (headers : list cell) (df0 : DataFrame) :
  wf df0 → columns df0 = headers → wf (selected headers df0).
Proof.
  unfold wf, selected. simpl. intros Hwf <-.
  apply Forall_fmap. eapply Forall_impl; [exact Hwf|]. simpl. intros r Hr.
  rewrite length_fmap, <- compress_fmap_filter.
  apply length_compress; rewrite length_fmap; lia.
Qed.

(** ** One sheet *)

Section Sheet.

Variable os_path_basename : string → string.

(** What a turn of the loop comes to, case by case. *)
Lemma extract_table_outcome (file_path sheet_name : string) (data : list (list cell)) :
  outcome (extract_table os_path_basename file_path sheet_name data) =
  if length data <? 5 then inr None
  else if bool_decide (sheet_rows data = []) then inr None
  else
    match DataFrame_new (map (map coerce) (sheet_rows data)) (sheet_headers data) with
    | inl e => inl e
    | inr df0 =>
        match str_accessor (sheet_headers data) with
        | inl _ => inr None
        | inr _ =>
            inr (Some (tracked os_path_basename file_path sheet_name
                         (selected (sheet_headers data) df0)))
        end
    end.
Proof.
  unfold extract_table. destruct (length data <? 5); [done|].
  case_bool_decide; [done|].
  rewrite outcome_bind, outcome_lift.
  destruct (DataFrame_new _ _) as [e|df0] eqn:Hnew; [done|].
  apply DataFrame_new_wf in Hnew as (_ & Hcols & _).
  rewrite filter_unnamed_eq, Hcols.
  destruct (str_accessor (sheet_headers data)) as [e|[]]; [done|].
  rewrite outcome_bind, outcome_lift. simpl columns.
  rewrite Hcols, compress_fmap_filter, str_strip_kept.
  by rewrite outcome_bind.
Qed.

Lemma extract_table_Some (file_path sheet_name : string)
    (data : list (list cell)) (df : DataFrame) :
  outcome (extract_table os_path_basename file_path sheet_name data) = inr (Some df) →
  5 < length data ∧
  ∃ df0,
    DataFrame_new (map (map coerce) (sheet_rows data)) (sheet_headers data) = inr df0 ∧
    str_accessor (sheet_headers data) = inr () ∧
    df = tracked os_path_basename file_path sheet_name
           (selected (sheet_headers data) df0).
Proof.
  rewrite extract_table_outcome.
  destruct (length data <? 5) eqn:Hlt; [done|]. apply Nat.ltb_ge in Hlt.
  case_bool_decide as Hrows; [done|].
  destruct (DataFrame_new _ _) as [e|df0]; [done|].
  destruct (str_accessor _) as [e|[]]; [done|]. intros [= <-].
  split; [|by eexists].
  assert (length (sheet_rows data) ≠ 0) as Hn by by destruct (sheet_rows data).
  rewrite length_sheet_rows in Hn. lia.
Qed.

Lemma extract_table_wf (file_path sheet_name : string)
    (data : list (list cell)) (df : DataFrame) :
  outcome (extract_table os_path_basename file_path sheet_name data) = inr (Some df) →
  wf df.
Proof.
  intros (_ & df0 & Hnew & _ & ->)%extract_table_Some.
  apply DataFrame_new_wf in Hnew as (Hwf & Hcols & _).
  unfold tracked. by do 2 apply setitem_wf; apply selected_wf.
Qed.

(** C2. For a worksheet that yields an Extracted Table, the table is made
    from the one whose labels are the cells of row 4 and whose rows are
    rows 5 to the end, each cut to its first 11 cells (columns A to K) and
    each data cell coerced to text; it has one row per worksheet row from 5
    on; and cutting the whole worksheet to its first 11 columns changes
    nothing of the turn of the loop, so no cell beyond column K is in the
    table. *)
Theorem C2_rows_4_onward_columns_A_to_K (file_path sheet_name : string)
    (data : list (list cell)) (w : nat) (df : DataFrame) :
  Forall (λ row, length row = w) data →
  outcome (extract_table os_path_basename file_path sheet_name data) = inr (Some df) →
  (∃ df0,
     columns df0 = take 11 (default [] (data !! 4)) ∧
     records df0 = map (λ row, map Some (map coerce (take 11 row))) (drop 5 data) ∧
     df = tracked os_path_basename file_path sheet_name (selected (columns df0) df0)) ∧
  length (records df) = length data - 5 ∧
  extract_table os_path_basename file_path sheet_name (map (take 11) data) =
  extract_table os_path_basename file_path sheet_name data.
Proof.
  intros Hrect (Hlen & df0 & Hnew & _ & ->)%extract_table_Some.
  rewrite (sheet_table_rectangular data w) in Hnew by (done || lia).
  injection Hnew as <-. split; [|split].
  - by exists (mkDataFrame (sheet_headers data)
         (map (λ row, map Some (map coerce (take 11 row))) (drop 5 data))).
  - unfold tracked. rewrite !length_records_setitem. unfold selected. simpl.
    by rewrite length_fmap, length_map, length_drop.
  - unfold extract_table.
    by rewrite length_map, sheet_headers_truncate, sheet_rows_truncate.
Qed.

(** The labels of an Extracted Table. *)
Lemma extract_table_columns (file_path sheet_name : string)
    (data : list (list cell)) (df : DataFrame) :
  outcome (extract_table os_path_basename file_path sheet_name data) = inr (Some df) →
  columns df =
  add_label "Sheet Name"
    (add_label "File Name" (strip_label <$> List.filter kept (sheet_headers data))).
Proof.
  intros (_ & df0 & _ & _ & ->)%extract_table_Some.
  unfold tracked. by rewrite !columns_setitem.
Qed.

(** With rows of one width and a row after the header row, a turn of the
    loop raises nothing, and it ends in [continue] exactly when the
    accessor of line 61 is refused. *)
Lemma extract_table_cases (file_path sheet_name : string)
    (data : list (list cell)) (w : nat) :
  5 < length data →
  Forall (λ row, length row = w) data →
  outcome (extract_table os_path_basename file_path sheet_name data) =
  match str_accessor (sheet_headers data) with
  | inl _ => inr None
  | inr _ =>
      inr (Some (tracked os_path_basename file_path sheet_name
                   (selected (sheet_headers data)
                      (mkDataFrame (sheet_headers data)
                         (map (λ row, map Some (map coerce (take 11 row)))
                              (drop 5 data))))))
  end.
Proof.
  intros Hlen Hrect. rewrite extract_table_outcome.
  destruct (length data <? 5) eqn:Hlt; [apply Nat.ltb_lt in Hlt; lia|].
  case_bool_decide as Hrows.
  { apply (f_equal length) in Hrows. rewrite length_sheet_rows in Hrows.
    simpl in Hrows. lia. }
  by rewrite (sheet_table_rectangular data w) by (done || lia).
Qed.

(** The Extracted Table, column by column and cell by cell: it is made from
    the worksheet columns whose header cell passes the filter. *)
Lemma extract_table_made_from (file_path sheet_name : string)
    (data : list (list cell)) (w : nat) (df : DataFrame) :
  Forall (λ row, length row = w) data →
  outcome (extract_table os_path_basename file_path sheet_name data) = inr (Some df) →
  let js := true_positions 0 (kept <$> sheet_headers data) in
  (∀ j, j ∈ js ↔
        ∃ s, sheet_headers data !! j = Some (CStr s) ∧ startswith s "Unnamed" = false) ∧
  made_from (os_path_basename file_path) sheet_name data df js.
Proof.
  intros Hrect Hout js.
  pose proof (extract_table_wf _ _ _ _ Hout) as Hwf.
  pose proof (extract_table_columns _ _ _ _ Hout) as Hcols.
  apply extract_table_Some in Hout as (Hlen & df0 & Hnew & _ & ->).
  rewrite (sheet_table_rectangular data w) in Hnew by (done || lia).
  injection Hnew as <-.
  set (headers := sheet_headers data) in *.
  assert (∀ j, j ∈ js ↔
            ∃ s, headers !! j = Some (CStr s) ∧ startswith s "Unnamed" = false) as Hjs.
  { intros j. subst js. rewrite elem_of_true_positions, Nat.sub_0_r, list_lookup_fmap.
    destruct (headers !! j) as [h|]; simpl.
    - split.
      + intros [_ [= Hk]]. destruct h; try done. exists s. split; [done|].
        simpl in Hk. by apply negb_true_iff.
      + intros (s & [= ->] & Hun). split; [lia|]. simpl. by rewrite Hun.
    - split; [by intros [_ ?]|by intros (? & ? & _)]. }
  assert (length js = length (List.filter kept headers)) as Hlenjs
    by apply length_true_positions.
  assert (length headers = 11 `min` w) as Hlenh.
  { unfold headers, sheet_headers. destruct (data !! 4) as [row|] eqn:Hrow.
    - rewrite length_take. f_equal. simpl. rewrite Forall_forall in Hrect.
      apply Hrect. by eapply list_elem_of_lookup_2.
    - apply lookup_ge_None in Hrow. lia. }
  split; [exact Hjs|].
  split; [intros k k' j j'; apply true_positions_increasing|].
  split; [|split; [|split; [|split]]].
  - intros k j Hk.
    destruct (proj1 (Hjs j) (list_elem_of_lookup_2 _ _ _ Hk)) as (s & Hs & Hun).
    exists s. split; [exact Hs|].
    set (sel := selected headers
                  (mkDataFrame headers
                     (map (λ row, map Some (map coerce (take 11 row))) (drop 5 data)))).
    assert (columns sel !! k = Some (CStr (strip s))) as Hlabel.
    { unfold sel, selected. simpl.
      rewrite list_lookup_fmap, <- compress_fmap_filter.
      rewrite (lookup_compress 0 _ _ _ _ Hk), Nat.sub_0_r, Hs. done. }
    assert (∀ i row, data !! (5 + i) = Some row →
              ∃ c r, row !! j = Some c ∧ records sel !! i = Some r ∧
                     r !! k = Some (Some (coerce c))) as Hcells.
    { intros i row Hrow.
      assert (j < length row) as Hj.
      { rewrite Forall_forall in Hrect.
        rewrite (Hrect row) by (by eapply list_elem_of_lookup_2).
        apply lookup_lt_Some in Hs. lia. }
      assert (j < 11) as Hj11 by (apply lookup_lt_Some in Hs; lia).
      destruct (lookup_lt_is_Some_2 _ _ Hj) as [c Hc].
      exists c. eexists. split; [exact Hc|]. split.
      - unfold sel, selected. simpl.
        rewrite list_lookup_fmap.
        change (map ?f ?l) with (f <$> l) at 1.
        rewrite list_lookup_fmap, lookup_drop, Hrow. simpl. reflexivity.
      - rewrite (lookup_compress 0 _ _ _ _ Hk), Nat.sub_0_r.
        change (map ?f ?l) with (f <$> l).
        rewrite !list_lookup_fmap, lookup_take_lt by done. by rewrite Hc. }
    unfold tracked. fold sel. split.
    + by do 2 apply columns_setitem_lookup.
    + intros i row Hrow. destruct (Hcells i row Hrow) as (c & r & Hc & Hr & Hrk).
      destruct (setitem_lookup "File Name" (os_path_basename file_path) sel
                  i k r _ _ Hr Hlabel Hrk) as (Hl1 & r1 & Hr1 & Hrk1).
      destruct (setitem_lookup "Sheet Name" sheet_name _ i k r1 _ _ Hr1 Hl1 Hrk1)
        as (_ & r2 & Hr2 & Hrk2).
      exists c, r2. split; [done|]. split; [done|]. rewrite Hrk2. simpl.
      destruct (String.eqb (strip s) "File Name") eqn:HF;
        destruct (String.eqb (strip s) "Sheet Name") eqn:HS; try done.
      apply String.eqb_eq in HF, HS. congruence.
  - intros k label Hk Hge. rewrite Hcols, !add_label_app, <- app_assoc in Hk.
    rewrite lookup_app_r in Hk by (rewrite length_fmap; lia).
    apply list_elem_of_lookup_2 in Hk.
    apply elem_of_app in Hk as [Hk|Hk]; case_bool_decide;
      try (by apply elem_of_nil in Hk);
      apply list_elem_of_singleton in Hk; tauto.
  - rewrite Hcols, !add_label_app, !length_app, length_fmap, Hlenjs.
    repeat case_bool_decide; simpl; lia.
  - exact Hwf.
  - unfold tracked. rewrite !length_records_setitem. unfold selected. simpl.
    by rewrite length_fmap, length_map, length_drop.
Qed.
(** C9. In an Extracted Table every column labelled 'File Name' holds the
    base name of the input file in every row and every column labelled
    'Sheet Name' holds the name of the worksheet, and both labels are
    there.  The labels of the table are the surviving labels of the
    worksheet followed by one new label for each of the two names that is
    not already among them: a surviving column of that name gets no
    companion, its cells are the ones overwritten. *)
Theorem C9_tracking_columns (file_path sheet_name : string)
    (data : list (list cell)) (df : DataFrame) :
  outcome (extract_table os_path_basename file_path sheet_name data) = inr (Some df) →
  let source := strip_label <$> List.filter kept (sheet_headers data) in
  holds "File Name" (os_path_basename file_path) df ∧
  holds "Sheet Name" sheet_name df ∧
  CStr "File Name" ∈ columns df ∧
  CStr "Sheet Name" ∈ columns df ∧
  columns df =
    source ++ (if bool_decide (CStr "File Name" ∈ source) then [] else [CStr "File Name"])
           ++ (if bool_decide (CStr "Sheet Name" ∈ source) then [] else [CStr "Sheet Name"]) ∧
  Forall (λ r, length r = length (columns df)) (records df).
Proof.
  intros Hout source.
  pose proof (extract_table_wf _ _ _ _ Hout) as Hwf.
  pose proof (extract_table_columns _ _ _ _ Hout) as Hcols.
  fold source in Hcols.
  apply extract_table_Some in Hout as (_ & df0 & Hnew & _ & ->).
  apply DataFrame_new_wf in Hnew as (Hwf0 & Hcols0 & _).
  pose proof (selected_wf _ _ Hwf0 Hcols0) as Hsel.
  split; [|split; [|split; [|split; [|split]]]]; [| | | | |exact Hwf].
  - unfold tracked. apply setitem_holds_other; [done|by apply setitem_wf|].
    by apply setitem_holds.
  - unfold tracked. apply setitem_holds. by apply setitem_wf.
  - rewrite Hcols. apply add_label_incl, add_label_elem_of.
  - rewrite Hcols. apply add_label_elem_of.
  - rewrite Hcols, !add_label_app, <- app_assoc. do 2 f_equal.
    rewrite (bool_decide_ext _ (CStr "Sheet Name" ∈ source)); [done|].
    rewrite elem_of_app. split; [|by left].
    intros [?|Hin]; [done|]. case_bool_decide; [by apply elem_of_nil in Hin|].
    by apply list_elem_of_singleton in Hin.
Qed.

(** C10. The filter of line 61 sees the header cells as they were read,
    not as text: a label passes exactly when it is a string that does not
    start with 'Unnamed', so [None], a number or a date does not pass, nor
    does a text that starts with 'Unnamed'.  On a worksheet with rows of
    one width and a row after the header row, the Extracted Table is made
    from exactly the worksheet columns whose header cell is such a string:
    they are its first columns, in order, each under its stripped header
    and with the text of its own cells of rows 5 on (a tracking value under
    a tracking name); the columns after them are tracking columns, and a
    worksheet column whose header cell is anything else has no label and no
    cell in the table.  When the worksheet is skipped instead, no header
    cell is a string, so no column would have passed. *)
Theorem C10_column_survives_iff_text_not_Unnamed (file_path sheet_name : string)
    (data : list (list cell)) (w : nat) :
  5 < length data →
  Forall (λ row, length row = w) data →
  (∀ h, kept h = true ↔ ∃ s, h = CStr s ∧ startswith s "Unnamed" = false) ∧
  match outcome (extract_table os_path_basename file_path sheet_name data) with
  | inr (Some df) =>
      (∃ js,
         (∀ j, j ∈ js ↔
               ∃ s, sheet_headers data !! j = Some (CStr s) ∧
                    startswith s "Unnamed" = false) ∧
         made_from (os_path_basename file_path) sheet_name data df js) ∧
      columns df =
      add_label "Sheet Name"
        (add_label "File Name"
           (strip_label <$> List.filter kept (sheet_headers data))) ∧
      ∀ s, CStr s ∈ List.filter kept (sheet_headers data) →
           CStr (strip s) ∈ columns df
  | inr None => Forall (λ h, is_str h = false) (sheet_headers data)
  | inl _ => False
  end.
Proof.
  intros Hlen Hrect. split.
  { intros h. destruct h; simpl; try (split; [done|by intros (? & [=] & _)]).
    rewrite negb_true_iff. split; [by eauto|by intros (? & [= <-] & ?)]. }
  pose proof (extract_table_columns file_path sheet_name data) as Hcols.
  pose proof (extract_table_made_from file_path sheet_name data w) as Hmade.
  rewrite (extract_table_cases _ _ data w) in * by done.
  destruct (str_accessor (sheet_headers data)) as [e|[]] eqn:Hacc.
  - by eapply str_accessor_refused.
  - split; [|split; [by apply Hcols|]].
    + eexists. by apply Hmade.
    + intros s Hs. rewrite (Hcols _ eq_refl).
      apply add_label_incl, add_label_incl.
      apply list_elem_of_fmap. by exists (CStr s).
Qed.

(** C3, as amended.  In an Extracted Table of a worksheet with rows of one
    width, every column whose header cell is a string not starting with
    'Unnamed' is present: the table is made from these worksheet columns,
    each under its stripped name and with the text of its own cells.  A
    column whose header cell is empty is absent, as is every column whose
    header cell is no such string: it is none of the columns the table is
    made from, so that no label and no cell of the table comes from it, and
    every label of the table is a tracking label or the stripped text of
    such a header cell.  When the filter cannot be evaluated, the error is
    logged and the worksheet is skipped, with no table. *)
Theorem C3_text_headers_kept_empty_dropped (file_path sheet_name : string)
    (data : list (list cell)) (w : nat) :
  5 < length data →
  Forall (λ row, length row = w) data →
  let m := extract_table os_path_basename file_path sheet_name data in
  (∀ df, outcome m = inr (Some df) →
     (∃ js,
        made_from (os_path_basename file_path) sheet_name data df js ∧
        (∀ j s, sheet_headers data !! j = Some (CStr s) →
                startswith s "Unnamed" = false → j ∈ js) ∧
        (∀ j h, sheet_headers data !! j = Some h → j ∈ js →
                ∃ s, h = CStr s ∧ startswith s "Unnamed" = false) ∧
        (∀ j, sheet_headers data !! j = Some CNone → j ∉ js)) ∧
     (∀ s, CStr s ∈ sheet_headers data → startswith s "Unnamed" = false →
           CStr (strip s) ∈ columns df) ∧
     (∀ label, label ∈ columns df →
        label = CStr "File Name" ∨ label = CStr "Sheet Name" ∨
        ∃ s, CStr s ∈ sheet_headers data ∧ startswith s "Unnamed" = false ∧
             label = CStr (strip s)) ∧
     length (columns df) ≤ length (List.filter kept (sheet_headers data)) + 2) ∧
  (∀ e, filter_unnamed (mkDataFrame (sheet_headers data)
                          (map (λ row, map Some (map coerce (take 11 row)))
                               (drop 5 data))) = inl e →
     outcome m = inr None ∧ (ERROR, MsgErrorFiltering e) ∈ logs m).
Proof.
  intros Hlen Hrect m. split.
  - intros df Hout. pose proof (extract_table_columns _ _ _ _ Hout) as Hcols.
    destruct (extract_table_made_from _ _ _ w _ Hrect Hout) as [Hjs Hmade].
    split; [|split; [|split]].
    + eexists. split; [exact Hmade|]. split; [|split].
      * intros j s Hs Hun. apply Hjs. by exists s.
      * intros j h Hh (s & Hs & Hun)%Hjs. exists s. split; [congruence|done].
      * intros j Hh (s & Hs & _)%Hjs. congruence.
    + intros s Hs Hun. rewrite Hcols. apply add_label_incl, add_label_incl.
      apply list_elem_of_fmap. exists (CStr s). split; [done|].
      apply list_elem_of_In, filter_In. split; [by apply list_elem_of_In|].
      simpl. by rewrite Hun.
    + intros label. rewrite Hcols.
      intros [[Hl| ->]%add_label_inv| ->]%add_label_inv; [|by left|by right; left].
      right; right. apply list_elem_of_fmap in Hl as (h & -> & Hh).
      apply list_elem_of_In, filter_In in Hh as [Hh Hk].
      destruct h; try done. exists s. split; [by apply list_elem_of_In|].
      split; [|done]. simpl in Hk. by apply negb_true_iff.
    + rewrite Hcols. unfold add_label.
      repeat destruct (existsb _ _); rewrite ?length_app, ?length_fmap; simpl; lia.
  - intros e He. subst m. unfold extract_table.
    destruct (length data <? 5) eqn:Hlt; [apply Nat.ltb_lt in Hlt; lia|].
    case_bool_decide as Hrows.
    { apply (f_equal length) in Hrows. rewrite length_sheet_rows in Hrows.
      simpl in Hrows. lia. }
    rewrite (sheet_table_rectangular data w) by (done || lia).
    rewrite outcome_bind, logs_bind, outcome_lift. rewrite He.
    split; [done|]. simpl. left.
Qed.

End Sheet.

(** ** Concatenation *)

Lemma reindex_length (new_labels : list cell) (df : DataFrame)
    (rs : list (list (option string))) :
  wf df → reindex new_labels df = inr rs →
  Forall (λ r, length r = length new_labels) rs.
Proof.
  unfold reindex, wf. intros Hwf. case_bool_decide as Heq.
  - intros [= <-]. by rewrite <- Heq.
  - case_bool_decide; [|done]. intros [= <-].
    apply Forall_forall. intros r (r0 & -> & _)%list_elem_of_fmap.
    unfold reindex_row. by rewrite length_map.
Qed.

Lemma concat_rows_length (new_labels : list cell) (objs : list DataFrame)
    (rs : list (list (option string))) :
  Forall wf objs → concat_rows new_labels objs = inr rs →
  Forall (λ r, length r = length new_labels) rs.
Proof.
  revert rs. induction objs as [|df objs IH]; intros rs Hall; simpl.
  - intros [= <-]. constructor.
  - inversion Hall as [|? ? Hdf Hobjs]; subst.
    destruct (reindex new_labels df) as [e|rs1] eqn:H1; [done|].
    destruct (concat_rows new_labels objs) as [e|rs2] eqn:H2; [done|].
    intros [= <-]. apply Forall_app. split.
    + by eapply reindex_length.
    + by apply IH.
Qed.

Lemma pd_concat_wf (objs : list DataFrame) (df : DataFrame) :
  Forall wf objs → pd_concat objs = inr df → wf df.
Proof.
  intros Hall. unfold pd_concat. destruct objs as [|df1 objs']; [done|].
  destruct (concat_rows _ _) as [e|rs] eqn:Hrs; [done|]. intros [= <-].
  unfold wf. simpl columns. simpl records. by eapply concat_rows_length.
Qed.

(** ** One workbook *)

Section File.

Variable os_path_basename : string → string.
Variable load_workbook : string → exn + Workbook.

Lemma process_sheet_outcome (file_path : string) (workbook : Workbook)
    (sheet_name : string) :
  outcome (process_sheet os_path_basename file_path workbook sheet_name) =
  if String.eqb sheet_name "Hoja1" then inr None
  else
    match getitem workbook sheet_name with
    | inl e => inl e
    | inr sheet =>
        if bool_decide (sheet_state sheet = hidden) then inr None
        else
          match sheet_values sheet with
          | inl e => inl e
          | inr data =>
              outcome (extract_table os_path_basename file_path sheet_name data)
          end
    end.
Proof.
  unfold process_sheet. rewrite outcome_bind.
  destruct (String.eqb sheet_name "Hoja1"); [done|].
  rewrite outcome_bind, outcome_lift.
  destruct (getitem workbook sheet_name) as [e|sheet]; [done|]. simpl.
  case_bool_decide; [done|].
  rewrite outcome_bind. simpl. rewrite outcome_bind, outcome_lift.
  rewrite outcome_bind, outcome_lift.
  by destruct (sheet_values sheet).
Qed.

(** A sheet that is named 'Hoja1', or is in state [hidden], or has fewer
    than 5 rows, ends its turn of the loop with no table. *)
Lemma process_sheet_skipped (file_path : string) (workbook : Workbook)
    (sheet_name : string) :
  sheet_name = "Hoja1" ∨
  (∃ sheet, getitem workbook sheet_name = inr sheet ∧
     (sheet_state sheet = hidden ∨
      ∃ data, values sheet = Some data ∧ length data < 5)) →
  outcome (process_sheet os_path_basename file_path workbook sheet_name) = inr None.
Proof.
  rewrite process_sheet_outcome. intros [->|(sheet & -> & Hcase)]; [done|].
  destruct (String.eqb sheet_name "Hoja1"); [done|].
  case_bool_decide as Hstate; [done|].
  destruct Hcase as [?|(data & Hval & Hlen)]; [done|].
  unfold sheet_values. rewrite Hval, extract_table_outcome.
  by apply Nat.ltb_lt in Hlen as ->.
Qed.

(** A turn of the loop that gives a table is the turn of a sheet that is
    not named 'Hoja1', is not in state [hidden], and has a header row and a
    row after it. *)
Lemma process_sheet_Some (file_path : string) (workbook : Workbook)
    (sheet_name : string) (df : DataFrame) :
  outcome (process_sheet os_path_basename file_path workbook sheet_name) = inr (Some df) →
  sheet_name ≠ "Hoja1" ∧
  ∃ sheet data,
    getitem workbook sheet_name = inr sheet ∧
    sheet_state sheet ≠ hidden ∧
    values sheet = Some data ∧
    5 < length data ∧
    outcome (extract_table os_path_basename file_path sheet_name data) = inr (Some df).
Proof.
  rewrite process_sheet_outcome.
  destruct (String.eqb sheet_name "Hoja1") eqn:Hname; [done|].
  apply String.eqb_neq in Hname.
  destruct (getitem workbook sheet_name) as [e|sheet]; [done|].
  case_bool_decide as Hstate; [done|].
  unfold sheet_values. destruct (values sheet) as [data|] eqn:Hval; [|done].
  intros Hout. split; [done|]. exists sheet, data.
  repeat split; try done. by apply extract_table_Some in Hout as [? _].
Qed.

Lemma process_sheet_wf (file_path : string) (workbook : Workbook)
    (sheet_name : string) (df : DataFrame) :
  outcome (process_sheet os_path_basename file_path workbook sheet_name) = inr (Some df) →
  wf df.
Proof.
  rewrite process_sheet_outcome. destruct (String.eqb _ _); [done|].
  destruct (getitem _ _) as [e|sheet]; [done|]. case_bool_decide; [done|].
  destruct (sheet_values sheet) as [e|data]; [done|]. apply extract_table_wf.
Qed.

Lemma process_sheets_wf (file_path : string) (workbook : Workbook)
    (names : list string) (all_data l : list DataFrame) :
  Forall wf all_data →
  outcome (process_sheets os_path_basename file_path workbook names all_data) = inr l →
  Forall wf l.
Proof.
  revert all_data. induction names as [|name names IH]; intros all_data Hall; simpl.
  - by intros [= <-].
  - rewrite outcome_bind.
    destruct (outcome (process_sheet _ _ _ name)) as [e|[df|]] eqn:Hs; [done| |].
    + apply IH. apply Forall_app. split; [done|]. constructor; [|constructor].
      by eapply process_sheet_wf.
    + by apply IH.
Qed.

(** [process_file] raises nothing: what its [try] raises becomes [None]. *)
Lemma process_file_outcome (file_path : string) :
  outcome (process_file os_path_basename load_workbook file_path) =
  inr match outcome (process_file_try os_path_basename load_workbook file_path) with
      | inl _ => None
      | inr r => r
      end.
Proof.
  unfold process_file. rewrite outcome_bind. simpl.
  rewrite outcome_try_except.
  destruct (outcome (process_file_try _ _ _)) as [e|r]; [|done].
  by rewrite outcome_bind.
Qed.

Lemma process_file_logs_error (file_path : string) (e : exn) :
  outcome (process_file_try os_path_basename load_workbook file_path) = inl e →
  (ERROR, MsgErrorProcessingFile file_path e)
  ∈ logs (process_file os_path_basename load_workbook file_path).
Proof.
  intros He. unfold process_file. rewrite logs_bind. simpl.
  rewrite logs_try_except, He, logs_bind. simpl.
  rewrite !elem_of_cons, elem_of_app, !elem_of_cons. right. right. by left.
Qed.

Lemma process_file_logs_start (file_path : string) :
  (INFO, MsgProcessingFile file_path)
  ∈ logs (process_file os_path_basename load_workbook file_path).
Proof. unfold process_file. rewrite logs_bind. simpl. left. Qed.

Lemma process_file_wf (file_path : string) (df : DataFrame) :
  outcome (process_file os_path_basename load_workbook file_path) = inr (Some df) →
  wf df.
Proof.
  rewrite process_file_outcome. unfold process_file_try.
  rewrite outcome_bind, outcome_lift.
  destruct (load_workbook file_path) as [e|workbook]; [done|].
  rewrite outcome_bind.
  destruct (outcome (process_sheets _ _ _ _ _)) as [e|all_data] eqn:Hs; [done|].
  apply process_sheets_wf in Hs; [|constructor].
  destruct all_data as [|df1 all_data']; [done|].
  rewrite outcome_bind, outcome_lift.
  destruct (pd_concat _) as [e|df'] eqn:Hc; [done|]. simpl. intros [= <-].
  by eapply pd_concat_wf.
Qed.

End File.

(** ** The sheet written *)

Lemma write_row_lookup (r c : nat) (vals : list cell) (ws : Worksheet) (r' c' : nat) :
  write_row r c vals ws !! (r', c') =
  match (if decide (r' = r ∧ c ≤ c') then vals !! (c' - c) else None) with
  | Some v => Some v
  | None => ws !! (r', c')
  end.
Proof.
  revert c ws. induction vals as [|v vals IH]; intros c ws; simpl.
  - by case_decide.
  - rewrite IH. destruct (decide (r' = r ∧ S c ≤ c')) as [[-> Hc]|Hn].
    + rewrite decide_True by (split; [done|lia]).
      replace (c' - c) with (S (c' - S c)) by lia. simpl.
      destruct (vals !! _); [done|].
      rewrite lookup_insert_ne; [done|]. intros [= ?]. lia.
    + destruct (decide (r' = r ∧ c ≤ c')) as [[-> Hc]|Hn'].
      * assert (c' = c) as -> by lia. rewrite Nat.sub_diag. simpl.
        by rewrite lookup_insert_eq.
      * rewrite lookup_insert_ne; [done|]. intros [= -> ->]. apply Hn'. lia.
Qed.

Lemma write_rows_lookup (r : nat) (cells : list (list cell)) (ws : Worksheet)
    (r' c' : nat) :
  write_rows r cells ws !! (r', c') =
  match (if decide (r ≤ r') then cells !! (r' - r) ≫= (.!! c') else None) with
  | Some v => Some v
  | None => ws !! (r', c')
  end.
Proof.
  revert r ws. induction cells as [|vals cells IH]; intros r ws; simpl.
  - by case_decide.
  - rewrite IH, write_row_lookup. destruct (decide (S r ≤ r')) as [Hr|Hr].
    + rewrite (decide_True (P:=r ≤ r')) by lia.
      replace (r' - r) with (S (r' - S r)) by lia. simpl.
      destruct (cells !! _ ≫= _); [done|].
      rewrite decide_False by lia. done.
    + destruct (decide (r ≤ r')) as [Hr'|Hr'].
      * assert (r' = r) as -> by lia. rewrite Nat.sub_diag. simpl.
        rewrite decide_True by (split; [done|lia]). by rewrite Nat.sub_0_r.
      * rewrite decide_False by lia. done.
Qed.

(** Where [to_excel] puts the labels and the rows. *)
Lemma to_excel_lookup (df : DataFrame) (startrow : nat) :
  (∀ r c, r < startrow → to_excel df startrow !! (r, c) = None) ∧
  (∀ c, to_excel df startrow !! (startrow, c) = columns df !! c) ∧
  (∀ i c, to_excel df startrow !! (startrow + 1 + i, c) =
          row ← records df !! i; v ← row !! c; Some (CStr (default EmptyString v))).
Proof.
  unfold to_excel, formatted_cells. split; [|split].
  - intros r c Hr. rewrite write_rows_lookup, decide_False by lia. done.
  - intros c. rewrite write_rows_lookup, decide_True by lia.
    rewrite Nat.sub_diag. simpl. by destruct (columns df !! c).
  - intros i c. rewrite write_rows_lookup, decide_True by lia.
    replace (startrow + 1 + i - startrow) with (S i) by lia. simpl.
    change (map ?f ?l) with (f <$> l). rewrite list_lookup_fmap.
    destruct (records df !! i) as [row|]; simpl; [|done].
    change (map ?f ?l) with (f <$> l). rewrite list_lookup_fmap.
    by destruct (row !! c).
Qed.

(** ** The annotation columns *)

Lemma setitem_fresh (key value : string) (df : DataFrame) :
  CStr key ∉ columns df →
  setitem key value df =
  mkDataFrame (columns df ++ [CStr key]) (map (λ r, r ++ [Some value]) (records df)).
Proof.
  intros Hn. unfold setitem. destruct (existsb _ _) eqn:He; [|done].
  by apply existsb_label_is in He.
Qed.

Lemma annotate_wf (df : DataFrame) : wf df → wf (annotate df).
Proof. intros Hwf. unfold annotate. by do 4 apply setitem_wf. Qed.

Lemma annotate_holds (df : DataFrame) (key : string) :
  wf df → key ∈ annotation_columns →
  CStr key ∈ columns (annotate df) ∧ holds key EmptyString (annotate df).
Proof.
  intros Hwf Hkey. unfold annotate.
  pose proof (setitem_wf "Ingeniero de Calidad" EmptyString df Hwf) as Hwf1.
  pose proof (setitem_wf "Status" EmptyString _ Hwf1) as Hwf2.
  pose proof (setitem_wf "Método 7M" EmptyString _ Hwf2) as Hwf3.
  unfold annotation_columns in Hkey.
  repeat (apply elem_of_cons in Hkey as [->|Hkey]); [| | | |by apply elem_of_nil in Hkey].
  - split.
    + rewrite !columns_setitem. do 3 apply add_label_incl. apply add_label_elem_of.
    + do 3 (apply setitem_holds_other; [done|done|]). by apply setitem_holds.
  - split.
    + rewrite !columns_setitem. do 2 apply add_label_incl. apply add_label_elem_of.
    + do 2 (apply setitem_holds_other; [done|done|]). by apply setitem_holds.
  - split.
    + rewrite !columns_setitem. apply add_label_incl. apply add_label_elem_of.
    + apply setitem_holds_other; [done|done|]. by apply setitem_holds.
  - split.
    + rewrite !columns_setitem. apply add_label_elem_of.
    + by apply setitem_holds.
Qed.

Lemma annotate_fresh (df : DataFrame) :
  (∀ key, key ∈ annotation_columns → CStr key ∉ columns df) →
  annotate df =
  mkDataFrame (columns df ++ (CStr <$> annotation_columns))
              (map (λ r, r ++ replicate 4 (Some EmptyString)) (records df)).
Proof.
  intros Hfresh. unfold annotate.
  assert (∀ key, key ∈ annotation_columns → ∀ l,
            Forall (λ c, c ≠ CStr key) l → CStr key ∉ columns df ++ l) as Hn.
  { intros key Hkey l Hl [Hin|Hin]%elem_of_app; [by eapply Hfresh|].
    rewrite Forall_forall in Hl. by eapply Hl. }
  rewrite (setitem_fresh "Ingeniero de Calidad") by (apply Hfresh; set_solver).
  rewrite (setitem_fresh "Status")
    by (simpl; apply Hn; [set_solver|by repeat constructor]).
  simpl. rewrite <- app_assoc.
  rewrite (setitem_fresh "Método 7M")
    by (simpl; apply Hn; [set_solver|by repeat constructor]).
  simpl. rewrite <- app_assoc.
  rewrite (setitem_fresh "Fecha")
    by (simpl; apply Hn; [set_solver|by repeat constructor]).
  simpl. rewrite <- app_assoc. f_equal.
  rewrite !map_map. apply map_ext. intros r. by rewrite <- !app_assoc.
Qed.

(** ** The folder *)

Section Folder.

Variable os_path_basename : string → string.
Variable os_path_join : string → string → string.
Variable os_listdir : string → exn + list string.
Variable load_workbook : string → exn + Workbook.

Local Abbreviation tables_of' := (tables_of os_path_basename os_path_join load_workbook).

Lemma process_files_outcome (input_folder : string) (n i : nat)
    (files : list string) (merged_data : list DataFrame) :
  outcome (process_files os_path_basename os_path_join load_workbook
             input_folder n i files merged_data) =
  inr (merged_data ++ tables_of' input_folder files).
Proof.
  revert i merged_data. induction files as [|f files IH]; intros i merged_data.
  - simpl. by rewrite app_nil_r.
  - simpl. rewrite outcome_bind. simpl. rewrite outcome_bind.
    unfold tables_of, file_table. simpl.
    rewrite process_file_outcome.
    destruct (outcome (process_file_try _ _ _)) as [e|[df|]]; rewrite IH;
      unfold tables_of, file_table; [done| |done].
    by rewrite <- app_assoc.
Qed.

Lemma process_files_logs (input_folder : string) (n i : nat)
    (files : list string) (merged_data : list DataFrame) (f : string) :
  f ∈ files →
  (INFO, MsgProcessingFile (os_path_join input_folder f))
  ∈ logs (process_files os_path_basename os_path_join load_workbook
            input_folder n i files merged_data).
Proof.
  revert i merged_data. induction files as [|f' files IH]; intros i merged_data.
  - by intros ?%elem_of_nil.
  - intros Hin. simpl. rewrite logs_bind. simpl. rewrite logs_bind.
    rewrite process_file_outcome. right. apply elem_of_app.
    apply elem_of_cons in Hin as [->|Hin].
    + left. apply process_file_logs_start.
    + right. by apply IH.
Qed.

Lemma process_year_folder_outcome (input_folder output_file_path : string) :
  outcome (process_year_folder os_path_basename os_path_join os_listdir
             load_workbook input_folder output_file_path) =
  match os_listdir input_folder with
  | inl e => inl e
  | inr listing =>
      let merged_data :=
        tables_of' input_folder (List.filter (λ f, endswith f ".xlsx") listing) in
      match merged_data with
      | [] => inr None
      | _ =>
          match pd_concat merged_data with
          | inl e => inl e
          | inr merged_df =>
              inr (Some (output_file_path, to_excel (annotate merged_df) 5))
          end
      end
  end.
Proof.
  unfold process_year_folder. rewrite outcome_bind, outcome_lift.
  destruct (os_listdir input_folder) as [e|listing]; [done|].
  rewrite outcome_bind, process_files_outcome. simpl app.
  destruct (tables_of' _ _) as [|df dfs] eqn:Ht; [by rewrite outcome_bind|].
  cbv iota. rewrite outcome_bind, outcome_lift.
  destruct (pd_concat (df :: dfs)) as [e|merged_df]; [done|].
  by rewrite !outcome_bind.
Qed.

Lemma tables_of_wf (input_folder : string) (files : list string) :
  Forall wf (tables_of' input_folder files).
Proof.
  apply Forall_forall. intros df (f & _ & Hf)%list_elem_of_omap.
  unfold file_table in Hf.
  destruct (outcome (process_file _ _ _)) as [e|r] eqn:Ho; [done|]. subst r.
  by eapply process_file_wf.
Qed.

Local Abbreviation process_file' := (process_file os_path_basename load_workbook).
Local Abbreviation process_file_try' := (process_file_try os_path_basename load_workbook).
Local Abbreviation process_files' :=
  (process_files os_path_basename os_path_join load_workbook).
Local Abbreviation process_year_folder' :=
  (process_year_folder os_path_basename os_path_join os_listdir load_workbook).
Lemma process_year_folder_written (input_folder output_file_path out : string)
    (ws : Worksheet) :
  outcome (process_year_folder' input_folder output_file_path) = inr (Some (out, ws)) →
  ∃ listing merged_df,
    os_listdir input_folder = inr listing ∧
    tables_of' input_folder (List.filter (λ f, endswith f ".xlsx") listing) ≠ [] ∧
    pd_concat (tables_of' input_folder
                 (List.filter (λ f, endswith f ".xlsx") listing)) = inr merged_df ∧
    wf merged_df ∧
    out = output_file_path ∧
    ws = to_excel (annotate merged_df) 5.
Proof.
  rewrite process_year_folder_outcome.
  destruct (os_listdir input_folder) as [e|listing]; [done|]. cbv zeta.
  destruct (tables_of' _ _) as [|df dfs] eqn:Ht; [done|].
  destruct (pd_concat _) as [e|merged_df] eqn:Hc; [done|].
  intros [= <- <-]. exists listing, merged_df. rewrite Ht.
  repeat split; [done|done|].
  eapply pd_concat_wf; [|exact Hc]. rewrite <- Ht. apply tables_of_wf.
Qed.

(** X18. When a Consolidated Table is written, it is the concatenation of
    the tables of the files with the four columns 'Ingeniero de Calidad',
    'Status', 'Método 7M' and 'Fecha' set: each of these labels is in the
    table, and every column so labelled holds the empty string in every
    row.  When no column of the concatenation bears one of the four labels,
    they are four new columns after all the others, in that order. *)
Theorem annotation_columns_hold_empty_text (input_folder output_file_path out : string)
    (ws : Worksheet) :
  outcome (process_year_folder' input_folder output_file_path) = inr (Some (out, ws)) →
  ∃ listing merged_df,
    os_listdir input_folder = inr listing ∧
    pd_concat (tables_of' input_folder
                 (List.filter (λ f, endswith f ".xlsx") listing)) = inr merged_df ∧
    ws = to_excel (annotate merged_df) 5 ∧
    (∀ key, key ∈ annotation_columns →
       CStr key ∈ columns (annotate merged_df) ∧ holds key EmptyString (annotate merged_df)) ∧
    Forall (λ r, length r = length (columns (annotate merged_df)))
           (records (annotate merged_df)) ∧
    ((∀ key, key ∈ annotation_columns → CStr key ∉ columns merged_df) →
       columns (annotate merged_df) =
         columns merged_df ++ (CStr <$> annotation_columns) ∧
       records (annotate merged_df) =
         map (λ r, r ++ replicate 4 (Some EmptyString)) (records merged_df)).
Proof.
  intros (listing & merged_df & Hl & _ & Hc & Hwf & _ & ->)%process_year_folder_written.
  exists listing, merged_df. repeat split; try done.
  - by apply annotate_holds.
  - by apply annotate_holds.
  - by apply annotate_wf.
  - by rewrite annotate_fresh.
  - by rewrite annotate_fresh.
Qed.

(** C5. When no file of the folder yields a table, [process_year_folder]
    logs the error and ends with nothing written; and whenever something
    is written, it is at the output path and some file of the folder with
    the extension yielded a table. *)
Theorem C5_no_usable_data_no_output (input_folder output_file_path : string)
    (listing : list string) :
  os_listdir input_folder = inr listing →
  let m := process_year_folder' input_folder output_file_path in
  ((∀ f, f ∈ listing → endswith f ".xlsx" = true →
      outcome (process_file' (os_path_join input_folder f)) = inr None) →
   outcome m = inr None ∧ (ERROR, MsgNoValidDataFolder input_folder) ∈ logs m) ∧
  (∀ out ws, outcome m = inr (Some (out, ws)) →
     out = output_file_path ∧
     ∃ f df, f ∈ listing ∧ endswith f ".xlsx" = true ∧
       outcome (process_file' (os_path_join input_folder f)) = inr (Some df)).
Proof.
  intros Hl m. split.
  - intros Hnone.
    assert (tables_of' input_folder
              (List.filter (λ f, endswith f ".xlsx") listing) = []) as Ht.
    { destruct (tables_of' _ _) as [|df dfs] eqn:Ht; [done|].
      assert (df ∈ tables_of' input_folder
                (List.filter (λ f, endswith f ".xlsx") listing)) as Hin
        by (rewrite Ht; left).
      apply list_elem_of_omap in Hin as (f & Hf%list_elem_of_In%filter_In & Hdf).
      destruct Hf as [Hf%list_elem_of_In Hext].
      unfold file_table in Hdf. by rewrite (Hnone f Hf Hext) in Hdf. }
    subst m. split.
    + by rewrite process_year_folder_outcome, Hl, Ht.
    + unfold process_year_folder. rewrite logs_bind, outcome_lift, Hl.
      cbv beta iota zeta.
      rewrite logs_bind, process_files_outcome. simpl app. rewrite Ht.
      cbv beta iota. rewrite logs_bind. simpl.
      rewrite elem_of_app. right. left.
  - intros out ws (listing' & merged_df & Hl' & Hne & _ & _ & -> & _)%process_year_folder_written.
    split; [done|]. rewrite Hl in Hl'. injection Hl' as <-.
    destruct (tables_of' _ _) as [|df dfs] eqn:Ht; [done|].
    assert (df ∈ tables_of' input_folder
              (List.filter (λ f, endswith f ".xlsx") listing)) as Hin
      by (rewrite Ht; left).
    apply list_elem_of_omap in Hin as (f & Hf%list_elem_of_In%filter_In & Hdf).
    destruct Hf as [Hf%list_elem_of_In Hext].
    exists f, df. split; [done|]. split; [done|].
    unfold file_table in Hdf.
    destruct (outcome (process_file' _)) as [e|r]; [done|]. by subst r.
Qed.

(** C6. An exception raised while the workbook is opened or processed does
    not leave [process_file]: it is logged and the result is [None];
    [process_file] never raises.  In the loop of the aggregator the file
    then adds nothing, and the loop goes on: its result is the one it has
    without that file, it raises nothing, and every later file is
    processed. *)
Theorem C6_bad_workbook_is_skipped (input_folder bad : string) (e : exn)
    (before after : list string) (n i n' i' : nat) (merged_data : list DataFrame) :
  outcome (process_file_try' (os_path_join input_folder bad)) = inl e →
  let file_path := os_path_join input_folder bad in
  let loop := process_files' input_folder n i (before ++ bad :: after) merged_data in
  outcome (process_file' file_path) = inr None ∧
  (ERROR, MsgErrorProcessingFile file_path e) ∈ logs (process_file' file_path) ∧
  (∀ fp e', load_workbook fp = inl e' → outcome (process_file_try' fp) = inl e') ∧
  (∀ fp, ∃ r, outcome (process_file' fp) = inr r) ∧
  outcome loop =
    outcome (process_files' input_folder n' i' (before ++ after) merged_data) ∧
  (∃ tables, outcome loop = inr tables) ∧
  (∀ f, f ∈ after →
        (INFO, MsgProcessingFile (os_path_join input_folder f)) ∈ logs loop).
Proof.
  intros He file_path loop. subst file_path loop.
  split; [by rewrite process_file_outcome, He|].
  split; [by apply process_file_logs_error|].
  split.
  { intros fp e' Hfp. unfold process_file_try.
    by rewrite outcome_bind, outcome_lift, Hfp. }
  split; [intros fp; rewrite process_file_outcome; by eexists|].
  rewrite !process_files_outcome. split; [|split].
  - do 2 f_equal. unfold tables_of. rewrite !omap_app. f_equal. simpl.
    unfold file_table at 1. by rewrite process_file_outcome, He.
  - by eexists.
  - intros f Hf. apply process_files_logs. apply elem_of_app. right. by right.
Qed.

(** C7. When the Consolidated Table is written, the sheet has no cell in
    rows 0 to 4, the labels of the table in row 5 from column 0 on, and row
    [i] of the table in row [6 + i]. *)
Theorem C7_header_row_at_index_5 (input_folder output_file_path out : string)
    (ws : Worksheet) :
  outcome (process_year_folder' input_folder output_file_path) = inr (Some (out, ws)) →
  ∃ listing merged_df,
    os_listdir input_folder = inr listing ∧
    pd_concat (tables_of' input_folder
                 (List.filter (λ f, endswith f ".xlsx") listing)) = inr merged_df ∧
    let df := annotate merged_df in
    (∀ r c, r < 5 → ws !! (r, c) = None) ∧
    (∀ c, ws !! (5, c) = columns df !! c) ∧
    (∀ i c, ws !! (6 + i, c) =
            row ← records df !! i; v ← row !! c; Some (CStr (default EmptyString v))).
Proof.
  intros (listing & merged_df & Hl & _ & Hc & _ & _ & ->)%process_year_folder_written.
  exists listing, merged_df. split; [done|]. split; [done|].
  destruct (to_excel_lookup (annotate merged_df) 5) as (H1 & H2 & H3).
  split; [exact H1|]. split; [exact H2|]. intros i c. apply (H3 i c).
Qed.

End Folder.

(** ** Examples *)

Example turno_extracted :
  outcome (extract_table posixpath_basename "2023/File1.xlsx" "Turno1" turno_grid)
  = inr (Some turno_table).
Proof. vm_compute. reflexivity. Qed.

Example folder_2023_written :
  outcome (process_year_folder posixpath_basename posixpath_join example_listdir
             example_load_workbook "2023" "RP2023.xlsx")
  = inr (Some ("RP2023.xlsx", to_excel example_consolidated 5)).
Proof. vm_compute. reflexivity. Qed.

(** C1. A worksheet in state [veryHidden] is not visible, yet the test of
    line 29 lets it through: the file whose only sheet is such a worksheet
    yields a table with the rows of that sheet. *)
Theorem C1_veryHidden_sheet_is_extracted :
  getitem [mkSheet "Oculta" veryHidden (Some turno_grid)] "Oculta"
    = inr (mkSheet "Oculta" veryHidden (Some turno_grid)) ∧
  example_load_workbook "oculto/Oculto.xlsx"
    = inr [mkSheet "Oculta" veryHidden (Some turno_grid)] ∧
  veryHidden ≠ visible ∧
  outcome (process_file posixpath_basename example_load_workbook "oculto/Oculto.xlsx")
    = inr (Some oculto_table).
Proof. repeat split; try done. Qed.

(** The header 2023 of column B of [turno_grid] is not empty, and the
    Extracted Table has no column for it. *)
Lemma C3_counterexample :
  outcome (extract_table posixpath_basename "2023/File1.xlsx" "Turno1" turno_grid)
    = inr (Some turno_table) ∧
  CInt 2023 ∈ sheet_headers turno_grid ∧
  strip (coerce (CInt 2023)) ≠ EmptyString ∧
  (CInt 2023 ∉ columns turno_table) ∧
  (CStr (strip (coerce (CInt 2023))) ∉ columns turno_table) ∧
  ¬ nonempty_headers_present posixpath_basename.
Proof.
  assert (CInt 2023 ∈ sheet_headers turno_grid) as Hh
    by (apply list_elem_of_In; vm_compute; tauto).
  assert (strip (coerce (CInt 2023)) ≠ EmptyString) as Hs
    by (vm_compute; discriminate).
  assert (CInt 2023 ∉ columns turno_table) as H1.
  { intros Hin%list_elem_of_In. vm_compute in Hin. intuition discriminate. }
  assert (CStr (strip (coerce (CInt 2023))) ∉ columns turno_table) as H2.
  { intros Hin%list_elem_of_In. vm_compute in Hin. intuition discriminate. }
  split; [exact turno_extracted|]. split; [exact Hh|]. split; [exact Hs|].
  split; [exact H1|]. split; [exact H2|]. intros Hclaim.
  by destruct (Hclaim _ _ _ _ _ turno_extracted Hh Hs).
Qed.

(** C4. In the folder [estado] the one worksheet has a column 'Status' of
    its own, holding 'abierto'.  Line 117 does not add a column there: it
    sets the column the input brought.  The sheet written has the label
    'Status' where the input had it and the empty string below it, the
    text 'abierto' is in no cell, and three columns, not four, come after
    the columns of the concatenation. *)
Theorem C4_own_Status_column_is_emptied :
  example_listdir "estado" = inr ["Estado.xlsx"] ∧
  example_load_workbook (posixpath_join "estado" "Estado.xlsx")
    = inr [mkSheet "Turno1" visible (Some estado_grid)] ∧
  pd_concat (tables_of posixpath_basename posixpath_join example_load_workbook
               "estado" ["Estado.xlsx"]) = inr estado_merged ∧
  outcome (process_year_folder posixpath_basename posixpath_join example_listdir
             example_load_workbook "estado" "RP.xlsx")
    = inr (Some ("RP.xlsx", to_excel estado_consolidated 5)) ∧
  annotate estado_merged = estado_consolidated ∧
  ¬ annotations_appended estado_merged estado_consolidated ∧
  length (columns estado_consolidated) = length (columns estado_merged) + 3 ∧
  to_excel estado_merged 5 !! (6, 0) = Some (CStr "abierto") ∧
  to_excel estado_consolidated 5 !! (5, 0) = Some (CStr "Status") ∧
  to_excel estado_consolidated 5 !! (6, 0) = Some (CStr EmptyString) ∧
  (∀ r c, to_excel estado_consolidated 5 !! (r, c) ≠ Some (CStr "abierto")).
Proof.
  split; [by vm_compute|]. split; [by vm_compute|]. split; [by vm_compute|].
  split; [by vm_compute|]. split; [by vm_compute|].
  split; [unfold annotations_appended; vm_compute; discriminate|].
  split; [reflexivity|]. split; [reflexivity|]. split; [reflexivity|].
  split; [reflexivity|].
  assert (map_Forall (λ _ v, v ≠ CStr "abierto") (to_excel estado_consolidated 5))
    as Hall by (apply (bool_decide_eq_true_1 _); vm_compute; reflexivity).
  intros r c Hrc. by apply (Hall _ _ Hrc).
Qed.

(** ** The theorems at the examples

    Each theorem with hypotheses, applied to the inputs above. *)

Lemma C2_witness :
  Forall (λ row, length row = 12) turno_grid ∧
  outcome (extract_table posixpath_basename "2023/File1.xlsx" "Turno1" turno_grid)
    = inr (Some turno_table) ∧
  length (records turno_table) = length turno_grid - 5 ∧
  extract_table posixpath_basename "2023/File1.xlsx" "Turno1" (map (take 11) turno_grid)
    = extract_table posixpath_basename "2023/File1.xlsx" "Turno1" turno_grid.
Proof.
  assert (Forall (λ row, length row = 12) turno_grid) as H1
    by (repeat constructor).
  assert (outcome (extract_table posixpath_basename "2023/File1.xlsx" "Turno1"
                     turno_grid) = inr (Some turno_table)) as H2
    by (vm_compute; reflexivity).
  split; [exact H1|]. split; [exact H2|].
  exact (proj2 (C2_rows_4_onward_columns_A_to_K posixpath_basename
                  "2023/File1.xlsx" "Turno1" turno_grid 12 turno_table H1 H2)).
Defined.

Lemma C3_witness :
  5 < length turno_grid ∧
  Forall (λ row, length row = 12) turno_grid ∧
  (∃ js, made_from (posixpath_basename "2023/File1.xlsx") "Turno1" turno_grid
           turno_table js ∧
         0 ∈ js ∧ 2 ∈ js ∧ 3 ∉ js) ∧
  CStr (strip " Name ") ∈ columns turno_table ∧
  5 < length numeros_grid ∧
  Forall (λ row, length row = 2) numeros_grid ∧
  outcome (extract_table posixpath_basename "x/N.xlsx" "S" numeros_grid) = inr None ∧
  (ERROR, MsgErrorFiltering
            (AttributeError "Can only use .str accessor with string values!"))
  ∈ logs (extract_table posixpath_basename "x/N.xlsx" "S" numeros_grid).
Proof.
  assert (5 < length turno_grid) as H1 by (simpl; lia).
  assert (Forall (λ row, length row = 12) turno_grid) as H2
    by (repeat constructor).
  assert (5 < length numeros_grid) as H3 by (simpl; lia).
  assert (Forall (λ row, length row = 2) numeros_grid) as H4
    by (repeat constructor).
  destruct (C3_text_headers_kept_empty_dropped posixpath_basename
              "2023/File1.xlsx" "Turno1" turno_grid 12 H1 H2) as [Htable _].
  destruct (C3_text_headers_kept_empty_dropped posixpath_basename
              "x/N.xlsx" "S" numeros_grid 2 H3 H4) as [_ Hfails].
  assert (outcome (extract_table posixpath_basename "2023/File1.xlsx" "Turno1"
                     turno_grid) = inr (Some turno_table)) as Ho
    by (vm_compute; reflexivity).
  destruct (Htable turno_table Ho)
    as ((js & Hmade & Hin & _ & Hempty) & Hlabel & _).
  split; [exact H1|]. split; [exact H2|]. split.
  { exists js. split; [exact Hmade|]. split; [|split].
    - apply (Hin 0 "ID"); reflexivity.
    - apply (Hin 2 " Name "); reflexivity.
    - apply (Hempty 3). reflexivity. }
  split.
  { apply (Hlabel " Name "); [|vm_compute; reflexivity].
    apply list_elem_of_In. vm_compute. tauto. }
  split; [exact H3|]. split; [exact H4|].
  apply Hfails. vm_compute. reflexivity.
Defined.

Lemma C9_witness :
  outcome (extract_table posixpath_basename "2023/File1.xlsx" "Turno1" turno_grid)
    = inr (Some turno_table) ∧
  holds "File Name" (posixpath_basename "2023/File1.xlsx") turno_table ∧
  holds "Sheet Name" "Turno1" turno_table ∧
  outcome (extract_table posixpath_basename "x/N.xlsx" "S" nbsp_grid)
    = inr (Some nbsp_table) ∧
  holds "File Name" (posixpath_basename "x/N.xlsx") nbsp_table ∧
  Forall (λ r, length r = length (columns nbsp_table)) (records nbsp_table).
Proof.
  assert (outcome (extract_table posixpath_basename "2023/File1.xlsx" "Turno1"
                     turno_grid) = inr (Some turno_table)) as H
    by (vm_compute; reflexivity).
  assert (outcome (extract_table posixpath_basename "x/N.xlsx" "S" nbsp_grid)
          = inr (Some nbsp_table)) as H'
    by (vm_compute; reflexivity).
  split; [exact H|].
  pose proof (C9_tracking_columns posixpath_basename "2023/File1.xlsx" "Turno1"
                turno_grid turno_table H) as Hc.
  pose proof (C9_tracking_columns posixpath_basename "x/N.xlsx" "S"
                nbsp_grid nbsp_table H') as Hn.
  split; [exact (proj1 Hc)|]. split; [exact (proj1 (proj2 Hc))|].
  split; [exact H'|]. split; [exact (proj1 Hn)|].
  exact (proj2 (proj2 (proj2 (proj2 (proj2 Hn))))).
Defined.

Lemma C10_witness :
  5 < length turno_grid ∧
  Forall (λ row, length row = 12) turno_grid ∧
  (∃ js,
     (∀ j, j ∈ js ↔
           ∃ s, sheet_headers turno_grid !! j = Some (CStr s) ∧
                startswith s "Unnamed" = false) ∧
     made_from (posixpath_basename "2023/File1.xlsx") "Turno1" turno_grid
       turno_table js) ∧
  5 < length numeros_grid ∧
  Forall (λ row, length row = 2) numeros_grid ∧
  Forall (λ h, is_str h = false) (sheet_headers numeros_grid).
Proof.
  assert (5 < length turno_grid) as H1 by (simpl; lia).
  assert (Forall (λ row, length row = 12) turno_grid) as H2
    by (repeat constructor).
  assert (5 < length numeros_grid) as H3 by (simpl; lia).
  assert (Forall (λ row, length row = 2) numeros_grid) as H4
    by (repeat constructor).
  destruct (C10_column_survives_iff_text_not_Unnamed posixpath_basename
              "2023/File1.xlsx" "Turno1" turno_grid 12 H1 H2) as [_ Ht].
  destruct (C10_column_survives_iff_text_not_Unnamed posixpath_basename
              "x/N.xlsx" "S" numeros_grid 2 H3 H4) as [_ Hn].
  assert (outcome (extract_table posixpath_basename "2023/File1.xlsx" "Turno1"
                     turno_grid) = inr (Some turno_table)) as Ho
    by (vm_compute; reflexivity).
  assert (outcome (extract_table posixpath_basename "x/N.xlsx" "S" numeros_grid)
          = inr None) as Ho'
    by (vm_compute; reflexivity).
  rewrite Ho in Ht. rewrite Ho' in Hn.
  split; [exact H1|]. split; [exact H2|]. split; [exact (proj1 Ht)|].
  split; [exact H3|]. split; [exact H4|]. exact Hn.
Defined.

Lemma annotation_columns_hold_empty_text_witness :
  outcome (process_year_folder posixpath_basename posixpath_join example_listdir
             example_load_workbook "2023" "RP2023.xlsx")
    = inr (Some ("RP2023.xlsx", to_excel example_consolidated 5)) ∧
  ∃ listing merged_df,
    example_listdir "2023" = inr listing ∧
    pd_concat (tables_of posixpath_basename posixpath_join example_load_workbook
                 "2023" (List.filter (λ f, endswith f ".xlsx") listing))
      = inr merged_df ∧
    to_excel example_consolidated 5 = to_excel (annotate merged_df) 5.
Proof.
  assert (outcome (process_year_folder posixpath_basename posixpath_join
                     example_listdir example_load_workbook "2023" "RP2023.xlsx")
          = inr (Some ("RP2023.xlsx", to_excel example_consolidated 5))) as H
    by (vm_compute; reflexivity).
  split; [exact H|].
  destruct (annotation_columns_hold_empty_text posixpath_basename posixpath_join
              example_listdir example_load_workbook "2023" "RP2023.xlsx"
              "RP2023.xlsx" (to_excel example_consolidated 5) H)
    as (listing & merged_df & Hl & Hc & Hws & _).
  exists listing, merged_df. exact (conj Hl (conj Hc Hws)).
Defined.

Lemma C5_witness :
  example_listdir "vacio" = inr ["File2.xlsx"; "Roto.xlsx"] ∧
  outcome (process_year_folder posixpath_basename posixpath_join example_listdir
             example_load_workbook "vacio" "RP.xlsx") = inr None ∧
  (ERROR, MsgNoValidDataFolder "vacio")
  ∈ logs (process_year_folder posixpath_basename posixpath_join example_listdir
            example_load_workbook "vacio" "RP.xlsx").
Proof.
  assert (example_listdir "vacio" = inr ["File2.xlsx"; "Roto.xlsx"]) as H
    by reflexivity.
  split; [exact H|].
  apply (proj1 (C5_no_usable_data_no_output posixpath_basename posixpath_join
                  example_listdir example_load_workbook "vacio" "RP.xlsx" _ H)).
  intros f Hf _.
  apply elem_of_cons in Hf as [->|Hf]; [vm_compute; reflexivity|].
  apply elem_of_cons in Hf as [->|Hf]; [vm_compute; reflexivity|].
  by apply elem_of_nil in Hf.
Defined.

Lemma C6_witness :
  outcome (process_file_try posixpath_basename example_load_workbook
             (posixpath_join "2023" "Roto.xlsx"))
    = inl (OtherException "File is not a zip file") ∧
  outcome (process_files posixpath_basename posixpath_join example_load_workbook
             "2023" 3 0 ([] ++ "Roto.xlsx" :: ["File1.xlsx"; "File2.xlsx"]) [])
  = outcome (process_files posixpath_basename posixpath_join example_load_workbook
               "2023" 2 0 ([] ++ ["File1.xlsx"; "File2.xlsx"]) []).
Proof.
  assert (outcome (process_file_try posixpath_basename example_load_workbook
                     (posixpath_join "2023" "Roto.xlsx"))
          = inl (OtherException "File is not a zip file")) as H
    by (vm_compute; reflexivity).
  split; [exact H|].
  exact (proj1 (proj2 (proj2 (proj2 (proj2
    (C6_bad_workbook_is_skipped posixpath_basename posixpath_join
       example_load_workbook "2023" "Roto.xlsx" _ [] ["File1.xlsx"; "File2.xlsx"]
       3 0 2 0 [] H)))))).
Defined.

Lemma C7_witness :
  outcome (process_year_folder posixpath_basename posixpath_join example_listdir
             example_load_workbook "2023" "RP2023.xlsx")
    = inr (Some ("RP2023.xlsx", to_excel example_consolidated 5)) ∧
  (∀ r c, r < 5 → to_excel example_consolidated 5 !! (r, c) = None) ∧
  to_excel example_consolidated 5 !! (5, 0) = Some (CStr "ID") ∧
  to_excel example_consolidated 5 !! (6, 1) = Some (CStr "Ana").
Proof.
  assert (outcome (process_year_folder posixpath_basename posixpath_join
                     example_listdir example_load_workbook "2023" "RP2023.xlsx")
          = inr (Some ("RP2023.xlsx", to_excel example_consolidated 5))) as H
    by (vm_compute; reflexivity).
  split; [exact H|].
  destruct (C7_header_row_at_index_5 posixpath_basename posixpath_join
              example_listdir example_load_workbook "2023" "RP2023.xlsx"
              "RP2023.xlsx" (to_excel example_consolidated 5) H)
    as (listing & merged_df & _ & _ & Hblank & _).
  split; [exact Hblank|]. split; reflexivity.
Defined.

(** * Further properties *)

(** ** Concatenation, row by row *)

Lemma unique_from_spec (seen l : list cell) (x : cell) :
  x ∈ unique_from seen l ↔ x ∈ l ∧ x ∉ seen.
Proof.
  revert seen. induction l as [|y l IH]; intros seen; simpl.
  - split; [by intros ?%elem_of_nil|by intros [?%elem_of_nil _]].
  - case_bool_decide as Hy.
    + rewrite IH, elem_of_cons. split; [tauto|].
      intros [[->|?] ?]; [done|tauto].
    + rewrite !elem_of_cons, IH, elem_of_cons. split.
      * intros [->|[? ?]]; [tauto|]. split; [tauto|]. tauto.
      * intros [[->|?] ?]; [by left|].
        destruct (decide (x = y)) as [->|]; [by left|]. right. tauto.
Qed.

Lemma unique_from_NoDup (seen l : list cell) : NoDup (unique_from seen l).
Proof.
  revert seen. induction l as [|y l IH]; intros seen; simpl; [constructor|].
  case_bool_decide; [apply IH|]. constructor; [|apply IH].
  rewrite unique_from_spec, elem_of_cons. tauto.
Qed.

Lemma elem_of_unique (l : list cell) (x : cell) : x ∈ unique l ↔ x ∈ l.
Proof.
  unfold unique. rewrite unique_from_spec. split; [tauto|].
  intros ?. split; [done|]. by intros ?%elem_of_nil.
Qed.

Lemma length_rows_under (new_labels : list cell) (df : DataFrame) :
  length (rows_under new_labels df) = length (records df).
Proof. unfold rows_under. case_bool_decide; [done|]. by rewrite length_map. Qed.

Lemma reindex_inr (new_labels : list cell) (df : DataFrame)
    (rs : list (list (option string))) :
  reindex new_labels df = inr rs ↔
  rs = rows_under new_labels df ∧ (columns df = new_labels ∨ NoDup (columns df)).
Proof.
  unfold reindex, rows_under. case_bool_decide as Heq.
  - split; [intros [= <-]; tauto|by intros [-> _]].
  - case_bool_decide as Hnd.
    + split; [intros [= <-]; tauto|by intros [-> _]].
    + split; [done|]. intros [_ [?|?]]; done.
Qed.

Lemma concat_rows_inr (new_labels : list cell) (objs : list DataFrame)
    (rs : list (list (option string))) :
  concat_rows new_labels objs = inr rs ↔
  rs = mjoin (rows_under new_labels <$> objs) ∧
  Forall (λ df, columns df = new_labels ∨ NoDup (columns df)) objs.
Proof.
  revert rs. induction objs as [|df objs IH]; intros rs; simpl.
  - split; [by intros [= <-]|by intros [-> _]].
  - destruct (reindex new_labels df) as [e|rs1] eqn:H1.
    + split; [done|]. intros [_ Hall]. inversion Hall as [|? ? Hdf _]; subst.
      assert (reindex new_labels df = inr (rows_under new_labels df)) as H2
        by by apply reindex_inr.
      congruence.
    + apply reindex_inr in H1 as [-> Hdf].
      destruct (concat_rows new_labels objs) as [e|rs2] eqn:H2.
      * split; [done|]. intros [_ Hall]. inversion Hall as [|? ? _ Hobjs]; subst.
        assert (inl e = inr (mjoin (rows_under new_labels <$> objs))) as Habs
          by by apply IH.
        done.
      * destruct (IH rs2) as [[-> Hobjs] _]; [done|]. split.
        -- intros [= <-]. split; [done|]. by constructor.
        -- by intros [-> _].
Qed.

Lemma pd_concat_inr (objs : list DataFrame) (df : DataFrame) :
  pd_concat objs = inr df ↔
  objs ≠ [] ∧
  columns df = union_indexes (columns <$> objs) ∧
  records df = mjoin (rows_under (columns df) <$> objs) ∧
  Forall (λ o, columns o = columns df ∨ NoDup (columns o)) objs.
Proof.
  unfold pd_concat. destruct objs as [|o objs'] eqn:Ho; [by split; [|intros [? _]]|].
  rewrite <- Ho. assert (objs ≠ []) as Hne by by rewrite Ho. clear Ho.
  destruct (concat_rows _ objs) as [e|rs] eqn:Hrs.
  - split; [done|]. intros (_ & Hc & Hr & Hall). rewrite <- Hc in Hrs.
    assert (concat_rows (columns df) objs = inr (records df)) as H2
      by by apply concat_rows_inr.
    congruence.
  - apply concat_rows_inr in Hrs as [-> Hall]. split.
    + by intros [= <-].
    + intros (_ & Hc & Hr & _). destruct df as [c r]. simpl in *. by subst.
Qed.

(** ** The loop over the sheets *)

Section Sheets.

Variable os_path_basename : string → string.
Variable load_workbook : string → exn + Workbook.

Local Abbreviation process_sheet' := (process_sheet os_path_basename).
Local Abbreviation process_sheets' := (process_sheets os_path_basename).
Local Abbreviation sheet_tables' := (sheet_tables os_path_basename).
Local Abbreviation process_file' := (process_file os_path_basename load_workbook).
Local Abbreviation process_file_try' :=
  (process_file_try os_path_basename load_workbook).

Lemma process_sheets_outcome (file_path : string) (workbook : Workbook)
    (names : list string) (all_data : list DataFrame) :
  Forall (λ name, ∃ r, outcome (process_sheet' file_path workbook name) = inr r)
         names →
  outcome (process_sheets' file_path workbook names all_data) =
  inr (all_data ++ sheet_tables' file_path workbook names).
Proof.
  revert all_data. induction names as [|name names IH]; intros all_data Hall.
  - simpl. by rewrite app_nil_r.
  - inversion Hall as [|? ? [r Hr] Hnames]; subst. simpl.
    rewrite outcome_bind, Hr, (IH _ Hnames).
    unfold sheet_tables, sheet_table. simpl. rewrite Hr.
    destruct r as [df|]; [|done]. by rewrite <- app_assoc.
Qed.

Lemma process_sheets_raises (file_path : string) (workbook : Workbook)
    (names : list string) (all_data : list DataFrame) :
  Exists (λ name, ∃ e, outcome (process_sheet' file_path workbook name) = inl e)
         names →
  ∃ e, outcome (process_sheets' file_path workbook names all_data) = inl e.
Proof.
  revert all_data. induction names as [|name names IH]; intros all_data Hex.
  - by apply Exists_nil in Hex.
  - simpl. rewrite outcome_bind.
    destruct (outcome (process_sheet' file_path workbook name)) as [e|r] eqn:Hr;
      [by eexists|].
    apply Exists_cons in Hex as [[e He]|Hex]; [congruence|]. by apply IH.
Qed.

Lemma getitem_sheetnames (workbook : Workbook) (sheet_name : string) :
  sheet_name ∈ sheetnames workbook →
  ∃ sheet, getitem workbook sheet_name = inr sheet ∧ sheet ∈ workbook ∧
           title sheet = sheet_name.
Proof.
  unfold sheetnames, getitem. intros (s & -> & Hs)%list_elem_of_fmap.
  destruct (List.find _ workbook) as [s'|] eqn:Hf.
  - apply find_some in Hf as [Hin Heq]. apply String.eqb_eq in Heq.
    exists s'. split; [done|]. split; [by apply list_elem_of_In|done].
  - apply list_elem_of_In in Hs.
    pose proof (find_none _ _ Hf s Hs) as Hn. simpl in Hn.
    by rewrite String.eqb_refl in Hn.
Qed.

Lemma process_file_try_outcome (file_path : string) (workbook : Workbook) :
  load_workbook file_path = inr workbook →
  outcome (process_file_try' file_path) =
  match outcome (process_sheets' file_path workbook (sheetnames workbook) []) with
  | inl e => inl e
  | inr [] => inr None
  | inr all_data =>
      match pd_concat all_data with
      | inl e => inl e
      | inr df => inr (Some df)
      end
  end.
Proof.
  intros Hload. unfold process_file_try.
  rewrite outcome_bind, outcome_lift, Hload, outcome_bind.
  destruct (outcome (process_sheets' _ _ _ _)) as [e|[|df dfs]]; [done| |].
  - by rewrite outcome_bind.
  - rewrite outcome_bind, outcome_lift. by destruct (pd_concat _).
Qed.

(** X1. A turn of the sheet loop that raises costs the whole file: a visible
    chart sheet not named 'Hoja1' has no [values], so the file it is in
    yields no table, whatever its other sheets hold, and the error is
    logged. *)
Theorem chart_sheet_loses_the_file (file_path : string) (workbook : Workbook)
    (sheet : Sheet) :
  load_workbook file_path = inr workbook →
  title sheet ∈ sheetnames workbook →
  getitem workbook (title sheet) = inr sheet →
  title sheet ≠ "Hoja1" →
  sheet_state sheet ≠ hidden →
  values sheet = None →
  outcome (process_file' file_path) = inr None ∧
  ∃ e, (ERROR, MsgErrorProcessingFile file_path e) ∈ logs (process_file' file_path).
Proof.
  intros Hload Hin Hget Hname Hstate Hval.
  assert (∃ e, outcome (process_file_try' file_path) = inl e) as [e He].
  { rewrite (process_file_try_outcome _ _ Hload).
    destruct (process_sheets_raises file_path workbook
                (sheetnames workbook) []) as [e He].
    - apply Exists_exists. exists (title sheet). split; [done|].
      rewrite process_sheet_outcome, Hget.
      apply String.eqb_neq in Hname. rewrite Hname.
      rewrite bool_decide_false by done.
      unfold sheet_values. rewrite Hval. by eexists.
    - rewrite He. by eexists. }
  split.
  - by rewrite process_file_outcome, He.
  - exists e. by apply process_file_logs_error.
Qed.

(** In a workbook whose sheets are worksheets with rows of one width, no
    turn of the loop raises. *)
Lemma worksheets_never_raise (file_path : string) (workbook : Workbook) :
  Forall (λ sheet, ∃ data w, values sheet = Some data ∧
                             Forall (λ row, length row = w) data) workbook →
  Forall (λ name, ∃ r, outcome (process_sheet' file_path workbook name) = inr r)
         (sheetnames workbook).
Proof.
  intros Hwb. apply Forall_forall. intros name Hname.
  rewrite process_sheet_outcome.
  destruct (String.eqb name "Hoja1"); [by eexists|].
  apply getitem_sheetnames in Hname as (sheet & -> & Hin & _).
  case_bool_decide; [by eexists|].
  rewrite Forall_forall in Hwb. destruct (Hwb sheet Hin) as (data & w & Hval & Hrect).
  unfold sheet_values. rewrite Hval.
  destruct (decide (5 < length data)) as [Hlen|Hlen].
  - rewrite (extract_table_cases _ _ _ data w) by done.
    destruct (str_accessor _); by eexists.
  - rewrite extract_table_outcome.
    destruct (length data <? 5) eqn:Hlt; [by eexists|]. apply Nat.ltb_ge in Hlt.
    rewrite bool_decide_true; [by eexists|].
    unfold sheet_rows. rewrite drop_ge by lia. done.
Qed.

(** X2. The table of a file is the concatenation of the tables of its sheets,
    in the order of the workbook: for a workbook of worksheets with rows of
    one width, [process_file] gives [None] when no sheet gave a table or
    the concatenation is refused, and the concatenation otherwise. *)
Theorem file_table_is_concat_of_sheet_tables (file_path : string)
    (workbook : Workbook) :
  load_workbook file_path = inr workbook →
  Forall (λ sheet, ∃ data w, values sheet = Some data ∧
                             Forall (λ row, length row = w) data) workbook →
  outcome (process_file' file_path) =
  inr match sheet_tables' file_path workbook (sheetnames workbook) with
      | [] => None
      | all_data =>
          match pd_concat all_data with
          | inl _ => None
          | inr df => Some df
          end
      end.
Proof.
  intros Hload Hwb.
  rewrite process_file_outcome, (process_file_try_outcome _ _ Hload).
  rewrite process_sheets_outcome by by apply worksheets_never_raise.
  simpl app. destruct (sheet_tables' _ _ _) as [|df dfs]; [done|].
  by destruct (pd_concat _).
Qed.

(** X3. When every sheet of the workbook is skipped, [process_file] returns
    [None] and logs the warning of line 79. *)
Theorem file_of_skipped_sheets_warns (file_path : string) (workbook : Workbook) :
  load_workbook file_path = inr workbook →
  Forall (λ name, outcome (process_sheet' file_path workbook name) = inr None)
         (sheetnames workbook) →
  outcome (process_file' file_path) = inr None ∧
  (WARNING, MsgNoValidData file_path) ∈ logs (process_file' file_path).
Proof.
  intros Hload Hall.
  assert (outcome (process_sheets' file_path workbook (sheetnames workbook) [])
          = inr []) as Hs.
  { rewrite process_sheets_outcome
      by (eapply Forall_impl; [exact Hall|]; simpl; by eauto).
    simpl. f_equal. unfold sheet_tables.
    induction (sheetnames workbook) as [|name names IH]; [done|].
    inversion Hall as [|? ? Hname Hnames]; subst. simpl.
    unfold sheet_table at 1. rewrite Hname. by apply IH. }
  split.
  - by rewrite process_file_outcome, (process_file_try_outcome _ _ Hload), Hs.
  - unfold process_file. rewrite logs_bind. simpl. right.
    rewrite logs_try_except, elem_of_app. left.
    unfold process_file_try. rewrite logs_bind, outcome_lift, Hload.
    cbv beta iota. rewrite logs_bind, Hs. cbv beta iota.
    rewrite logs_bind. simpl. rewrite elem_of_app. right. left.
Qed.

Lemma process_sheet_ext (file_path : string) (workbook workbook' : Workbook)
    (sheet_name : string) :
  getitem workbook sheet_name = getitem workbook' sheet_name →
  process_sheet' file_path workbook sheet_name =
  process_sheet' file_path workbook' sheet_name.
Proof. intros Hget. unfold process_sheet. by rewrite Hget. Qed.

Lemma process_sheets_ext (file_path : string) (workbook workbook' : Workbook)
    (names : list string) (all_data : list DataFrame) :
  Forall (λ name, getitem workbook name = getitem workbook' name) names →
  outcome (process_sheets' file_path workbook names all_data) =
  outcome (process_sheets' file_path workbook' names all_data).
Proof.
  revert all_data. induction names as [|name names IH]; intros all_data Hall;
    [done|].
  inversion Hall as [|? ? Hname Hnames]; subst. simpl.
  rewrite !outcome_bind, (process_sheet_ext _ _ _ _ Hname).
  destruct (outcome (process_sheet' _ workbook' _)) as [e|r]; [done|].
  by apply IH.
Qed.

Lemma getitem_remove (before after : Workbook) (sheet : Sheet) (name : string) :
  name ≠ title sheet →
  getitem (before ++ sheet :: after) name = getitem (before ++ after) name.
Proof.
  intros Hne. unfold getitem.
  induction before as [|s before IH]; simpl.
  - destruct (String.eqb (title sheet) name) eqn:Heq; [|done].
    apply String.eqb_eq in Heq. congruence.
  - by destruct (String.eqb (title s) name).
Qed.

Lemma getitem_unique (before after : Workbook) (sheet : Sheet) :
  title sheet ∉ sheetnames before →
  getitem (before ++ sheet :: after) (title sheet) = inr sheet.
Proof.
  unfold getitem, sheetnames. induction before as [|s before IH]; simpl.
  - by rewrite String.eqb_refl.
  - rewrite not_elem_of_cons. intros [Hne Hnin].
    destruct (String.eqb (title s) (title sheet)) eqn:Heq.
    + apply String.eqb_eq in Heq. congruence.
    + by apply IH.
Qed.

End Sheets.

(** X4. A sheet that the loop skips counts for nothing in the result of the
    file: with sheet names all different, the workbook without a sheet
    that is named 'Hoja1', is in state [hidden] or has at most 5 rows gives
    the same result as the workbook with it. *)
Theorem skipped_sheet_is_removable (os_path_basename : string → string)
    (load_workbook load_workbook' : string → exn + Workbook)
    (file_path : string) (before after : Workbook) (sheet : Sheet) :
  load_workbook file_path = inr (before ++ sheet :: after) →
  load_workbook' file_path = inr (before ++ after) →
  NoDup (sheetnames (before ++ sheet :: after)) →
  title sheet = "Hoja1" ∨ sheet_state sheet = hidden ∨
    (∃ data, values sheet = Some data ∧ length data < 6) →
  outcome (process_file os_path_basename load_workbook file_path) =
  outcome (process_file os_path_basename load_workbook' file_path).
Proof.
  intros Hload Hload' Hnd Hskip.
  rewrite !process_file_outcome.
  rewrite (process_file_try_outcome _ _ _ _ Hload).
  rewrite (process_file_try_outcome _ _ _ _ Hload').
  unfold sheetnames in *. rewrite fmap_app, fmap_cons in *.
  apply NoDup_app in Hnd as (Hnd1 & Hdisj & Hnd2).
  apply NoDup_cons in Hnd2 as [Hnin2 Hnd2].
  assert (title sheet ∉ title <$> before) as Hnin1.
  { intros Hin. apply (Hdisj _ Hin). left. }
  set (workbook := before ++ sheet :: after).
  set (workbook' := before ++ after).
  assert (outcome (process_sheet os_path_basename file_path workbook (title sheet)) = inr None)
    as Hturn.
  { rewrite process_sheet_outcome. unfold workbook.
    rewrite getitem_unique by done.
    destruct (String.eqb (title sheet) "Hoja1") eqn:Hname; [done|].
    destruct Hskip as [Hn|[Hh|(data & Hval & Hlen)]].
    - apply String.eqb_neq in Hname. done.
    - by rewrite bool_decide_true.
    - case_bool_decide; [done|]. unfold sheet_values.
      rewrite Hval, extract_table_outcome.
      destruct (length data <? 5); [done|].
      rewrite bool_decide_true; [done|].
      unfold sheet_rows. by rewrite drop_ge by lia. }
  assert (∀ names, title sheet ∉ names →
            Forall (λ name, getitem workbook name = getitem workbook' name) names)
    as Hext.
  { intros names Hn. apply Forall_forall. intros name Hin.
    apply getitem_remove. by intros ->. }
  assert (∀ all_data,
    outcome (process_sheets os_path_basename file_path workbook
               ((title <$> before) ++ title sheet :: (title <$> after)) all_data) =
    outcome (process_sheets os_path_basename file_path workbook'
               ((title <$> before) ++ (title <$> after)) all_data)) as Hloop.
  { clear Hnd1 Hdisj. induction (title <$> before) as [|name names IH];
      intros all_data.
    - simpl. rewrite outcome_bind, Hturn. by apply process_sheets_ext, Hext.
    - apply not_elem_of_cons in Hnin1 as [Hne Hnin1]. simpl.
      rewrite !outcome_bind.
      rewrite (process_sheet_ext os_path_basename file_path workbook workbook' name)
        by (apply getitem_remove; congruence).
      destruct (outcome (process_sheet _ _ workbook' name)) as [e|r]; [done|].
      by apply IH. }
  rewrite Hloop. subst workbook'. by rewrite fmap_app.
Qed.


(** ** More on one sheet *)

Lemma compress_all_false {A} (mask : list bool) (l : list A) :
  Forall (λ b, b = false) mask → compress mask l = [].
Proof.
  revert l. induction mask as [|b mask IH]; intros [|x l] Hall; simpl; try done.
  inversion Hall as [|? ? -> Hmask]; subst. by apply IH.
Qed.

Lemma Forall_compress {A} (P : A → Prop) (mask : list bool) (l : list A) :
  Forall P l → Forall P (compress mask l).
Proof.
  revert l. induction mask as [|b mask IH]; intros [|x l] Hall; simpl;
    try constructor.
  inversion Hall as [|? ? Hx Hl]; subst.
  destruct b; [constructor; [done|]|]; by apply IH.
Qed.

Lemma infer_dtype_all_null (values : list cell) :
  Forall (λ c, c = CNone) values → infer_dtype values = IEmpty.
Proof.
  intros Hall. unfold infer_dtype.
  destruct (List.find _ values) as [val|] eqn:Hf; [|done].
  apply find_some in Hf as [Hin Hnn]. rewrite Forall_forall in Hall.
  by rewrite (Hall val (proj2 (list_elem_of_In _ _) Hin)) in Hnn.
Qed.

Lemma setitem_present (key value : string) (df : DataFrame) :
  Forall (Forall is_Some) (records df) →
  Forall (Forall is_Some) (records (setitem key value df)).
Proof.
  intros Hall. unfold setitem. destruct (existsb _ _); simpl.
  - apply Forall_fmap. eapply Forall_impl; [exact Hall|]. simpl.
    intros r Hr. generalize (columns df).
    induction Hr as [|x r Hx Hr IH]; intros [|label labels]; simpl;
      try constructor; [|apply IH].
    by destruct (label_is key label).
  - apply Forall_fmap. eapply Forall_impl; [exact Hall|]. simpl.
    intros r Hr. apply Forall_app. split; [done|]. by repeat constructor.
Qed.

Section SheetMore.

Variable os_path_basename : string → string.

Local Abbreviation extract_table' := (extract_table os_path_basename).

(** X5. A worksheet whose header row is blank over columns A to K is not
    skipped: it gives a table of the two tracking columns alone, with one
    row for each worksheet row after the header row. *)
Theorem blank_header_row_leaves_tracking_columns (file_path sheet_name : string)
    (data : list (list cell)) (w : nat) :
  5 < length data →
  Forall (λ row, length row = w) data →
  Forall (λ h, h = CNone) (sheet_headers data) →
  outcome (extract_table' file_path sheet_name data) =
  inr (Some (mkDataFrame
               [CStr "File Name"; CStr "Sheet Name"]
               (map (λ _, [Some (os_path_basename file_path); Some sheet_name])
                    (drop 5 data)))).
Proof.
  intros Hlen Hrect Hblank.
  rewrite (extract_table_cases _ _ _ data w) by done.
  unfold str_accessor. rewrite infer_dtype_all_null by done. simpl.
  do 2 f_equal. unfold tracked, selected.
  assert (List.filter kept (sheet_headers data) = []) as ->.
  { induction Hblank as [|h hs -> _ IH]; [done|]. simpl. exact IH. }
  unfold setitem. simpl. f_equal.
  change (?f <$> ?l) with (map f l). rewrite !map_map.
  apply map_ext. intros row.
  rewrite compress_all_false; [done|].
  apply Forall_fmap. eapply Forall_impl; [exact Hblank|]. by intros h ->.
Qed.

(** X6. An Extracted Table of a worksheet with rows of one width has a text
    in every cell, never a missing value; and under a label that is not a
    tracking name, the cell of an empty worksheet cell is the empty string,
    not the text 'None', while the cell of any other worksheet cell is its
    [str()].  The columns are located as in the worksheet: [js] are the
    worksheet columns whose header cell passes the filter, in order. *)
Theorem extracted_table_has_no_missing_value (file_path sheet_name : string)
    (data : list (list cell)) (w : nat) (df : DataFrame) :
  Forall (λ row, length row = w) data →
  outcome (extract_table' file_path sheet_name data) = inr (Some df) →
  Forall (Forall is_Some) (records df) ∧
  ∃ js : list nat,
    (∀ j, j ∈ js ↔
          ∃ s, sheet_headers data !! j = Some (CStr s) ∧
               startswith s "Unnamed" = false) ∧
    ∀ k j s i row c,
      js !! k = Some j → sheet_headers data !! j = Some (CStr s) →
      strip s ≠ "File Name" → strip s ≠ "Sheet Name" →
      data !! (5 + i) = Some row → row !! j = Some c →
      ∃ r, records df !! i = Some r ∧
           r !! k = Some (Some (if c is CNone then EmptyString else py_str c)).
Proof.
  intros Hrect Hout. split.
  - apply extract_table_Some in Hout as (Hlen & df0 & Hnew & _ & ->).
    rewrite (sheet_table_rectangular data w) in Hnew by (done || lia).
    injection Hnew as <-. unfold tracked. do 2 apply setitem_present.
    unfold selected. simpl. apply Forall_fmap, Forall_fmap.
    apply Forall_forall. intros row _. simpl. apply Forall_compress.
    apply Forall_fmap, Forall_forall. intros v _. by eexists.
  - destruct (extract_table_made_from _ _ _ _ w _ Hrect Hout)
      as (Hjs & _ & Hfrom & _).
    eexists. split; [exact Hjs|].
    intros k j s i row c Hk Hs HF HS Hrow Hc.
    destruct (Hfrom k j Hk) as (s' & Hs' & _ & Hcells).
    assert (s' = s) as -> by congruence.
    destruct (Hcells i row Hrow) as (c' & r & Hc' & Hr & Hrk).
    assert (c' = c) as -> by congruence.
    exists r. split; [exact Hr|]. rewrite Hrk.
    apply String.eqb_neq in HF, HS. rewrite HF, HS. by destruct c.
Qed.

(** X7. An Extracted Table has at most 13 columns, the 11 of A to K and the
    two tracking columns, and its labels are all texts. *)
Theorem extracted_table_labels (file_path sheet_name : string)
    (data : list (list cell)) (df : DataFrame) :
  outcome (extract_table' file_path sheet_name data) = inr (Some df) →
  length (columns df) ≤ 13 ∧ Forall (λ label, is_str label = true) (columns df).
Proof.
  intros Hout. rewrite (extract_table_columns _ _ _ _ _ Hout). split.
  - rewrite !add_label_app, !length_app, length_fmap.
    assert (length (List.filter kept (sheet_headers data)) ≤ 11) as Hk.
    { etrans; [apply filter_length_le|]. unfold sheet_headers.
      rewrite length_take. lia. }
    repeat case_bool_decide; simpl; lia.
  - apply Forall_forall. intros label.
    intros [[Hl| ->]%add_label_inv| ->]%add_label_inv; [|done|done].
    apply list_elem_of_fmap in Hl as (h & -> & Hh).
    apply list_elem_of_In, filter_In in Hh as [_ Hk]. by destruct h.
Qed.

End SheetMore.

(** ** Where the rows of a file come from *)

Lemma rows_under_holds (key value : string) (new_labels : list cell)
    (df : DataFrame) (r : list (option string)) :
  holds key value df → CStr key ∈ columns df →
  r ∈ rows_under new_labels df → row_holds key value new_labels r.
Proof.
  intros Hh Hin. unfold rows_under. case_bool_decide as Heq.
  - intros Hr j Hj. subst new_labels. by apply Hh.
  - intros (r0 & -> & Hr0)%list_elem_of_fmap j Hj.
    unfold reindex_row. change (map ?f ?l) with (f <$> l).
    rewrite list_lookup_fmap, Hj. simpl. unfold get_loc.
    destruct (list_find (λ x, x = CStr key) (columns df)) as [[i x]|] eqn:Hf.
    + apply list_find_Some in Hf as (Hi & -> & _). simpl.
      by rewrite (Hh r0 i Hr0 Hi).
    + apply list_find_None in Hf. rewrite Forall_forall in Hf.
      by destruct (Hf _ Hin).
Qed.

Lemma setitem_row_holds_other (key' value' : string) (df : DataFrame)
    (r' : list (option string)) :
  wf df → r' ∈ records (setitem key' value' df) →
  ∃ r, r ∈ records df ∧
       ∀ key value, key ≠ key' →
         row_holds key value (columns df) r →
         row_holds key value (columns (setitem key' value' df)) r'.
Proof.
  intros Hwf. unfold wf in Hwf. rewrite Forall_forall in Hwf.
  unfold setitem. destruct (existsb _ _) eqn:He; simpl.
  - intros (r & -> & Hr)%list_elem_of_fmap. exists r. split; [done|].
    intros key value Hne Hh j Hj.
    rewrite lookup_zip_with, Hj. simpl. rewrite (Hh j Hj). simpl.
    destruct (String.eqb key key') eqn:Heq; [|done].
    by apply String.eqb_eq in Heq.
  - intros (r & -> & Hr)%list_elem_of_fmap. exists r. split; [done|].
    intros key value Hne Hh j Hj. specialize (Hwf _ Hr).
    destruct (decide (j < length (columns df))) as [Hlt|Hge].
    + rewrite lookup_app_l in Hj by done. rewrite lookup_app_l by lia.
      by apply Hh.
    + assert (j = length (columns df)) as ->.
      { apply lookup_lt_Some in Hj. rewrite length_app in Hj. simpl in Hj. lia. }
      rewrite list_lookup_middle in Hj by done. congruence.
Qed.

Lemma annotate_row_holds (df : DataFrame) (r' : list (option string)) :
  wf df → r' ∈ records (annotate df) →
  ∃ r, r ∈ records df ∧
       ∀ key value, key ∉ annotation_columns →
         row_holds key value (columns df) r →
         row_holds key value (columns (annotate df)) r'.
Proof.
  intros Hwf Hr'. unfold annotate in *.
  pose proof (setitem_wf "Ingeniero de Calidad" EmptyString df Hwf) as Hwf1.
  pose proof (setitem_wf "Status" EmptyString _ Hwf1) as Hwf2.
  pose proof (setitem_wf "Método 7M" EmptyString _ Hwf2) as Hwf3.
  apply setitem_row_holds_other in Hr' as (r3 & Hr3 & H4); [|done].
  apply setitem_row_holds_other in Hr3 as (r2 & Hr2 & H3); [|done].
  apply setitem_row_holds_other in Hr2 as (r1 & Hr1 & H2); [|done].
  apply setitem_row_holds_other in Hr1 as (r0 & Hr0 & H1); [|done].
  exists r0. split; [done|]. intros key value Hkey Hh.
  unfold annotation_columns in Hkey.
  apply H4; [set_solver|]. apply H3; [set_solver|].
  apply H2; [set_solver|]. apply H1; [set_solver|]. done.
Qed.

Lemma elem_of_union_indexes (indexes : list (list cell)) (label : cell) :
  label ∈ union_indexes indexes ↔ ∃ index, index ∈ indexes ∧ label ∈ index.
Proof.
  unfold union_indexes. destruct indexes as [|index others].
  - split; [by intros ?%elem_of_nil|by intros (? & ?%elem_of_nil & _)].
  - destruct (forallb _ others) eqn:Hall.
    + split; [intros ?; exists index; split; [left|done]|].
      intros (index' & [->|Hin]%elem_of_cons & Hl); [done|].
      rewrite forallb_forall in Hall.
      specialize (Hall index' (proj1 (list_elem_of_In _ _) Hin)).
      by apply bool_decide_eq_true in Hall as ->.
    + rewrite elem_of_unique, list_elem_of_join.
      split; intros (l & ? & ?); by exists l.
Qed.

Section FileMore.

Variable os_path_basename : string → string.
Variable load_workbook : string → exn + Workbook.

Local Abbreviation process_sheet' := (process_sheet os_path_basename).
Local Abbreviation process_sheets' := (process_sheets os_path_basename).
Local Abbreviation process_file' := (process_file os_path_basename load_workbook).

Lemma process_sheets_Forall (P : DataFrame → Prop) (file_path : string)
    (workbook : Workbook) (names : list string) (all_data l : list DataFrame) :
  Forall P all_data →
  (∀ name df, name ∈ names →
     outcome (process_sheet' file_path workbook name) = inr (Some df) → P df) →
  outcome (process_sheets' file_path workbook names all_data) = inr l →
  Forall P l.
Proof.
  revert all_data. induction names as [|name names IH]; intros all_data Hall HP;
    simpl.
  - by intros [= <-].
  - rewrite outcome_bind.
    destruct (outcome (process_sheet' _ _ name)) as [e|[df|]] eqn:Hs; [done| |].
    + apply IH; [|intros ? ? ?; apply HP; by right].
      apply Forall_app. split; [done|]. constructor; [|constructor].
      eapply HP; [left|done].
    + apply IH; [done|]. intros ? ? ?; apply HP; by right.
Qed.

(** The table of a file, taken apart. *)
Lemma process_file_Some (file_path : string) (df : DataFrame) :
  outcome (process_file' file_path) = inr (Some df) →
  ∃ workbook all_data,
    load_workbook file_path = inr workbook ∧
    pd_concat all_data = inr df ∧
    Forall (λ t, ∃ name, name ∈ sheetnames workbook ∧
                   outcome (process_sheet' file_path workbook name) = inr (Some t))
           all_data.
Proof.
  rewrite process_file_outcome.
  destruct (load_workbook file_path) as [e|workbook] eqn:Hload.
  { unfold process_file_try. by rewrite outcome_bind, outcome_lift, Hload. }
  rewrite (process_file_try_outcome _ _ _ _ Hload).
  destruct (outcome (process_sheets' _ _ _ _)) as [e|all_data] eqn:Hs; [done|].
  destruct all_data as [|t ts] eqn:Hd; [done|]. rewrite <- Hd in *.
  destruct (pd_concat all_data) as [e|df'] eqn:Hc; [done|]. intros [= <-].
  exists workbook, all_data. split; [done|]. split; [done|].
  eapply process_sheets_Forall; [constructor| |exact Hs].
  intros name t' Hname Ht'. by exists name.
Qed.

Lemma extract_table_tracking (file_path sheet_name : string)
    (data : list (list cell)) (df : DataFrame) :
  outcome (extract_table os_path_basename file_path sheet_name data) = inr (Some df) →
  wf df ∧
  CStr "File Name" ∈ columns df ∧ CStr "Sheet Name" ∈ columns df ∧
  holds "File Name" (os_path_basename file_path) df ∧
  holds "Sheet Name" sheet_name df.
Proof.
  intros Hout. pose proof (extract_table_wf _ _ _ _ _ Hout) as Hwf.
  pose proof (extract_table_columns _ _ _ _ _ Hout) as Hcols.
  apply extract_table_Some in Hout as (_ & df0 & Hnew & _ & ->).
  apply DataFrame_new_wf in Hnew as (Hwf0 & Hcols0 & _).
  pose proof (selected_wf _ _ Hwf0 Hcols0) as Hsel.
  split; [done|]. rewrite Hcols.
  split; [apply add_label_incl, add_label_elem_of|].
  split; [apply add_label_elem_of|].
  unfold tracked. split.
  - apply setitem_holds_other; [done|by apply setitem_wf|]. by apply setitem_holds.
  - apply setitem_holds. by apply setitem_wf.
Qed.

(** X8. Every row of the table of a file tells where it comes from: under
    'File Name' it holds the base name of the file, and under 'Sheet Name'
    the name of a sheet of the workbook that is not 'Hoja1' and not in
    state [hidden]; both labels are in the table. *)
Theorem file_rows_name_their_source (file_path : string) (df : DataFrame) :
  outcome (process_file' file_path) = inr (Some df) →
  CStr "File Name" ∈ columns df ∧
  CStr "Sheet Name" ∈ columns df ∧
  holds "File Name" (os_path_basename file_path) df ∧
  ∃ workbook,
    load_workbook file_path = inr workbook ∧
    ∀ r, r ∈ records df →
      ∃ sheet, getitem workbook (title sheet) = inr sheet ∧
               title sheet ≠ "Hoja1" ∧ sheet_state sheet ≠ hidden ∧
               row_holds "Sheet Name" (title sheet) (columns df) r.
Proof.
  intros (workbook & all_data & Hload & Hc & Hall)%process_file_Some.
  apply pd_concat_inr in Hc as (Hne & Hcols & Hrec & _).
  assert (Forall (λ t, wf t ∧ CStr "File Name" ∈ columns t ∧
                       CStr "Sheet Name" ∈ columns t ∧
                       holds "File Name" (os_path_basename file_path) t ∧
                       ∃ sheet, getitem workbook (title sheet) = inr sheet ∧
                                title sheet ≠ "Hoja1" ∧ sheet_state sheet ≠ hidden ∧
                                holds "Sheet Name" (title sheet) t) all_data) as Ht.
  { eapply Forall_impl; [exact Hall|]. simpl.
    intros t (name & Hname & Hs).
    apply process_sheet_Some in Hs as (Hn & sheet & data & Hget & Hst & _ & _ & Hx).
    apply extract_table_tracking in Hx as (? & ? & ? & ? & ?).
    apply getitem_sheetnames in Hname as (sheet' & Hget' & _ & Htitle).
    assert (sheet' = sheet) as -> by congruence. subst name.
    repeat split; try done. by exists sheet. }
  rewrite Forall_forall in Ht.
  assert (∀ key, (∀ t, t ∈ all_data → CStr key ∈ columns t) → CStr key ∈ columns df)
    as Hin.
  { intros key Hk. destruct all_data as [|t ts]; [done|].
    rewrite Hcols. apply elem_of_union_indexes. exists (columns t).
    split; [rewrite fmap_cons; left|]. apply Hk. left. }
  split; [apply Hin; intros t Hin'; by apply (Ht t Hin')|].
  split; [apply Hin; intros t Hin'; by apply (Ht t Hin')|].
  split.
  - intros r j Hr. revert j. change (row_holds "File Name"
      (os_path_basename file_path) (columns df) r).
    rewrite Hrec in Hr. apply list_elem_of_join in Hr as (rs & Hr & Hrs).
    apply list_elem_of_fmap in Hrs as (t & -> & Hin').
    destruct (Ht t Hin') as (_ & HF & _ & HhF & _). by eapply rows_under_holds.
  - exists workbook. split; [done|]. intros r Hr.
    rewrite Hrec in Hr. apply list_elem_of_join in Hr as (rs & Hr & Hrs).
    apply list_elem_of_fmap in Hrs as (t & -> & Hin').
    destruct (Ht t Hin') as (_ & _ & HS & _ & sheet & Hget & Hn & Hst & HhS).
    exists sheet. repeat split; try done. by eapply rows_under_holds.
Qed.

End FileMore.

(** ** More on concatenation *)

Lemma union_indexes_cases (indexes : list (list cell)) :
  (∀ index, index ∈ indexes → index = union_indexes indexes) ∨
  NoDup (union_indexes indexes).
Proof.
  unfold union_indexes. destruct indexes as [|index others]; [right; constructor|].
  destruct (forallb _ others) eqn:Hall; [left|right; apply unique_from_NoDup].
  intros index' [->|Hin]%elem_of_cons; [done|].
  rewrite forallb_forall in Hall.
  specialize (Hall index' (proj1 (list_elem_of_In _ _) Hin)).
  by apply bool_decide_eq_true in Hall.
Qed.

(** Tables of which one repeats a label and another has other labels are
    not concatenated. *)
Lemma pd_concat_repeated_labels (objs : list DataFrame) (t1 t2 : DataFrame) :
  t1 ∈ objs → t2 ∈ objs →
  ¬ NoDup (columns t1) → columns t2 ≠ columns t1 →
  ∃ e, pd_concat objs = inl e.
Proof.
  intros H1 H2 Hdup Hne.
  destruct (pd_concat objs) as [e|df] eqn:Hc; [by eexists|]. exfalso.
  apply pd_concat_inr in Hc as (_ & Hcols & _ & Hall).
  rewrite Forall_forall in Hall.
  destruct (Hall t1 H1) as [Heq|?]; [|done].
  destruct (union_indexes_cases (columns <$> objs)) as [Hsame|Hnd].
  - apply Hne. trans (union_indexes (columns <$> objs));
      [apply Hsame|symmetry; apply Hsame]; apply list_elem_of_fmap; eauto.
  - apply Hdup. by rewrite Heq, Hcols.
Qed.

(** Tables with the same labels are stacked in their order. *)
Lemma pd_concat_same_labels (objs : list DataFrame) (labels : list cell) :
  objs ≠ [] → Forall (λ o, columns o = labels) objs →
  pd_concat objs = inr (mkDataFrame labels (mjoin (records <$> objs))).
Proof.
  intros Hne Hall. apply pd_concat_inr. simpl.
  assert (union_indexes (columns <$> objs) = labels) as Hu.
  { unfold union_indexes. destruct objs as [|o objs']; [done|].
    rewrite fmap_cons. inversion Hall as [|? ? Ho Hobjs]; subst.
    rewrite (proj2 (forallb_forall _ _)); [done|].
    intros index (o' & Heq & Ho')%list_elem_of_In%list_elem_of_fmap.
    rewrite Forall_forall in Hobjs. apply bool_decide_eq_true.
    rewrite Heq. symmetry. by apply Hobjs. }
  split; [done|]. split; [done|]. split.
  - f_equal. apply list_fmap_ext. intros _ o Ho%list_elem_of_lookup_2.
    rewrite Forall_forall in Hall. unfold rows_under.
    by rewrite bool_decide_true by by apply Hall.
  - eapply Forall_impl; [exact Hall|]. simpl. by left.
Qed.

Lemma pd_concat_length (objs : list DataFrame) (df : DataFrame) :
  pd_concat objs = inr df →
  length (records df) = sum_list (length <$> (records <$> objs)).
Proof.
  intros (_ & _ & -> & _)%pd_concat_inr.
  rewrite length_join. f_equal. rewrite <- !list_fmap_compose.
  apply list_fmap_ext. intros _ o _. simpl. apply length_rows_under.
Qed.

Lemma length_records_annotate (df : DataFrame) :
  length (records (annotate df)) = length (records df).
Proof. unfold annotate. by rewrite !length_records_setitem. Qed.

(** ** More on the folder *)

Lemma extract_table_labels_text (os_path_basename : string → string)
    (file_path sheet_name : string) (data : list (list cell)) (df : DataFrame) :
  outcome (extract_table os_path_basename file_path sheet_name data) = inr (Some df) →
  Forall (λ label, is_str label = true) (columns df).
Proof.
  intros Hout. rewrite (extract_table_columns _ _ _ _ _ Hout).
  apply Forall_forall. intros label.
  intros [[Hl| ->]%add_label_inv| ->]%add_label_inv; [|done|done].
  apply list_elem_of_fmap in Hl as (h & -> & Hh).
  apply list_elem_of_In, filter_In in Hh as [_ Hk]. by destruct h.
Qed.

Lemma pd_concat_labels_text (objs : list DataFrame) (df : DataFrame) :
  pd_concat objs = inr df →
  Forall (λ o, Forall (λ label, is_str label = true) (columns o)) objs →
  Forall (λ label, is_str label = true) (columns df).
Proof.
  intros (_ & -> & _)%pd_concat_inr Hall. apply Forall_forall.
  intros label (index & (o & -> & Ho)%list_elem_of_fmap & Hl)%elem_of_union_indexes.
  rewrite Forall_forall in Hall. specialize (Hall o Ho).
  rewrite Forall_forall in Hall. by apply Hall.
Qed.

Lemma process_file_labels_text (os_path_basename : string → string)
    (load_workbook : string → exn + Workbook) (file_path : string) (df : DataFrame) :
  outcome (process_file os_path_basename load_workbook file_path) = inr (Some df) →
  Forall (λ label, is_str label = true) (columns df).
Proof.
  intros (workbook & all_data & _ & Hc & Hall)%process_file_Some.
  eapply pd_concat_labels_text; [exact Hc|].
  eapply Forall_impl; [exact Hall|]. simpl. intros t (name & _ & Hs).
  apply process_sheet_Some in Hs as (_ & sheet & data & _ & _ & _ & _ & Hx).
  by eapply extract_table_labels_text.
Qed.

Lemma annotate_labels_text (df : DataFrame) :
  Forall (λ label, is_str label = true) (columns df) →
  Forall (λ label, is_str label = true) (columns (annotate df)).
Proof.
  intros Hall. unfold annotate. rewrite !columns_setitem.
  rewrite Forall_forall in Hall. apply Forall_forall. intros label Hl.
  repeat (apply add_label_inv in Hl as [Hl| ->]; [|done]). by apply Hall.
Qed.

Section FolderMore.

Variable os_path_basename : string → string.
Variable os_path_join : string → string → string.
Variable os_listdir : string → exn + list string.
Variable load_workbook : string → exn + Workbook.

Local Abbreviation process_file' := (process_file os_path_basename load_workbook).
Local Abbreviation process_year_folder' :=
  (process_year_folder os_path_basename os_path_join os_listdir load_workbook).
Local Abbreviation tables_of' := (tables_of os_path_basename os_path_join load_workbook).

Lemma elem_of_tables_of (input_folder : string) (files : list string) (t : DataFrame) :
  t ∈ tables_of' input_folder files ↔
  ∃ f, f ∈ files ∧
       outcome (process_file' (os_path_join input_folder f)) = inr (Some t).
Proof.
  unfold tables_of. rewrite list_elem_of_omap. unfold file_table. split.
  - intros (f & Hf & Ht). exists f. split; [done|].
    destruct (outcome (process_file' _)) as [e|r]; [done|]. by subst r.
  - intros (f & Hf & Ht). exists f. split; [done|]. by rewrite Ht.
Qed.

(** X9. The Consolidated Table has as many rows as the tables of the files
    together, and the sheet written has a cell in column 0 of row [6 + i]
    exactly for [i] below that number: no row is lost and none is added. *)
Theorem consolidated_row_count (input_folder output_file_path out : string)
    (ws : Worksheet) :
  outcome (process_year_folder' input_folder output_file_path) = inr (Some (out, ws)) →
  ∃ listing,
    os_listdir input_folder = inr listing ∧
    let tables :=
      tables_of' input_folder (List.filter (λ f, endswith f ".xlsx") listing) in
    let n := sum_list (length <$> (records <$> tables)) in
    0 < n ∧ ∀ i, is_Some (ws !! (6 + i, 0)) ↔ i < n.
Proof.
  intros (listing & merged_df & Hl & Hne & Hc & Hwf & _ & ->)%process_year_folder_written.
  exists listing. split; [done|]. intros tables n.
  pose proof (pd_concat_length _ _ Hc) as Hlen. fold tables n in Hlen.
  assert (∀ i, is_Some (to_excel (annotate merged_df) 5 !! (6 + i, 0)) ↔ i < n)
    as Hrows.
  { intros i. destruct (to_excel_lookup (annotate merged_df) 5) as (_ & _ & H3).
    change (6 + i) with (5 + 1 + i).
    rewrite (H3 i 0), <- Hlen, <- length_records_annotate.
    pose proof (annotate_wf _ Hwf) as Hwf'.
    destruct (annotate_holds merged_df "Fecha" Hwf) as [Hin _];
      [unfold annotation_columns; set_solver|].
    destruct (records (annotate merged_df) !! i) as [row|] eqn:Hrow; simpl.
    - apply lookup_lt_Some in Hrow as Hi. split; [done|]. intros _.
      unfold wf in Hwf'. rewrite Forall_forall in Hwf'.
      specialize (Hwf' row (list_elem_of_lookup_2 _ _ _ Hrow)).
      apply list_elem_of_lookup in Hin as [j Hj]. apply lookup_lt_Some in Hj.
      destruct (row !! 0) as [v|] eqn:Hv; [by eexists|].
      apply lookup_ge_None in Hv. lia.
    - apply lookup_ge_None in Hrow. split; [by intros [? ?]|lia]. }
  split; [|done].
  (* a table of a file has a row, so the sum is positive *)
  destruct tables as [|t ts] eqn:Ht; [done|].
  assert (t ∈ tables) as Hin by (rewrite Ht; left).
  subst tables. apply elem_of_tables_of in Hin as (f & _ & Hf).
  apply process_file_Some in Hf as (workbook & all_data & _ & Hct & Hall).
  pose proof (pd_concat_length _ _ Hct) as Hlt.
  apply pd_concat_inr in Hct as (Hne' & _).
  destruct all_data as [|t' ts']; [done|].
  inversion Hall as [|? ? (name & _ & Hs) _]; subst.
  apply process_sheet_Some in Hs as (_ & sheet & data & _ & _ & _ & Hd & Hx).
  apply extract_table_Some in Hx as (_ & df0 & Hnew & _ & ->).
  apply DataFrame_new_wf in Hnew as (_ & _ & Hrec).
  unfold n. rewrite !fmap_cons. simpl. rewrite Hlt. rewrite !fmap_cons. simpl.
  unfold tracked. rewrite !length_records_setitem. unfold selected. simpl.
  rewrite length_fmap, Hrec, length_map, length_sheet_rows. lia.
Qed.

Lemma process_file_file_name (file_path : string) (t : DataFrame) :
  outcome (process_file' file_path) = inr (Some t) →
  CStr "File Name" ∈ columns t ∧ holds "File Name" (os_path_basename file_path) t.
Proof.
  intros (workbook & all_data & _ & Hc & Hall)%process_file_Some.
  apply pd_concat_inr in Hc as (Hne & Hcols & Hrec & _).
  assert (∀ x, x ∈ all_data →
            CStr "File Name" ∈ columns x ∧
            holds "File Name" (os_path_basename file_path) x) as Hx.
  { rewrite Forall_forall in Hall. intros x (name & _ & Hs)%Hall.
    apply process_sheet_Some in Hs as (_ & sheet & data & _ & _ & _ & _ & Hs).
    by apply extract_table_tracking in Hs as (_ & ? & _ & ? & _). }
  split.
  - destruct all_data as [|x xs]; [done|]. rewrite Hcols.
    apply elem_of_union_indexes. exists (columns x).
    split; [rewrite fmap_cons; left|]. apply Hx. left.
  - intros r j Hr. revert j.
    change (row_holds "File Name" (os_path_basename file_path) (columns t) r).
    rewrite Hrec in Hr. apply list_elem_of_join in Hr as (rs & Hr & Hrs).
    apply list_elem_of_fmap in Hrs as (x & -> & Hin).
    destruct (Hx x Hin). by eapply rows_under_holds.
Qed.

(** X10. Every row of the Consolidated Table holds, under 'File Name', the base
    name of a file of the folder that has the extension: the annotation
    columns and the concatenation leave the tracking value of each row in
    place. *)
Theorem consolidated_rows_name_their_file (input_folder output_file_path out : string)
    (ws : Worksheet) :
  outcome (process_year_folder' input_folder output_file_path) = inr (Some (out, ws)) →
  ∃ listing merged_df,
    os_listdir input_folder = inr listing ∧
    ws = to_excel (annotate merged_df) 5 ∧
    CStr "File Name" ∈ columns (annotate merged_df) ∧
    ∀ r, r ∈ records (annotate merged_df) →
      ∃ f, f ∈ listing ∧ endswith f ".xlsx" = true ∧
           row_holds "File Name" (os_path_basename (os_path_join input_folder f))
                     (columns (annotate merged_df)) r.
Proof.
  intros (listing & merged_df & Hl & Hne & Hc & Hwf & _ & ->)%process_year_folder_written.
  exists listing, merged_df. split; [done|]. split; [done|].
  apply pd_concat_inr in Hc as (_ & Hcols & Hrec & _).
  assert (∀ t, t ∈ tables_of' input_folder
                 (List.filter (λ f, endswith f ".xlsx") listing) →
            ∃ f, f ∈ listing ∧ endswith f ".xlsx" = true ∧
                 CStr "File Name" ∈ columns t ∧
                 holds "File Name"
                   (os_path_basename (os_path_join input_folder f)) t) as Ht.
  { intros t (f & Hf%list_elem_of_In%filter_In & Hout)%elem_of_tables_of.
    destruct Hf as [Hf%list_elem_of_In Hext].
    apply process_file_file_name in Hout as [? ?]. by exists f. }
  split.
  - unfold annotate. rewrite !columns_setitem. do 4 apply add_label_incl.
    destruct (tables_of' _ _) as [|t ts]; [done|].
    rewrite Hcols. apply elem_of_union_indexes. exists (columns t).
    split; [rewrite fmap_cons; left|].
    destruct (Ht t) as (_ & _ & _ & ? & _); [left|done].
  - intros r' (r & Hr & Hkeep)%annotate_row_holds; [|done].
    rewrite Hrec in Hr. apply list_elem_of_join in Hr as (rs & Hr & Hrs).
    apply list_elem_of_fmap in Hrs as (t & -> & Hin).
    destruct (Ht t Hin) as (f & Hf & Hext & HF & Hh).
    exists f. split; [done|]. split; [done|].
    apply Hkeep; [|by eapply rows_under_holds].
    unfold annotation_columns. intros Hkey.
    repeat (apply elem_of_cons in Hkey as [?|Hkey]; [done|]).
    by apply elem_of_nil in Hkey.
Qed.

(** X11. The error that is not caught: when the table of one file repeats a
    label and the table of another file has other labels, the
    concatenation of line 111 raises, [process_year_folder] ends with that
    exception and nothing is written. *)
Theorem repeated_labels_abort_the_batch (input_folder output_file_path : string)
    (listing : list string) (f1 f2 : string) (t1 t2 : DataFrame) :
  os_listdir input_folder = inr listing →
  f1 ∈ listing → endswith f1 ".xlsx" = true →
  f2 ∈ listing → endswith f2 ".xlsx" = true →
  outcome (process_file' (os_path_join input_folder f1)) = inr (Some t1) →
  outcome (process_file' (os_path_join input_folder f2)) = inr (Some t2) →
  ¬ NoDup (columns t1) →
  columns t2 ≠ columns t1 →
  ∃ e, outcome (process_year_folder' input_folder output_file_path) = inl e.
Proof.
  intros Hl Hf1 He1 Hf2 He2 Ht1 Ht2 Hdup Hne.
  rewrite process_year_folder_outcome, Hl. cbv zeta.
  assert (∀ f t, f ∈ listing → endswith f ".xlsx" = true →
            outcome (process_file' (os_path_join input_folder f)) = inr (Some t) →
            t ∈ tables_of' input_folder
                  (List.filter (λ f, endswith f ".xlsx") listing)) as Hin.
  { intros f t Hf He Ht. apply elem_of_tables_of. exists f. split; [|done].
    apply list_elem_of_In, filter_In. split; [by apply list_elem_of_In|done]. }
  pose proof (Hin _ _ Hf1 He1 Ht1) as Hin1.
  pose proof (Hin _ _ Hf2 He2 Ht2) as Hin2.
  destruct (pd_concat_repeated_labels _ t1 t2 Hin1 Hin2 Hdup Hne) as [e He].
  rewrite He. destruct (tables_of' _ _) as [|t ts]; [by apply elem_of_nil in Hin1|].
  by eexists.
Qed.

(** X13. Files whose tables have the same labels, none of them an annotation
    label, are stacked in the order of the directory listing: the sheet
    written is that of the table with these labels followed by the four
    annotation labels, and the rows of the files one after the other, each
    followed by four empty strings. *)
Theorem same_labels_are_stacked (input_folder output_file_path : string)
    (listing : list string) (labels : list cell) :
  os_listdir input_folder = inr listing →
  let tables :=
    tables_of' input_folder (List.filter (λ f, endswith f ".xlsx") listing) in
  tables ≠ [] →
  Forall (λ t, columns t = labels) tables →
  (∀ key, key ∈ annotation_columns → CStr key ∉ labels) →
  outcome (process_year_folder' input_folder output_file_path) =
  inr (Some (output_file_path,
             to_excel
               (mkDataFrame
                  (labels ++ (CStr <$> annotation_columns))
                  (map (λ r, r ++ replicate 4 (Some EmptyString))
                       (mjoin (records <$> tables))))
               5)).
Proof.
  intros Hl tables Hne Hsame Hfresh.
  rewrite process_year_folder_outcome, Hl. cbv zeta. fold tables.
  rewrite (pd_concat_same_labels tables labels) by done.
  destruct tables as [|t ts]; [done|].
  by rewrite annotate_fresh by done.
Qed.

(** X14. The sheet written has no cell outside the table: a cell is in a row
    from 5 to 5 plus the number of rows of the Consolidated Table and in a
    column below its number of labels, and its value is a text. *)
Theorem written_cells_lie_in_the_table (input_folder output_file_path out : string)
    (ws : Worksheet) :
  outcome (process_year_folder' input_folder output_file_path) = inr (Some (out, ws)) →
  ∃ listing merged_df,
    os_listdir input_folder = inr listing ∧
    pd_concat (tables_of' input_folder
                 (List.filter (λ f, endswith f ".xlsx") listing)) = inr merged_df ∧
    ∀ r c v, ws !! (r, c) = Some v →
      5 ≤ r ≤ 5 + length (records (annotate merged_df)) ∧
      c < length (columns (annotate merged_df)) ∧
      is_str v = true.
Proof.
  intros (listing & merged_df & Hl & Hne & Hc & Hwf & _ & ->)%process_year_folder_written.
  exists listing, merged_df. split; [done|]. split; [done|].
  assert (Forall (λ label, is_str label = true) (columns (annotate merged_df)))
    as Htext.
  { apply annotate_labels_text. eapply pd_concat_labels_text; [exact Hc|].
    apply Forall_forall. intros t (f & _ & Hf)%elem_of_tables_of.
    by eapply process_file_labels_text. }
  pose proof (annotate_wf _ Hwf) as Hwf'.
  unfold wf in Hwf'. rewrite Forall_forall in Hwf'.
  destruct (to_excel_lookup (annotate merged_df) 5) as (H1 & H2 & H3).
  intros r c v Hv.
  destruct (decide (r < 5)) as [Hlt|Hge]; [by rewrite H1 in Hv|].
  destruct (decide (r = 5)) as [->|Hne5].
  - rewrite H2 in Hv. split; [lia|]. split; [by eapply lookup_lt_Some|].
    rewrite Forall_forall in Htext. apply Htext. by eapply list_elem_of_lookup_2.
  - replace r with (5 + 1 + (r - 6)) in Hv by lia. rewrite H3 in Hv.
    destruct (records (annotate merged_df) !! (r - 6)) as [row|] eqn:Hrow;
      [|done].
    simpl in Hv. destruct (row !! c) as [x|] eqn:Hx; [|done]. simpl in Hv.
    injection Hv as <-. apply lookup_lt_Some in Hrow as Hi.
    split; [lia|]. split; [|done].
    rewrite <- (Hwf' row (list_elem_of_lookup_2 _ _ _ Hrow)).
    by eapply lookup_lt_Some.
Qed.

End FolderMore.

Lemma bind_lift_inr {A B} (a : A) (k : A → M B) : bind (lift (inr a)) k = k a.
Proof. unfold bind, lift. by destruct (k a). Qed.

Lemma process_file_loader (os_path_basename : string → string)
    (load_workbook load_workbook' : string → exn + Workbook) (file_path : string) :
  load_workbook file_path = load_workbook' file_path →
  process_file os_path_basename load_workbook file_path =
  process_file os_path_basename load_workbook' file_path.
Proof. intros Hload. unfold process_file, process_file_try. by rewrite Hload. Qed.

Lemma process_files_loader (os_path_basename : string → string)
    (os_path_join : string → string → string)
    (load_workbook load_workbook' : string → exn + Workbook)
    (input_folder : string) (n i : nat) (files : list string)
    (merged_data : list DataFrame) :
  Forall (λ f, load_workbook (os_path_join input_folder f) =
               load_workbook' (os_path_join input_folder f)) files →
  process_files os_path_basename os_path_join load_workbook
    input_folder n i files merged_data =
  process_files os_path_basename os_path_join load_workbook'
    input_folder n i files merged_data.
Proof.
  revert i merged_data. induction files as [|f files IH]; intros i merged_data Hall;
    [done|].
  inversion Hall as [|? ? Hf Hfiles]; subst. simpl.
  rewrite (process_file_loader _ _ _ _ Hf). unfold bind.
  destruct (process_file _ load_workbook' _) as [l [e|r]]; simpl; [done|].
  by rewrite (IH _ _ Hfiles).
Qed.

(** X15. A run reads the file system only through the entries of the folder
    that end in '.xlsx': two directory listings with the same such entries
    in the same order, and two readers that agree on the paths of these
    entries, give the same run, log included.  No other file is opened. *)
Theorem run_depends_only_on_xlsx_entries (os_path_basename : string → string)
    (os_path_join : string → string → string)
    (os_listdir os_listdir' : string → exn + list string)
    (load_workbook load_workbook' : string → exn + Workbook)
    (input_folder output_file_path : string) (listing listing' : list string) :
  os_listdir input_folder = inr listing →
  os_listdir' input_folder = inr listing' →
  List.filter (λ f, endswith f ".xlsx") listing =
  List.filter (λ f, endswith f ".xlsx") listing' →
  (∀ f, f ∈ listing → endswith f ".xlsx" = true →
        load_workbook (os_path_join input_folder f) =
        load_workbook' (os_path_join input_folder f)) →
  process_year_folder os_path_basename os_path_join os_listdir load_workbook
    input_folder output_file_path =
  process_year_folder os_path_basename os_path_join os_listdir' load_workbook'
    input_folder output_file_path.
Proof.
  intros Hl Hl' Hsame Hload. unfold process_year_folder. rewrite Hl, Hl'.
  rewrite !bind_lift_inr. cbv beta. rewrite <- Hsame.
  rewrite (process_files_loader _ _ load_workbook load_workbook'); [done|].
  apply Forall_forall. intros f Hf%list_elem_of_In%filter_In.
  destruct Hf as [Hf%list_elem_of_In Hext]. by apply Hload.
Qed.

(** ** More on one workbook *)

Lemma process_sheets_inr (os_path_basename : string → string) (file_path : string)
    (workbook : Workbook) (names : list string) (all_data l : list DataFrame) :
  outcome (process_sheets os_path_basename file_path workbook names all_data) = inr l →
  l = all_data ++ sheet_tables os_path_basename file_path workbook names.
Proof.
  revert all_data. induction names as [|name names IH]; intros all_data; simpl.
  - intros [= <-]. by rewrite app_nil_r.
  - rewrite outcome_bind. unfold sheet_tables, sheet_table. simpl.
    destruct (outcome (process_sheet _ _ _ name)) as [e|r]; [done|].
    intros ->%IH. destruct r as [df|]; [|done]. by rewrite <- app_assoc.
Qed.

(** X12. A workbook of which one sheet gives a table that repeats a label, as
    two headers equal after stripping do, and another sheet gives a table
    with other labels, yields no table at all: the concatenation of line 82
    raises, and [process_file] logs the error and returns [None]. *)
Theorem repeated_labels_lose_the_file (os_path_basename : string → string)
    (load_workbook : string → exn + Workbook) (file_path : string)
    (workbook : Workbook) (name1 name2 : string) (t1 t2 : DataFrame) :
  load_workbook file_path = inr workbook →
  name1 ∈ sheetnames workbook →
  name2 ∈ sheetnames workbook →
  outcome (process_sheet os_path_basename file_path workbook name1) = inr (Some t1) →
  outcome (process_sheet os_path_basename file_path workbook name2) = inr (Some t2) →
  ¬ NoDup (columns t1) →
  columns t2 ≠ columns t1 →
  outcome (process_file os_path_basename load_workbook file_path) = inr None ∧
  ∃ e, (ERROR, MsgErrorProcessingFile file_path e)
       ∈ logs (process_file os_path_basename load_workbook file_path).
Proof.
  intros Hload Hn1 Hn2 Ht1 Ht2 Hdup Hne.
  assert (∃ e, outcome (process_file_try os_path_basename load_workbook file_path)
               = inl e) as [e He].
  { rewrite (process_file_try_outcome _ _ _ _ Hload).
    destruct (outcome (process_sheets _ _ _ _ _)) as [e|l] eqn:Hs; [by eexists|].
    apply process_sheets_inr in Hs. simpl in Hs. subst l.
    assert (∀ name t, name ∈ sheetnames workbook →
              outcome (process_sheet os_path_basename file_path workbook name)
                = inr (Some t) →
              t ∈ sheet_tables os_path_basename file_path workbook
                    (sheetnames workbook)) as Hin.
    { intros name t Hname Ht. unfold sheet_tables. apply list_elem_of_omap.
      exists name. split; [done|]. unfold sheet_table. by rewrite Ht. }
    pose proof (Hin _ _ Hn1 Ht1) as Hin1. pose proof (Hin _ _ Hn2 Ht2) as Hin2.
    destruct (pd_concat_repeated_labels _ t1 t2 Hin1 Hin2 Hdup Hne) as [e He].
    rewrite He. destruct (sheet_tables _ _ _ _) as [|t ts];
      [by apply elem_of_nil in Hin1|]. by eexists. }
  split.
  - by rewrite process_file_outcome, He.
  - exists e. by apply process_file_logs_error.
Qed.

(** ** The further theorems at the examples *)

Ltac by_compute :=
  first [ vm_compute; reflexivity
        | apply (bool_decide_eq_true_1 _); vm_compute; reflexivity
        | apply (bool_decide_eq_false_1 _); vm_compute; reflexivity ].

Lemma chart_sheet_loses_the_file_witness :
  constant_load_workbook chart_workbook "graf/G.xlsx" = inr chart_workbook ∧
  values (mkSheet "Grafica" visible None) = None ∧
  outcome (process_file posixpath_basename (constant_load_workbook chart_workbook)
             "graf/G.xlsx") = inr None.
Proof.
  split; [reflexivity|]. split; [reflexivity|].
  refine (proj1 (chart_sheet_loses_the_file posixpath_basename
                   (constant_load_workbook chart_workbook) "graf/G.xlsx"
                   chart_workbook (mkSheet "Grafica" visible None) _ _ _ _ _ _));
    by_compute.
Defined.

Lemma file_table_is_concat_of_sheet_tables_witness :
  constant_load_workbook two_sheets "par/T.xlsx" = inr two_sheets ∧
  outcome (process_file posixpath_basename (constant_load_workbook two_sheets)
             "par/T.xlsx") =
  inr match sheet_tables posixpath_basename "par/T.xlsx" two_sheets
              (sheetnames two_sheets) with
      | [] => None
      | all_data =>
          match pd_concat all_data with
          | inl _ => None
          | inr df => Some df
          end
      end.
Proof.
  split; [reflexivity|].
  apply (file_table_is_concat_of_sheet_tables posixpath_basename
           (constant_load_workbook two_sheets) "par/T.xlsx" two_sheets);
    [reflexivity|].
  repeat constructor; exists turno_grid, 12; (split; [reflexivity|repeat constructor]).
Defined.

Lemma file_of_skipped_sheets_warns_witness :
  example_load_workbook "vacio/File2.xlsx"
    = inr [mkSheet "Hoja1" visible (Some turno_grid)] ∧
  outcome (process_file posixpath_basename example_load_workbook "vacio/File2.xlsx")
    = inr None ∧
  (WARNING, MsgNoValidData "vacio/File2.xlsx")
  ∈ logs (process_file posixpath_basename example_load_workbook "vacio/File2.xlsx").
Proof.
  split; [reflexivity|].
  apply (file_of_skipped_sheets_warns posixpath_basename example_load_workbook
           "vacio/File2.xlsx" [mkSheet "Hoja1" visible (Some turno_grid)]);
    [reflexivity|].
  repeat constructor.
Defined.

Lemma skipped_sheet_is_removable_witness :
  NoDup (sheetnames three_sheets) ∧
  sheet_state (mkSheet "Resumen" hidden (Some estado_grid)) = hidden ∧
  outcome (process_file posixpath_basename (constant_load_workbook three_sheets)
             "x/T.xlsx") =
  outcome (process_file posixpath_basename (constant_load_workbook two_sheets)
             "x/T.xlsx").
Proof.
  assert (NoDup (sheetnames three_sheets)) as Hnd by by_compute.
  split; [exact Hnd|]. split; [reflexivity|].
  apply (skipped_sheet_is_removable posixpath_basename
           (constant_load_workbook three_sheets) (constant_load_workbook two_sheets)
           "x/T.xlsx" [mkSheet "Turno1" visible (Some turno_grid)]
           [mkSheet "Turno2" visible (Some turno_grid)]
           (mkSheet "Resumen" hidden (Some estado_grid)));
    [reflexivity|reflexivity|exact Hnd|].
  right. left. reflexivity.
Defined.

Lemma blank_header_row_witness :
  5 < length blank_header_grid ∧
  Forall (λ row, length row = 2) blank_header_grid ∧
  Forall (λ h, h = CNone) (sheet_headers blank_header_grid) ∧
  outcome (extract_table posixpath_basename "x/B.xlsx" "S" blank_header_grid) =
  inr (Some (mkDataFrame [CStr "File Name"; CStr "Sheet Name"]
               [[Some "B.xlsx"; Some "S"]; [Some "B.xlsx"; Some "S"]])).
Proof.
  assert (5 < length blank_header_grid) as H1 by (simpl; lia).
  assert (Forall (λ row, length row = 2) blank_header_grid) as H2
    by (repeat constructor).
  assert (Forall (λ h, h = CNone) (sheet_headers blank_header_grid)) as H3
    by (repeat constructor).
  split; [exact H1|]. split; [exact H2|]. split; [exact H3|].
  exact (blank_header_row_leaves_tracking_columns posixpath_basename
           "x/B.xlsx" "S" blank_header_grid 2 H1 H2 H3).
Defined.

Lemma extracted_table_has_no_missing_value_witness :
  Forall (λ row, length row = 2) clean_grid ∧
  outcome (extract_table posixpath_basename "x/C.xlsx" "S" clean_grid)
    = inr (Some clean_table) ∧
  clean_grid !! (5 + 1) = Some [CNone; CFloat "2.5"] ∧
  Forall (Forall is_Some) (records clean_table) ∧
  ∃ k r, records clean_table !! 1 = Some r ∧ r !! k = Some (Some EmptyString).
Proof.
  assert (Forall (λ row, length row = 2) clean_grid) as H1
    by (repeat constructor).
  assert (outcome (extract_table posixpath_basename "x/C.xlsx" "S" clean_grid)
          = inr (Some clean_table)) as H2 by by_compute.
  split; [exact H1|]. split; [exact H2|]. split; [reflexivity|].
  destruct (extracted_table_has_no_missing_value posixpath_basename
              "x/C.xlsx" "S" clean_grid 2 clean_table H1 H2)
    as (Hpresent & js & Hjs & Hcells).
  split; [exact Hpresent|].
  assert (0 ∈ js) as [k Hk]%list_elem_of_lookup_1.
  { apply Hjs. exists "ID". split; reflexivity. }
  exists k.
  apply (Hcells k 0 "ID" 1 [CNone; CFloat "2.5"] CNone Hk);
    first [reflexivity | by_compute | (vm_compute; discriminate)].
Defined.

Lemma extracted_table_labels_witness :
  outcome (extract_table posixpath_basename "2023/File1.xlsx" "Turno1" turno_grid)
    = inr (Some turno_table) ∧
  length (columns turno_table) ≤ 13 ∧
  Forall (λ label, is_str label = true) (columns turno_table).
Proof.
  assert (outcome (extract_table posixpath_basename "2023/File1.xlsx" "Turno1"
                     turno_grid) = inr (Some turno_table)) as H by by_compute.
  split; [exact H|].
  exact (extracted_table_labels posixpath_basename "2023/File1.xlsx" "Turno1"
           turno_grid turno_table H).
Defined.

Lemma file_rows_name_their_source_witness :
  outcome (process_file posixpath_basename example_load_workbook "2023/File1.xlsx")
    = inr (Some turno_table) ∧
  holds "File Name" (posixpath_basename "2023/File1.xlsx") turno_table.
Proof.
  assert (outcome (process_file posixpath_basename example_load_workbook
                     "2023/File1.xlsx") = inr (Some turno_table)) as H
    by by_compute.
  split; [exact H|].
  exact (proj1 (proj2 (proj2 (file_rows_name_their_source posixpath_basename
           example_load_workbook "2023/File1.xlsx" turno_table H)))).
Defined.

Lemma consolidated_row_count_witness :
  outcome (process_year_folder posixpath_basename posixpath_join example_listdir
             example_load_workbook "2023" "RP2023.xlsx")
    = inr (Some ("RP2023.xlsx", to_excel example_consolidated 5)) ∧
  ∃ listing,
    example_listdir "2023" = inr listing ∧
    ∀ i, is_Some (to_excel example_consolidated 5 !! (6 + i, 0)) ↔
         i < sum_list (length <$> (records <$>
               tables_of posixpath_basename posixpath_join example_load_workbook
                 "2023" (List.filter (λ f, endswith f ".xlsx") listing))).
Proof.
  assert (outcome (process_year_folder posixpath_basename posixpath_join
                     example_listdir example_load_workbook "2023" "RP2023.xlsx")
          = inr (Some ("RP2023.xlsx", to_excel example_consolidated 5))) as H
    by by_compute.
  split; [exact H|].
  destruct (consolidated_row_count posixpath_basename posixpath_join
              example_listdir example_load_workbook "2023" "RP2023.xlsx"
              "RP2023.xlsx" (to_excel example_consolidated 5) H)
    as (listing & Hl & _ & Hrows).
  exists listing. exact (conj Hl Hrows).
Defined.

Lemma consolidated_rows_name_their_file_witness :
  outcome (process_year_folder posixpath_basename posixpath_join example_listdir
             example_load_workbook "2023" "RP2023.xlsx")
    = inr (Some ("RP2023.xlsx", to_excel example_consolidated 5)) ∧
  ∃ listing merged_df,
    example_listdir "2023" = inr listing ∧
    to_excel example_consolidated 5 = to_excel (annotate merged_df) 5 ∧
    CStr "File Name" ∈ columns (annotate merged_df).
Proof.
  assert (outcome (process_year_folder posixpath_basename posixpath_join
                     example_listdir example_load_workbook "2023" "RP2023.xlsx")
          = inr (Some ("RP2023.xlsx", to_excel example_consolidated 5))) as H
    by by_compute.
  split; [exact H|].
  destruct (consolidated_rows_name_their_file posixpath_basename posixpath_join
              example_listdir example_load_workbook "2023" "RP2023.xlsx"
              "RP2023.xlsx" (to_excel example_consolidated 5) H)
    as (listing & merged_df & Hl & Hws & Hin & _).
  exists listing, merged_df. exact (conj Hl (conj Hws Hin)).
Defined.

Lemma repeated_labels_abort_the_batch_witness :
  extra_listdir "dup" = inr ["A.xlsx"; "B.xlsx"] ∧
  outcome (process_file posixpath_basename extra_load_workbook
             (posixpath_join "dup" "A.xlsx")) = inr (Some obs_table) ∧
  outcome (process_file posixpath_basename extra_load_workbook
             (posixpath_join "dup" "B.xlsx")) = inr (Some estado_table) ∧
  ∃ e, outcome (process_year_folder posixpath_basename posixpath_join extra_listdir
                  extra_load_workbook "dup" "RP.xlsx") = inl e.
Proof.
  assert (outcome (process_file posixpath_basename extra_load_workbook
                     (posixpath_join "dup" "A.xlsx")) = inr (Some obs_table))
    as H1 by by_compute.
  assert (outcome (process_file posixpath_basename extra_load_workbook
                     (posixpath_join "dup" "B.xlsx")) = inr (Some estado_table))
    as H2 by by_compute.
  split; [reflexivity|]. split; [exact H1|]. split; [exact H2|].
  refine (repeated_labels_abort_the_batch posixpath_basename posixpath_join
            extra_listdir extra_load_workbook "dup" "RP.xlsx"
            ["A.xlsx"; "B.xlsx"] "A.xlsx" "B.xlsx" obs_table estado_table
            _ _ _ _ _ H1 H2 _ _); by_compute.
Defined.

Lemma same_labels_are_stacked_witness :
  extra_listdir "par" = inr ["A.xlsx"; "leeme.md"; "B.xlsx"] ∧
  outcome (process_year_folder posixpath_basename posixpath_join extra_listdir
             extra_load_workbook "par" "RP.xlsx") =
  inr (Some ("RP.xlsx",
             to_excel
               (mkDataFrame
                  (columns turno_table ++ (CStr <$> annotation_columns))
                  (map (λ r, r ++ replicate 4 (Some EmptyString))
                       (mjoin (records <$>
                          tables_of posixpath_basename posixpath_join
                            extra_load_workbook "par"
                            (List.filter (λ f, endswith f ".xlsx")
                               ["A.xlsx"; "leeme.md"; "B.xlsx"])))))
               5)).
Proof.
  split; [reflexivity|].
  apply (same_labels_are_stacked posixpath_basename posixpath_join extra_listdir
           extra_load_workbook "par" "RP.xlsx" ["A.xlsx"; "leeme.md"; "B.xlsx"]
           (columns turno_table)); [reflexivity|by_compute|by_compute|].
  intros key Hkey. unfold annotation_columns in Hkey.
  repeat (apply elem_of_cons in Hkey as [->|Hkey]; [by_compute|]).
  by apply elem_of_nil in Hkey.
Defined.

Lemma written_cells_lie_in_the_table_witness :
  outcome (process_year_folder posixpath_basename posixpath_join example_listdir
             example_load_workbook "2023" "RP2023.xlsx")
    = inr (Some ("RP2023.xlsx", to_excel example_consolidated 5)) ∧
  ∃ merged_df,
    ∀ r c v, to_excel example_consolidated 5 !! (r, c) = Some v →
      5 ≤ r ≤ 5 + length (records (annotate merged_df)) ∧
      c < length (columns (annotate merged_df)) ∧
      is_str v = true.
Proof.
  assert (outcome (process_year_folder posixpath_basename posixpath_join
                     example_listdir example_load_workbook "2023" "RP2023.xlsx")
          = inr (Some ("RP2023.xlsx", to_excel example_consolidated 5))) as H
    by by_compute.
  split; [exact H|].
  destruct (written_cells_lie_in_the_table posixpath_basename posixpath_join
              example_listdir example_load_workbook "2023" "RP2023.xlsx"
              "RP2023.xlsx" (to_excel example_consolidated 5) H)
    as (listing & merged_df & _ & _ & Hcells).
  exists merged_df. exact Hcells.
Defined.

Lemma run_depends_only_on_xlsx_entries_witness :
  example_listdir "2023" = inr ["Roto.xlsx"; "File1.xlsx"; "notas.txt"; "File2.xlsx"] ∧
  extra_listdir "2023" = inr ["Roto.xlsx"; "File1.xlsx"; "File2.xlsx"] ∧
  process_year_folder posixpath_basename posixpath_join example_listdir
    example_load_workbook "2023" "RP2023.xlsx" =
  process_year_folder posixpath_basename posixpath_join extra_listdir
    extra_load_workbook "2023" "RP2023.xlsx".
Proof.
  split; [reflexivity|]. split; [reflexivity|].
  apply (run_depends_only_on_xlsx_entries posixpath_basename posixpath_join
           example_listdir extra_listdir example_load_workbook extra_load_workbook
           "2023" "RP2023.xlsx"
           ["Roto.xlsx"; "File1.xlsx"; "notas.txt"; "File2.xlsx"]
           ["Roto.xlsx"; "File1.xlsx"; "File2.xlsx"]);
    [reflexivity|reflexivity|by_compute|].
  intros f Hf _.
  repeat (apply elem_of_cons in Hf as [->|Hf]; [by_compute|]).
  by apply elem_of_nil in Hf.
Defined.

Lemma repeated_labels_lose_the_file_witness :
  constant_load_workbook obs_workbook "x/O.xlsx" = inr obs_workbook ∧
  outcome (process_file posixpath_basename (constant_load_workbook obs_workbook)
             "x/O.xlsx") = inr None.
Proof.
  split; [reflexivity|].
  refine (proj1 (repeated_labels_lose_the_file posixpath_basename
                   (constant_load_workbook obs_workbook) "x/O.xlsx" obs_workbook
                   "Obs" "Estado"
                   (mkDataFrame
                      [CStr "Obs"; CStr "Obs"; CStr "File Name"; CStr "Sheet Name"]
                      [[Some "x"; Some "y"; Some "O.xlsx"; Some "Obs"]])
                   (mkDataFrame
                      [CStr "Status"; CStr "File Name"; CStr "Sheet Name"]
                      [[Some "abierto"; Some "O.xlsx"; Some "Estado"]])
                   _ _ _ _ _ _ _)); by_compute.
Defined.

(** ** Worksheets that are taken *)

Lemma compress_all_true {A} (mask : list bool) (l : list A) :
  Forall (λ b, b = true) mask → length l = length mask → compress mask l = l.
Proof.
  revert l. induction mask as [|b mask IH]; intros [|x l] Hall Hlen; simpl;
    try done.
  inversion Hall as [|? ? -> Hmask]; subst. f_equal. apply IH; [done|].
  simpl in Hlen. lia.
Qed.

Lemma filter_all_true {A} (f : A → bool) (l : list A) :
  Forall (λ x, f x = true) l → List.filter f l = l.
Proof.
  induction 1 as [|x l Hx _ IH]; simpl; [done|]. by rewrite Hx, IH.
Qed.

(** X16. A sheet that is not named 'Hoja1' and not in state [hidden], with rows
    of one width, a row after the header row and a text among the header
    cells of columns A to K, always gives a table, with one row for each
    worksheet row after the header row. *)
Theorem worksheet_with_text_header_is_taken (os_path_basename : string → string)
    (file_path : string) (workbook : Workbook) (sheet_name : string)
    (sheet : Sheet) (data : list (list cell)) (w : nat) (s : string) :
  getitem workbook sheet_name = inr sheet →
  sheet_name ≠ "Hoja1" →
  sheet_state sheet ≠ hidden →
  values sheet = Some data →
  5 < length data →
  Forall (λ row, length row = w) data →
  CStr s ∈ sheet_headers data →
  ∃ df,
    outcome (process_sheet os_path_basename file_path workbook sheet_name)
      = inr (Some df) ∧
    length (records df) = length data - 5 ∧
    (startswith s "Unnamed" = false → CStr (strip s) ∈ columns df).
Proof.
  intros Hget Hname Hstate Hval Hlen Hrect Hs.
  rewrite process_sheet_outcome, Hget.
  apply String.eqb_neq in Hname. rewrite Hname.
  rewrite bool_decide_false by done. unfold sheet_values. rewrite Hval.
  rewrite (extract_table_cases _ _ _ data w) by done.
  rewrite (str_accessor_text _ s Hs). eexists. split; [done|]. split.
  - unfold tracked. rewrite !length_records_setitem. unfold selected. simpl.
    by rewrite length_fmap, length_map, length_drop.
  - intros Hun. unfold tracked. rewrite !columns_setitem.
    apply add_label_incl, add_label_incl. unfold selected. simpl.
    apply list_elem_of_fmap. exists (CStr s). split; [done|].
    apply list_elem_of_In, filter_In. split; [by apply list_elem_of_In|].
    simpl. by rewrite Hun.
Qed.

(** X17. A worksheet with rows of one width whose header cells of columns A to
    K are all texts that pass the filter, none of them a tracking name once
    stripped, is copied as it is: the labels are the stripped headers
    followed by 'File Name' and 'Sheet Name', and each row is the text of
    its cells of columns A to K followed by the base name of the file and
    the name of the sheet. *)
Theorem clean_worksheet_is_copied (os_path_basename : string → string)
    (file_path sheet_name : string) (data : list (list cell)) (w : nat) :
  5 < length data →
  Forall (λ row, length row = w) data →
  Forall (λ h, kept h = true) (sheet_headers data) →
  CStr "File Name" ∉ strip_label <$> sheet_headers data →
  CStr "Sheet Name" ∉ strip_label <$> sheet_headers data →
  outcome (extract_table os_path_basename file_path sheet_name data) =
  inr (Some (mkDataFrame
               ((strip_label <$> sheet_headers data)
                  ++ [CStr "File Name"; CStr "Sheet Name"])
               (map (λ row, map Some (map coerce (take 11 row))
                              ++ [Some (os_path_basename file_path); Some sheet_name])
                    (drop 5 data)))).
Proof.
  intros Hlen Hrect Hkept HF HS.
  rewrite (extract_table_cases _ _ _ data w) by done.
  rewrite str_accessor_all_text
    by (eapply Forall_impl; [exact Hkept|]; apply kept_is_str).
  do 2 f_equal. unfold tracked, selected. rewrite filter_all_true by done.
  rewrite (setitem_fresh "File Name") by done. simpl.
  rewrite (setitem_fresh "Sheet Name").
  2:{ simpl. intros [?|Hin]%elem_of_app; [done|].
      by apply list_elem_of_singleton in Hin. }
  simpl. rewrite <- app_assoc. f_equal.
  change (?f <$> ?l) with (map f l) at 2. rewrite !map_map.
  apply map_ext_in. intros row Hrow%list_elem_of_In.
  rewrite <- app_assoc. f_equal. apply compress_all_true.
  - apply Forall_fmap. eapply Forall_impl; [exact Hkept|]. done.
  - rewrite length_fmap, !length_map, length_take. unfold sheet_headers.
    rewrite length_take. f_equal. rewrite Forall_forall in Hrect.
    rewrite (Hrect row) by (by eapply subseteq_drop).
    destruct (data !! 4) as [row4|] eqn:H4; simpl.
    + symmetry. apply Hrect. by eapply list_elem_of_lookup_2.
    + apply lookup_ge_None in H4. lia.
Qed.

Lemma worksheet_with_text_header_is_taken_witness :
  getitem chart_workbook "Turno1" = inr (mkSheet "Turno1" visible (Some turno_grid)) ∧
  5 < length turno_grid ∧
  Forall (λ row, length row = 12) turno_grid ∧
  CStr "ID" ∈ sheet_headers turno_grid ∧
  ∃ df,
    outcome (process_sheet posixpath_basename "graf/G.xlsx" chart_workbook "Turno1")
      = inr (Some df) ∧
    length (records df) = length turno_grid - 5 ∧
    (startswith "ID" "Unnamed" = false → CStr (strip "ID") ∈ columns df).
Proof.
  assert (5 < length turno_grid) as H1 by (simpl; lia).
  assert (Forall (λ row, length row = 12) turno_grid) as H2
    by (repeat constructor).
  assert (CStr "ID" ∈ sheet_headers turno_grid) as H3 by by_compute.
  split; [reflexivity|]. split; [exact H1|]. split; [exact H2|].
  split; [exact H3|].
  refine (worksheet_with_text_header_is_taken posixpath_basename "graf/G.xlsx"
            chart_workbook "Turno1" (mkSheet "Turno1" visible (Some turno_grid))
            turno_grid 12 "ID" _ _ _ _ H1 H2 H3); by_compute.
Defined.

Lemma clean_worksheet_is_copied_witness :
  5 < length clean_grid ∧
  Forall (λ row, length row = 2) clean_grid ∧
  Forall (λ h, kept h = true) (sheet_headers clean_grid) ∧
  outcome (extract_table posixpath_basename "x/C.xlsx" "S" clean_grid) =
  inr (Some (mkDataFrame
               [CStr "ID"; CStr "Nombre"; CStr "File Name"; CStr "Sheet Name"]
               [ [Some "1"; Some "Ana"; Some "C.xlsx"; Some "S"];
                 [Some EmptyString; Some "2.5"; Some "C.xlsx"; Some "S"] ])).
Proof.
  assert (5 < length clean_grid) as H1 by (simpl; lia).
  assert (Forall (λ row, length row = 2) clean_grid) as H2
    by (repeat constructor).
  assert (Forall (λ h, kept h = true) (sheet_headers clean_grid)) as H3
    by (repeat constructor).
  split; [exact H1|]. split; [exact H2|]. split; [exact H3|].
  refine (clean_worksheet_is_copied posixpath_basename "x/C.xlsx" "S"
            clean_grid 2 H1 H2 H3 _ _); by_compute.
Defined.
